(** * EmployeeTask: access control, task filters and export

    A shallow embedding of the task tracker's back end (the Express
    controllers of [server.js]: [login], [getEmployeeTasks], [updateTask],
    [deleteTask], [exportTasks]) and of the two dashboards' client-side
    filter pipelines ([EmployeeDashboard.filteredTasks],
    [AdminDashboard.filteredTasks], [handleExport]).

    Conventions of the embedding.
    - A JavaScript string is a [string] whose characters are the UTF-16
      code units U+0000 to U+00FF (Latin-1).  On these [toLowerCase] and
      [trim] are JavaScript's: the capitals A-Z, U+00C0-U+00D6 and
      U+00D8-U+00DE have lower-case forms 32 places up, and the white space
      is U+0009-U+000D, the space and the no-break space U+00A0.
    - A date value ([Date], or the ISO / [yyyy-mm-dd] text that JSON and the
      date inputs carry) is the instant [new Date(x)] denotes, in
      milliseconds since the epoch, as a [Z]; an absent, [null] or empty
      date is [None].  The viewer's time zone is a [Dates.Zone]: the offset
      of local time from UTC as a function of the instant, so that zones
      with daylight saving are covered.
    - Mongo collections are lists of documents in natural order.  An
      ObjectId is a value of [ObjectId.t], twenty-four hexadecimal digits.
      A request names one by a text, which Mongoose casts ([ObjectId.cast],
      letters of either case); [toString()] and JSON write it in lower case
      ([ObjectId.toString]).  Where a JSON answer carries the text of an
      ObjectId, the client-side models keep the ObjectId.
    - An exception passed to [next] (or thrown inside [asyncHandler]) is a
      value of [Err]; [errorHandler] turns it into the HTTP answer.
    - [req.user] is an [option User]: [protect] sets it to the user of the
      token, or to [null] ([None]) when that user has been deleted since
      the token was signed; an authenticated actor is a [Some user].
    - [Task.findByIdAndUpdate] on the body of a request, whatever it holds,
      is a parameter of [updateTask]; [findByIdAndUpdatePatch] is what it
      does with a body made of the fields the task form sends. *)

From Stdlib Require Import ZArith List String Ascii Bool Lia Sorted Permutation.
From Stdlib Require Import DecimalString.
Import ListNotations.

Local Open Scope string_scope.
Local Open Scope Z_scope.

(* ================================================================== *)
(** * Part I: the program *)
(* ================================================================== *)

(** ** JavaScript string and truthiness primitives *)
Module JS.

(** The lower-case form of a code unit: the capitals are A-Z, U+00C0 to
    U+00D6 and U+00D8 to U+00DE. *)
Definition toLowerCaseChar (c : ascii) : ascii :=
  let n := nat_of_ascii c in
  if (Nat.leb 65 n && Nat.leb n 90
      || Nat.leb 192 n && Nat.leb n 214
      || Nat.leb 216 n && Nat.leb n 222)%bool
  then ascii_of_nat (n + 32) else c.

(** [s.toLowerCase()] *)
Fixpoint toLowerCase (s : string) : string :=
  match s with
  | EmptyString => EmptyString
  | String c r => String (toLowerCaseChar c) (toLowerCase r)
  end.

(** [s.startsWith(p)] *)
Fixpoint startsWith (p s : string) : bool :=
  match p, s with
  | EmptyString, _ => true
  | String _ _, EmptyString => false
  | String a p', String b s' => Ascii.eqb a b && startsWith p' s'
  end.

(** [s.includes(term)]: [term] occurs in [s] at some position. *)
Fixpoint includes (s term : string) : bool :=
  startsWith term s
  || match s with
     | EmptyString => false
     | String _ s' => includes s' term
     end.

(** White space and line terminators: U+0009 to U+000D, the space and the
    no-break space. *)
Definition isWhiteSpace (c : ascii) : bool :=
  let n := nat_of_ascii c in
  (Nat.leb 9 n && Nat.leb n 13 || Nat.eqb n 32 || Nat.eqb n 160)%bool.

Fixpoint trimStart (s : string) : string :=
  match s with
  | EmptyString => EmptyString
  | String c r => if isWhiteSpace c then trimStart r else s
  end.

Fixpoint trimEnd (s : string) : string :=
  match s with
  | EmptyString => EmptyString
  | String c r =>
      let r' := trimEnd r in
      if isWhiteSpace c && String.eqb r' EmptyString then EmptyString
      else String c r'
  end.

(** [s.trim()] *)
Definition trim (s : string) : string := trimEnd (trimStart s).

(** Truthiness of a string: every string but the empty one. *)
Definition truthy (s : string) : bool := negb (String.eqb s EmptyString).

(** Truthiness of a property that may be missing ([undefined]/[null]). *)
Definition truthyOpt (o : option string) : bool :=
  match o with
  | None => false
  | Some s => truthy s
  end.

(** [s.replace(/-/g, "")] *)
Fixpoint removeDashes (s : string) : string :=
  match s with
  | EmptyString => EmptyString
  | String c r =>
      if Ascii.eqb c "-"%char then removeDashes r else String c (removeDashes r)
  end.

End JS.

(** ** Dates: local time and [setHours(0, 0, 0, 0)] *)
Module Dates.

Definition msPerDay : Z := 86400000.

(** The viewer's time zone, as ECMAScript's [LocalTZA]: the offset of
    local time from UTC, in milliseconds, that is in force at a UTC
    instant, and the one by which a local time value is taken back to
    UTC.  Under daylight saving both change with their argument. *)
Record Zone := mkZone {
  offsetAt : Z -> Z;       (* LocalTZA(t, true) *)
  offsetOfLocal : Z -> Z   (* LocalTZA(t, false) *)
}.

(** A zone that keeps one offset all year. *)
Definition fixed (utcOffset : Z) : Zone :=
  mkZone (fun _ => utcOffset) (fun _ => utcOffset).

Section InZone.
Variable zone : Zone.

(** [LocalTime(t)] and [UTC(t)] *)
Definition localTime (t : Z) : Z := t + offsetAt zone t.
Definition utc (t : Z) : Z := t - offsetOfLocal zone t.

(** [Day(LocalTime(t))]: the number of the local calendar day an instant
    falls on. *)
Definition localDay (t : Z) : Z := localTime t / msPerDay.

(** [d.setHours(0, 0, 0, 0)]: [UTC(MakeDate(Day(LocalTime(t)), 0))], the
    instant at which the local day of [t] begins. *)
Definition setHours0 (t : Z) : Z := utc (localDay t * msPerDay).
End InZone.

End Dates.

(** ** ObjectIds *)
Module ObjectId.

(** A hexadecimal digit. *)
Inductive digit :=
| x0 | x1 | x2 | x3 | x4 | x5 | x6 | x7
| x8 | x9 | xa | xb | xc | xd | xe | xf.

Definition digitValue (d : digit) : nat :=
  match d with
  | x0 => 0 | x1 => 1 | x2 => 2 | x3 => 3 | x4 => 4 | x5 => 5 | x6 => 6
  | x7 => 7 | x8 => 8 | x9 => 9 | xa => 10 | xb => 11 | xc => 12 | xd => 13
  | xe => 14 | xf => 15
  end%nat.

(** The digit as [toString()] writes it. *)
Definition digitChar (d : digit) : ascii :=
  match d with
  | x0 => "0" | x1 => "1" | x2 => "2" | x3 => "3" | x4 => "4" | x5 => "5"
  | x6 => "6" | x7 => "7" | x8 => "8" | x9 => "9" | xa => "a" | xb => "b"
  | xc => "c" | xd => "d" | xe => "e" | xf => "f"
  end%char.

(** The digit a character stands for: the letters count in either case. *)
Definition charDigit (c : ascii) : option digit :=
  match c with
  | "0" => Some x0 | "1" => Some x1 | "2" => Some x2 | "3" => Some x3
  | "4" => Some x4 | "5" => Some x5 | "6" => Some x6 | "7" => Some x7
  | "8" => Some x8 | "9" => Some x9
  | "a" | "A" => Some xa | "b" | "B" => Some xb | "c" | "C" => Some xc
  | "d" | "D" => Some xd | "e" | "E" => Some xe | "f" | "F" => Some xf
  | _ => None
  end%char.

(** [n] hexadecimal digits. *)
Fixpoint hex (n : nat) : Type :=
  match n with
  | O => unit
  | S n' => (digit * hex n')%type
  end.

Fixpoint print (n : nat) : hex n -> string :=
  match n with
  | O => fun _ => EmptyString
  | S n' => fun h => String (digitChar (fst h)) (print n' (snd h))
  end.

Fixpoint parse (n : nat) (s : string) : option (hex n) :=
  match n with
  | O =>
      match s with
      | EmptyString => Some tt
      | String _ _ => None
      end
  | S n' =>
      match s with
      | EmptyString => None
      | String c r =>
          match charDigit c, parse n' r with
          | Some d, Some h => Some (d, h)
          | _, _ => None
          end
      end
  end.

Fixpoint eqbHex (n : nat) : hex n -> hex n -> bool :=
  match n with
  | O => fun _ _ => true
  | S n' => fun a b =>
      Nat.eqb (digitValue (fst a)) (digitValue (fst b))
      && eqbHex n' (snd a) (snd b)
  end.

(** An ObjectId: twelve bytes, that is 24 hexadecimal digits. *)
Definition t : Type := hex 24.

(** [id.toString()], also what JSON carries: the digits in lower case. *)
Definition toString (id : t) : string := print 24 id.

(** Mongoose's cast of a text to an ObjectId: 24 hexadecimal digits in
    either case; [None] stands for the [CastError]. *)
Definition cast (s : string) : option t := parse 24 s.

(** [a.equals(b)] *)
Definition eqb (a b : t) : bool := eqbHex 24 a b.

Arguments toString : simpl never.
Arguments cast : simpl never.
Arguments eqb : simpl never.

End ObjectId.

(** ** The back end: models, middleware and controllers *)
Module Server.

(** models/User.js; [user_password] is the stored bcrypt hash. *)
Record User := mkUser {
  user_id : ObjectId.t;
  user_name : string;
  user_email : string;
  user_password : string;
  user_role : string;
  user_department : string
}.

(** models/Task.js *)
Record Task := mkTask {
  _id : ObjectId.t;
  title : string;
  description : option string;
  status : string;
  priority : string;
  dueDate : option Z;
  employeeId : ObjectId.t;
  createdAt : Z
}.

(** What reaches [next] or is thrown inside [asyncHandler]. *)
Inductive Err :=
| ErrorResponse (message : string) (statusCode : Z) (* utils/errorResponse.js *)
| CastError                                  (* Mongoose: bad ObjectId *)
| DuplicateKey                               (* Mongo error code 11000 *)
| ValidationError (messages : list string)   (* Mongoose validators *)
| TypeError (message : string).              (* a property read from null *)

Inductive result (A : Type) :=
| Ok (a : A)
| Next (e : Err).
Arguments Ok {A} a.
Arguments Next {A} e.

Definition bind {A B} (r : result A) (k : A -> result B) : result B :=
  match r with
  | Ok a => k a
  | Next e => Next e
  end.

Fixpoint mapM {A B} (f : A -> result B) (l : list A) : result (list B) :=
  match l with
  | [] => Ok []
  | a :: l' =>
      bind (f a) (fun b => bind (mapM f l') (fun bs => Ok (b :: bs)))
  end.

(** middleware/errorHandler.js: the status and [message] of the answer.
    An array of validator messages given to the [Error] constructor is
    stringified, which joins it with commas. *)
Record ErrorBody := mkErrorBody { eb_status : Z; eb_message : string }.

Definition orStatus (c : Z) : Z := if c =? 0 then 500 else c.
Definition orMessage (m : string) : string :=
  if JS.truthy m then m else "Server Error".

Definition errorHandler (err : Err) : ErrorBody :=
  match err with
  | ErrorResponse m c => mkErrorBody (orStatus c) (orMessage m)
  | CastError => mkErrorBody 404 "Resource not found"
  | DuplicateKey => mkErrorBody 400 "Duplicate field value entered"
  | ValidationError ms => mkErrorBody 400 (orMessage (String.concat "," ms))
  | TypeError m => mkErrorBody 500 (orMessage m)
  end.

(** Reading a property of [null] throws. *)
Definition nullRead (prop : string) : Err :=
  TypeError ("Cannot read properties of null (reading '" ++ prop ++ "')").

(** middleware/auth.js, [authorize(...roles)]: [None] stands for [next()].
    [reqUser] is [req.user] as [protect] has set it: the user of the
    token, or [null] when that user has been deleted since the token was
    signed. *)
Definition authorize (roles : list string) (reqUser : option User)
  : option Err :=
  match reqUser with
  | None => Some (nullRead "role")
  | Some user =>
      if existsb (String.eqb (user_role user)) roles then None
      else Some (ErrorResponse
                   ("User role " ++ user_role user
                    ++ " is not authorized to access this route") 403)
  end.

(** *** Task schema: setters and validators *)

Definition statusEnum : list string := ["To Do"; "In Progress"; "Review"; "Done"].
Definition priorityEnum : list string := ["Low"; "Medium"; "High"; "Urgent"].

Definition enumMessage (path v : string) : string :=
  "`" ++ v ++ "` is not a valid enum value for path `" ++ path ++ "`.".

Definition validateEnum (path : string) (enum : list string) (v : string)
  : list string :=
  if existsb (String.eqb v) enum then [] else [enumMessage path v].

Definition validateTitle (v : string) : list string :=
  if String.eqb v "" then ["Please add a title"]
  else if Nat.ltb 100 (String.length v)
       then ["Title cannot be more than 100 characters"]
       else [].

Definition validateDescription (v : string) : list string :=
  if Nat.ltb 500 (String.length v)
  then ["Description cannot be more than 500 characters"]
  else [].

(** A body of [PUT /api/tasks/:id] made of the fields the task form sends
    (title, description, status, dueDate, priority), each of which may be
    left out; [Some None] for the due date is the form's empty date.  It
    is the body the dashboard's requests carry; a request may carry any
    other, see [updateTask]. *)
Record Patch := mkPatch {
  p_title : option string;
  p_description : option string;
  p_status : option string;
  p_priority : option string;
  p_dueDate : option (option Z)
}.

(** [trim: true] on title and description runs before the validators. *)
Definition castPatch (p : Patch) : Patch :=
  mkPatch (option_map JS.trim (p_title p))
          (option_map JS.trim (p_description p))
          (p_status p) (p_priority p) (p_dueDate p).

Definition onPath {A} (f : A -> list string) (o : option A) : list string :=
  match o with
  | None => []
  | Some v => f v
  end.

(** [runValidators: true]: the validators of the paths the update sets. *)
Definition runValidators (p : Patch) : list string :=
  onPath validateTitle (p_title p)
  ++ onPath validateDescription (p_description p)
  ++ onPath (validateEnum "status" statusEnum) (p_status p)
  ++ onPath (validateEnum "priority" priorityEnum) (p_priority p).

Definition orElse {A} (o : option A) (d : A) : A :=
  match o with
  | Some v => v
  | None => d
  end.

Definition applyPatch (p : Patch) (t : Task) : Task :=
  mkTask (_id t)
         (orElse (p_title p) (title t))
         (match p_description p with
          | Some d => Some d
          | None => description t
          end)
         (orElse (p_status p) (status t))
         (orElse (p_priority p) (priority t))
         (orElse (p_dueDate p) (dueDate t))
         (employeeId t)
         (createdAt t).

(** The first document with the given id replaced / removed. *)
Fixpoint replaceFirst (id : ObjectId.t) (f : Task -> Task) (l : list Task)
  : list Task :=
  match l with
  | [] => []
  | t :: l' =>
      if ObjectId.eqb (_id t) id then f t :: l' else t :: replaceFirst id f l'
  end.

Fixpoint removeFirst (id : ObjectId.t) (l : list Task) : list Task :=
  match l with
  | [] => []
  | t :: l' => if ObjectId.eqb (_id t) id then l' else t :: removeFirst id l'
  end.

(** [Model.findById(id)]: the text is cast to an ObjectId, a [CastError]
    for text that is none, and the document with that ObjectId looked up. *)
Definition findById {D} (key : D -> ObjectId.t) (coll : list D) (id : string)
  : result (option D) :=
  match ObjectId.cast id with
  | Some oid => Ok (find (fun d => ObjectId.eqb (key d) oid) coll)
  | None => Next CastError
  end.

(** [Task.find({ employeeId: id })] *)
Definition findByEmployeeId (tasks : list Task) (id : string)
  : result (list Task) :=
  match ObjectId.cast id with
  | Some oid => Ok (filter (fun t => ObjectId.eqb (employeeId t) oid) tasks)
  | None => Next CastError
  end.

(** [Task.findByIdAndUpdate(id, body, {new: true, runValidators: true})]
    for a body made of the task form's fields: the updated document (or
    [null]) and the collection afterwards. *)
Definition findByIdAndUpdatePatch (tasks : list Task) (id : string) (body : Patch)
  : result (option Task) * list Task :=
  match ObjectId.cast id with
  | Some oid =>
      let p := castPatch body in
      match runValidators p with
      | [] =>
          let tasks' := replaceFirst oid (applyPatch p) tasks in
          (Ok (find (fun t => ObjectId.eqb (_id t) oid) tasks'), tasks')
      | m :: ms => (Next (ValidationError (m :: ms)), tasks)
      end
  | None => (Next CastError, tasks)
  end.

Section Controllers.

(** Library behaviour the controllers rely on. *)
Variable compare : string -> string -> bool.   (* bcrypt.compare(entered, hash) *)
Variable getSignedJwtToken : User -> string.   (* jwt.sign({id, role}, ...) *)
Variable toLocaleDateString : Z -> string.     (* Date.prototype.toLocaleDateString *)
Variable toISOString : Z -> string.            (* Date.prototype.toISOString *)

(** [req.body] of [PUT /api/tasks/:id], whatever the request holds, and
    [Task.findByIdAndUpdate(id, body, {new: true, runValidators: true})]
    on it: the updated document (or [null]), or the error Mongoose throws,
    and the collection afterwards. *)
Variable Body : Type.
Variable findByIdAndUpdate :
  list Task -> string -> Body -> result (option Task) * list Task.

(** *** controllers/auth.js *)

Record LoginBody := mkLoginBody {
  lb_email : option string;
  lb_password : option string
}.

Record TokenResponse := mkTokenResponse {
  tr_id : ObjectId.t;
  tr_name : string;
  tr_email : string;
  tr_role : string;
  tr_department : string;
  tr_token : string
}.

Definition sendTokenResponse (user : User) (statusCode : Z)
  : Z * TokenResponse :=
  (statusCode,
   mkTokenResponse (user_id user) (user_name user) (user_email user)
                   (user_role user) (user_department user)
                   (getSignedJwtToken user)).

(** [User.findOne({ email })] *)
Definition findOne (users : list User) (email : string) : option User :=
  find (fun u => String.eqb (user_email u) email) users.

Definition login (users : list User) (body : LoginBody)
  : result (Z * TokenResponse) :=
  match lb_email body, lb_password body with
  | Some email, Some password =>
      if negb (JS.truthy email) || negb (JS.truthy password) then
        Next (ErrorResponse "Please provide an email and password" 400)
      else
        match findOne users email with
        | None => Next (ErrorResponse "Invalid credentials" 401)
        | Some user =>
            if negb (compare password (user_password user)) then
              Next (ErrorResponse "Invalid credentials" 401)
            else Ok (sendTokenResponse user 200)
        end
  | _, _ => Next (ErrorResponse "Please provide an email and password" 400)
  end.

(** *** controllers/tasks.js *)

(** The guard shared by the task routes:
    [req.user.role !== 'admin' && req.user.id !== owner], where
    [req.user.id] is the text of the actor's ObjectId and [owner] a text. *)
Definition notAuthorized (user : User) (owner : string) : bool :=
  negb (String.eqb (user_role user) "admin")
  && negb (String.eqb (ObjectId.toString (user_id user)) owner).

Definition getEmployeeTasks (users : list User) (tasks : list Task)
           (reqUser : option User) (id : string) : result (Z * list Task) :=
  bind (findById user_id users id) (fun found =>
    match found with
    | None => Next (ErrorResponse ("No user with the id of " ++ id) 404)
    | Some _ =>
        match reqUser with
        | None => Next (nullRead "role")
        | Some user =>
            if notAuthorized user id then
              Next (ErrorResponse "Not authorized to access these tasks" 401)
            else
              bind (findByEmployeeId tasks id) (fun found => Ok (200, found))
        end
    end).

(** The answer and the task collection afterwards. *)
Definition updateTask (tasks : list Task) (reqUser : option User)
           (id : string) (body : Body)
  : result (Z * option Task) * list Task :=
  match findById _id tasks id with
  | Next e => (Next e, tasks)
  | Ok None =>
      (Next (ErrorResponse ("No task with the id of " ++ id) 404), tasks)
  | Ok (Some task) =>
      match reqUser with
      | None => (Next (nullRead "role"), tasks)
      | Some user =>
          if notAuthorized user (ObjectId.toString (employeeId task)) then
            (Next (ErrorResponse "Not authorized to update this task" 401),
             tasks)
          else
            let '(r, tasks') := findByIdAndUpdate tasks id body in
            (bind r (fun task' => Ok (200, task')), tasks')
      end
  end.

Definition deleteTask (tasks : list Task) (reqUser : option User)
           (id : string) : result Z * list Task :=
  match findById _id tasks id with
  | Next e => (Next e, tasks)
  | Ok None =>
      (Next (ErrorResponse ("No task with the id of " ++ id) 404), tasks)
  | Ok (Some task) =>
      match reqUser with
      | None => (Next (nullRead "role"), tasks)
      | Some user =>
          if notAuthorized user (ObjectId.toString (employeeId task)) then
            (Next (ErrorResponse "Not authorized to delete this task" 401),
             tasks)
          else (Ok 200, removeFirst (_id task) tasks)
      end
  end.

(** The [employee] projection [getTasks] embeds in each task. *)
Record Employee := mkEmployee {
  emp_id : ObjectId.t;
  emp_name : string;
  emp_department : string
}.

Record TransformedTask := mkTransformedTask {
  tt_id : ObjectId.t;
  tt_title : string;
  tt_description : option string;
  tt_status : string;
  tt_priority : string;
  tt_dueDate : option Z;
  tt_createdAt : Z;
  employee : Employee
}.

(** [.populate({ path: 'employeeId', model: User })]: the owner's
    document, or [null] when no user has that id. *)
Definition populate (users : list User) (t : Task) : option User :=
  find (fun u => ObjectId.eqb (user_id u) (employeeId t)) users.

Definition transformTask (users : list User) (task : Task)
  : result TransformedTask :=
  match populate users task with
  | None => Next (nullRead "_id")
  | Some u =>
      Ok (mkTransformedTask (_id task) (title task) (description task)
            (status task) (priority task) (dueDate task) (createdAt task)
            (mkEmployee (user_id u) (user_name u) (user_department u)))
  end.

Definition getTasks (users : list User) (tasks : list Task)
  : result (Z * list TransformedTask) :=
  bind (mapM (transformTask users) tasks) (fun ts => Ok (200, ts)).

(** [req.query] of [GET /api/tasks/export]. *)
Record ExportQuery := mkExportQuery {
  q_department : option string;
  q_startDate : option string;
  q_endDate : option string
}.

Record Column := mkColumn { header : string; key : string; width : Z }.

Record Row := mkRow {
  r_id : ObjectId.t;
  r_title : string;
  r_description : option string;
  r_status : string;
  r_priority : string;
  r_dueDate : string;
  r_employee : string;
  r_department : string;
  r_createdAt : string
}.

(** The worksheet ['Tasks']: its columns (the header row), the rows
    added below it, and whether row 1 is set in bold. *)
Record Worksheet := mkWorksheet {
  ws_name : string;
  ws_columns : list Column;
  ws_rows : list Row;
  ws_headerBold : bool
}.

Record ExportResponse := mkExportResponse {
  contentType : string;
  contentDisposition : string;
  worksheet : Worksheet
}.

Definition columns : list Column :=
  [ mkColumn "Task ID" "id" 26;
    mkColumn "Title" "title" 30;
    mkColumn "Description" "description" 40;
    mkColumn "Status" "status" 15;
    mkColumn "Priority" "priority" 15;
    mkColumn "Due Date" "dueDate" 15;
    mkColumn "Employee" "employee" 20;
    mkColumn "Department" "department" 20;
    mkColumn "Created At" "createdAt" 20 ].

(** The tasks [Task.find(query)] returns for the export. *)
Definition exportQueryTasks (users : list User) (tasks : list Task)
           (q : ExportQuery) : list Task :=
  match q_department q with
  | Some d =>
      if JS.truthy d && negb (String.eqb d "all") then
        let employees :=
          filter (fun u => String.eqb (user_department u) d) users in
        let employeeIds := map user_id employees in
        filter (fun t => existsb (ObjectId.eqb (employeeId t)) employeeIds)
               tasks
      else tasks
  | None => tasks
  end.

Definition addRow (users : list User) (task : Task) : result Row :=
  match populate users task with
  | None => Next (nullRead "name")
  | Some u =>
      Ok (mkRow (_id task) (title task) (description task) (status task)
            (priority task)
            (match dueDate task with
             | Some d => toLocaleDateString d
             | None => "No date set"
             end)
            (user_name u) (user_department u)
            (toLocaleDateString (createdAt task)))
  end.

Definition exportTasks (users : list User) (tasks : list Task)
           (reqUser : option User) (q : ExportQuery) (now : Z)
  : result ExportResponse :=
  match reqUser with
  | None => Next (nullRead "role")
  | Some user =>
      if negb (String.eqb (user_role user) "admin") then
        Next (ErrorResponse "Not authorized to export tasks" 401)
      else
        let found := exportQueryTasks users tasks q in
        bind (mapM (addRow users) found) (fun rows =>
          Ok (mkExportResponse
                "application/vnd.openxmlformats-officedocument.spreadsheetml.sheet"
                ("attachment; filename=tasks-"
                 ++ String.substring 0 10 (toISOString now) ++ ".xlsx")
                (mkWorksheet "Tasks" columns rows true)))
  end.

(** routes/tasks.js: [router.route('/export').get(authorize('admin'),
    exportTasks)]. *)
Definition exportRoute (users : list User) (tasks : list Task)
           (reqUser : option User) (q : ExportQuery) (now : Z)
  : result ExportResponse :=
  match authorize ["admin"] reqUser with
  | Some e => Next e
  | None => exportTasks users tasks reqUser q now
  end.

(** *** The rest of the controllers and middleware *)

(** More library behaviour. *)
Variable hash : string -> string.              (* bcrypt.hash(password, salt) *)
Variable validEmail : string -> bool.          (* the schema's email pattern matches *)
Variable verify : string -> option string.     (* jwt.verify: the decoded id, [None] when it throws *)
Variable castMessage : string -> string.       (* Mongoose's message for an uncastable employeeId *)

(** [s.split(sep)] for a one-character separator: the pieces between the
    separators; [acc] is the piece being read, reversed. *)
Fixpoint splitFrom (sep : ascii) (acc : string) (s : string) : list string :=
  match s with
  | EmptyString => [acc]
  | String c r =>
      if Ascii.eqb c sep then acc :: splitFrom sep EmptyString r
      else splitFrom sep (acc ++ String c EmptyString) r
  end.

Definition split (sep : ascii) (s : string) : list string :=
  splitFrom sep EmptyString s.

Definition notAuthorizedRoute : Err :=
  ErrorResponse "Not authorized to access this route" 401.

(** middleware/auth.js, [protect]: the value of [req.user] handed to the
    next handler ([None] is the [null] of a user deleted since the token
    was signed), or the error passed to [next]. *)
Definition protect (users : list User) (authorization : option string)
  : result (option User) :=
  let token :=
    match authorization with
    | Some h =>
        if JS.truthy h && JS.startsWith "Bearer" h
        then nth_error (split " "%char h) 1
        else None
    | None => None
    end in
  if negb (JS.truthyOpt token) then Next notAuthorizedRoute
  else
    match token with
    | Some t =>
        match verify t with
        | Some id =>
            match findById user_id users id with
            | Ok u => Ok u
            | Next _ => Next notAuthorizedRoute
            end
        | None => Next notAuthorizedRoute
        end
    | None => Next notAuthorizedRoute
    end.

(** [req.body] of [POST /api/auth/register]. *)
Record RegisterBody := mkRegisterBody {
  rb_name : option string;
  rb_email : option string;
  rb_password : option string;
  rb_role : option string;
  rb_department : option string
}.

Definition roleEnum : list string := ["employee"; "admin"].

(** A required string path: the message when the value is missing or
    empty, the other validators of the path otherwise. *)
Definition required (message : string) (rest : string -> list string)
           (o : option string) : list string :=
  match o with
  | None => [message]
  | Some v => if String.eqb v "" then [message] else rest v
  end.

Definition validateName (v : string) : list string :=
  if Nat.ltb 50 (String.length v)
  then ["Name cannot be more than 50 characters"] else [].

Definition validateEmail (v : string) : list string :=
  if validEmail v then [] else ["Please provide a valid email"].

Definition validatePassword (v : string) : list string :=
  if Nat.ltb (String.length v) 6
  then ["Password must be at least 6 characters"] else [].

(** The User schema's validators, on the values after [trim]. *)
Definition validateUser (b : RegisterBody) : list string :=
  required "Please provide a name" validateName (option_map JS.trim (rb_name b))
  ++ required "Please provide an email" validateEmail (rb_email b)
  ++ required "Please add a password" validatePassword (rb_password b)
  ++ onPath (validateEnum "role" roleEnum) (rb_role b)
  ++ required "Please provide a department" (fun _ => [])
       (option_map JS.trim (rb_department b)).

Definition orEmpty (o : option string) : string := orElse o "".

(** [User.create(body)]: validation, then the [pre('save')] hash, then the
    insert, which the unique index on [email] may refuse.  [newId] is the
    ObjectId the driver draws. *)
Definition createUser (users : list User) (newId : ObjectId.t) (b : RegisterBody)
  : result User * list User :=
  match validateUser b with
  | m :: ms => (Next (ValidationError (m :: ms)), users)
  | [] =>
      let user :=
        mkUser newId (JS.trim (orEmpty (rb_name b))) (orEmpty (rb_email b))
               (hash (orEmpty (rb_password b)))
               (orElse (rb_role b) "employee")
               (JS.trim (orEmpty (rb_department b))) in
      if existsb (fun u => String.eqb (user_email u) (user_email user)) users
      then (Next DuplicateKey, users)
      else (Ok user, (users ++ [user])%list)
  end.

Definition register (users : list User) (newId : ObjectId.t) (body : RegisterBody)
  : result (Z * TokenResponse) * list User :=
  let '(r, users') := createUser users newId body in
  (bind r (fun user => Ok (sendTokenResponse user 201)), users').

(** [req.body] of [POST /api/tasks]. *)
Record CreateBody := mkCreateBody {
  c_title : option string;
  c_description : option string;
  c_status : option string;
  c_priority : option string;
  c_dueDate : option Z;
  c_employeeId : option string
}.

(** The Task schema's validators on a new document. *)
Definition validateTask (b : CreateBody) (owner : string) : list string :=
  required "Please add a title" validateTitle (option_map JS.trim (c_title b))
  ++ onPath validateDescription (option_map JS.trim (c_description b))
  ++ onPath (validateEnum "status" statusEnum) (c_status b)
  ++ onPath (validateEnum "priority" priorityEnum) (c_priority b)
  ++ (match ObjectId.cast owner with
      | Some _ => []
      | None => [castMessage owner]
      end).

(** [Task.create(body)] with [body.employeeId] already set to the text
    [owner], which the schema casts to an ObjectId; [newId] is the ObjectId
    the driver draws, [now] is [Date.now()]. *)
Definition createTaskDoc (tasks : list Task) (newId : ObjectId.t) (now : Z)
           (b : CreateBody) (owner : string) : result Task * list Task :=
  match ObjectId.cast owner, validateTask b owner with
  | Some oid, [] =>
      let task :=
        mkTask newId (JS.trim (orEmpty (c_title b)))
               (option_map JS.trim (c_description b))
               (orElse (c_status b) "To Do")
               (orElse (c_priority b) "Medium")
               (c_dueDate b) oid now in
      (Ok task, (tasks ++ [task])%list)
  | _, messages => (Next (ValidationError messages), tasks)
  end.

(** With [req.user] null, the first read of it throws: that of
    [req.user.id] when the body names no owner, that of [req.user.role]
    otherwise. *)
Definition createTask (tasks : list Task) (reqUser : option User)
           (newId : ObjectId.t) (now : Z) (body : CreateBody)
  : result (Z * Task) * list Task :=
  match reqUser with
  | None =>
      (Next (nullRead (if JS.truthyOpt (c_employeeId body) then "role" else "id")),
       tasks)
  | Some user =>
      let owner :=
        if JS.truthyOpt (c_employeeId body) then orEmpty (c_employeeId body)
        else ObjectId.toString (user_id user) in
      if notAuthorized user owner then
        (Next (ErrorResponse "Not authorized to create tasks for other employees"
                             401),
         tasks)
      else
        let '(r, tasks') := createTaskDoc tasks newId now body owner in
        (bind r (fun task => Ok (201, task)), tasks')
  end.

(** routes/tasks.js: [router.route('/').get(authorize('admin'), getTasks)]. *)
Definition getTasksRoute (users : list User) (tasks : list Task)
           (reqUser : option User) : result (Z * list TransformedTask) :=
  match authorize ["admin"] reqUser with
  | Some e => Next e
  | None => getTasks users tasks
  end.

End Controllers.

Arguments updateTask {Body} findByIdAndUpdate tasks reqUser id body.

End Server.

(** ** What a request made with axios comes back as *)
Module Axios.
Import Server.

(** The promise resolves with the body of a 2xx answer, or rejects; of a
    rejection the handlers read [err.response?.data?.message] only. *)
Inductive response (A : Type) :=
| Resolved (data : A)
| Rejected (message : option string).
Arguments Resolved {A} data.
Arguments Rejected {A} message.

(** The answer Express sends for a controller's result, as axios sees it. *)
Definition ofResult {A} (r : result (Z * A)) : response A :=
  match r with
  | Ok (_, a) => Resolved a
  | Next e => Rejected (Some (eb_message (errorHandler e)))
  end.

(** [message || fallback] *)
Definition messageOr (m : option string) (fallback : string) : string :=
  if JS.truthyOpt m then orElse m "" else fallback.

End Axios.

(** ** components/TaskForm *)
Module TaskForm.
Import Server.

(** The form's state; the date input's text is the instant it denotes
    (midnight UTC of the day), empty is [None]. *)
Record Form := mkForm {
  f_title : string;
  f_description : string;
  f_status : string;
  f_dueDate : option Z;
  f_priority : string
}.

Definition orDefault (s d : string) : string := if JS.truthy s then s else d.

(** The state of a blank form. *)
Definition blank : Form := mkForm "" "" "To Do" None "Medium".

(** The initial state when editing [task]: [dueDate.substring(0, 10)] is
    the UTC day of the stored instant. *)
Definition editing (task : Task) : Form :=
  mkForm (title task)
         (orElse (description task) "")
         (orDefault (status task) "To Do")
         (option_map (fun d => d / Dates.msPerDay * Dates.msPerDay) (dueDate task))
         (orDefault (priority task) "Medium").

(** The check of [handleSubmit]: the message shown instead of submitting. *)
Definition validate (f : Form) : option string :=
  if negb (JS.truthy (JS.trim (f_title f))) then Some "Title is required"
  else None.

(** [taskData] as the body of an update. *)
Definition toPatch (f : Form) : Patch :=
  mkPatch (Some (f_title f)) (Some (f_description f)) (Some (f_status f))
          (Some (f_priority f)) (Some (f_dueDate f)).

(** [{ ...taskData, employeeId }] as the body of a create. *)
Definition toCreateBody (f : Form) (employeeId : string) : CreateBody :=
  mkCreateBody (Some (f_title f)) (Some (f_description f)) (Some (f_status f))
               (Some (f_priority f)) (f_dueDate f) (Some employeeId).

End TaskForm.

(** ** components/EmployeeDashboard: the quick filters *)
Module EmployeeDashboard.
Import Server.

Section View.
Variable zone : Dates.Zone.

(** The predicate of the ['overdue'] case; [now] is [new Date()]. *)
Definition isOverdue (now : Z) (task : Task) : bool :=
  match dueDate task with
  | None => false
  | Some due =>
      (Dates.setHours0 zone due <? Dates.setHours0 zone now)
      && negb (String.eqb (status task) "Done")
  end.

Definition filteredTasks (filter : string) (now : Z) (tasks : list Task)
  : list Task :=
  if String.eqb filter "todo" then
    List.filter (fun task => String.eqb (status task) "To Do") tasks
  else if String.eqb filter "inprogress" then
    List.filter (fun task => String.eqb (status task) "In Progress") tasks
  else if String.eqb filter "review" then
    List.filter (fun task => String.eqb (status task) "Review") tasks
  else if String.eqb filter "done" then
    List.filter (fun task => String.eqb (status task) "Done") tasks
  else if String.eqb filter "urgent" then
    List.filter (fun task => String.eqb (priority task) "Urgent") tasks
  else if String.eqb filter "high" then
    List.filter (fun task => String.eqb (priority task) "High") tasks
  else if String.eqb filter "overdue" then
    List.filter (isOverdue now) tasks
  else tasks.
End View.

(** *** The task list and its three operations *)

Record State := mkState {
  tasks : list Task;
  error : string
}.

(** [{ success: true }] or [{ success: false, message }] *)
Record Outcome := mkOutcome {
  success : bool;
  message : option string
}.

Definition addTask (st : State) (response : Axios.response Task)
  : State * Outcome :=
  match response with
  | Axios.Resolved data =>
      (mkState (tasks st ++ [data])%list (error st), mkOutcome true None)
  | Axios.Rejected m =>
      (mkState (tasks st) "Failed to add task",
       mkOutcome false (Some (Axios.messageOr m "Failed to add task")))
  end.

Definition updateTask (st : State) (id : ObjectId.t)
           (response : Axios.response Task)
  : State * Outcome :=
  match response with
  | Axios.Resolved data =>
      (mkState (map (fun task => if ObjectId.eqb (_id task) id then data else task)
                    (tasks st))
               (error st),
       mkOutcome true None)
  | Axios.Rejected m =>
      (mkState (tasks st) "Failed to update task",
       mkOutcome false (Some (Axios.messageOr m "Failed to update task")))
  end.

Definition deleteTask (st : State) (id : ObjectId.t)
           (response : Axios.response unit)
  : State * Outcome :=
  match response with
  | Axios.Resolved _ =>
      (mkState (filter (fun task => negb (ObjectId.eqb (_id task) id)) (tasks st))
               (error st),
       mkOutcome true None)
  | Axios.Rejected m =>
      (mkState (tasks st) "Failed to delete task",
       mkOutcome false (Some (Axios.messageOr m "Failed to delete task")))
  end.

End EmployeeDashboard.

(** ** components/DateRangePicker *)
Module DateRangePicker.

(** The two date inputs' texts. *)
Record State := mkState {
  startDate : string;
  endDate : string
}.

(** What [onDateChange] is called with, when not [null]. *)
Record Range := mkRange {
  r_startDate : option string;
  r_endDate : option string
}.

Definition handleStartDateChange (st : State) (newStartDate : string)
  : State * option Range :=
  (mkState newStartDate (endDate st),
   if JS.truthy (endDate st) && JS.truthy newStartDate then
     Some (mkRange (Some newStartDate) (Some (endDate st)))
   else if JS.truthy newStartDate then
     Some (mkRange (Some newStartDate) None)
   else if JS.truthy (endDate st) then
     Some (mkRange None (Some (endDate st)))
   else None).

Definition handleEndDateChange (st : State) (newEndDate : string)
  : State * option Range :=
  (mkState (startDate st) newEndDate,
   if JS.truthy (startDate st) && JS.truthy newEndDate then
     Some (mkRange (Some (startDate st)) (Some newEndDate))
   else if JS.truthy newEndDate then
     Some (mkRange None (Some newEndDate))
   else if JS.truthy (startDate st) then
     Some (mkRange (Some (startDate st)) None)
   else None).

Definition clearDates (st : State) : State * option Range :=
  (mkState "" "", None).

(** What the user does to the picker. *)
Inductive Event :=
| StartDateChange (value : string)
| EndDateChange (value : string)
| ClearDates.

Definition handle (st : State) (ev : Event) : State * option Range :=
  match ev with
  | StartDateChange v => handleStartDateChange st v
  | EndDateChange v => handleEndDateChange st v
  | ClearDates => clearDates st
  end.

(** The picker's state and the range last handed to [onDateChange] (the
    dashboard's [dateRange]) after a run of events. *)
Fixpoint run (st : State) (dateRange : option Range) (evs : list Event)
  : State * option Range :=
  match evs with
  | [] => (st, dateRange)
  | ev :: evs' => let '(st', r) := handle st ev in run st' r evs'
  end.

(** A freshly mounted picker and dashboard. *)
Definition mounted : State * option Range := (mkState "" "", None).

End DateRangePicker.

(** ** components/Register: the client-side check *)
Module Register.
Import Server.

Record Form := mkForm {
  name : string;
  email : string;
  password : string;
  confirmPassword : string;
  department : string
}.

(** [validateForm]: the error it sets, [None] when it returns [true]. *)
Definition validateForm (f : Form) : option string :=
  if negb (JS.truthy (name f)) || negb (JS.truthy (email f))
     || negb (JS.truthy (password f)) || negb (JS.truthy (confirmPassword f))
     || negb (JS.truthy (department f))
  then Some "All fields are required"
  else if negb (String.eqb (password f) (confirmPassword f))
  then Some "Passwords do not match"
  else if Nat.ltb (String.length (password f)) 6
  then Some "Password must be at least 6 characters"
  else None.

(** The body [handleSubmit] posts. *)
Definition requestBody (f : Form) : RegisterBody :=
  mkRegisterBody (Some (name f)) (Some (email f)) (Some (password f))
                 (Some "employee") (Some (department f)).

End Register.

(** ** App.js, components/ProtectedRoute and the navigation after login *)
Module Routing.

Inductive Page :=
| LoginPage
| RegisterPage
| EmployeeDashboardPage
| AdminDashboardPage.

(** What a route's element renders: a page, a redirect, or nothing when no
    route matches. *)
Inductive Element :=
| Render (page : Page)
| Navigate (to : string)
| NoMatch.

(** The part of the authentication context the routes read. *)
Record Auth := mkAuth {
  isAuthenticated : bool;
  userRole : string
}.

Definition ProtectedRoute (auth : Auth) (role : string) (children : Page)
  : Element :=
  if negb (isAuthenticated auth) then Navigate "/login"
  else if JS.truthy role && negb (String.eqb (userRole auth) role) then
    Navigate (if String.eqb (userRole auth) "admin"
              then "/admin-dashboard" else "/employee-dashboard")
  else Render children.

(** The [Routes] of [App]. *)
Definition App (auth : Auth) (path : string) : Element :=
  if String.eqb path "/login" then Render LoginPage
  else if String.eqb path "/register" then Render RegisterPage
  else if String.eqb path "/employee-dashboard" then
    ProtectedRoute auth "employee" EmployeeDashboardPage
  else if String.eqb path "/admin-dashboard" then
    ProtectedRoute auth "admin" AdminDashboardPage
  else if String.eqb path "/" then Navigate "/login"
  else NoMatch.

(** Where [Login.handleSubmit] navigates after a successful login. *)
Definition afterLogin (role : string) : string :=
  if String.eqb role "admin" then "/admin-dashboard" else "/employee-dashboard".

(** The element shown at [path] after following at most [fuel] redirects;
    [None] when redirects remain. *)
Fixpoint settle (fuel : nat) (auth : Auth) (path : string) : option Element :=
  match App auth path with
  | Navigate to =>
      match fuel with
      | O => None
      | S fuel' => settle fuel' auth to
      end
  | e => Some e
  end.

End Routing.

(** ** src/AdminDashboard.js: the department filter alone *)
Module AdminDashboardJs.
Import Server.

Definition filteredTasks (tasks : list TransformedTask)
           (selectedDepartment : string) : list TransformedTask :=
  if String.eqb selectedDepartment "all" then tasks
  else filter (fun task =>
                 String.eqb (emp_department (employee task)) selectedDepartment)
              tasks.

End AdminDashboardJs.

(** ** components/AdminDashboard: sort, filter pipeline, export request *)
Module AdminDashboard.
Import Server.

(** [Array.prototype.sort(cmp)] is stable; with a consistent comparator
    its result is the stable sorted arrangement, computed here by
    insertion from the right. *)
Section Sort.
Context {A : Type}.
Variable cmp : A -> A -> Z.

Fixpoint insert (a : A) (l : list A) : list A :=
  match l with
  | [] => [a]
  | x :: l' => if cmp a x <=? 0 then a :: l else x :: insert a l'
  end.

Definition sort (l : list A) : list A := fold_right insert [] l.
End Sort.

(** [(a, b) => new Date(b.createdAt) - new Date(a.createdAt)] *)
Definition byCreatedAtDesc (a b : TransformedTask) : Z :=
  tt_createdAt b - tt_createdAt a.

(** What [fetchTasksAndDepartments] stores with [setTasks]. *)
Definition fetchTasks (data : list TransformedTask) : list TransformedTask :=
  sort byCreatedAtDesc data.

Record DateRange := mkDateRange {
  startDate : option Z;
  endDate : option Z
}.

(** The component state [filteredTasks] reads. *)
Record State := mkState {
  tasks : list TransformedTask;
  selectedDepartment : string;
  dateRange : option DateRange;
  searchTerm : string
}.

Section View.
Variable zone : Dates.Zone.

(** The callback of the date-range [filter]. *)
Definition inDateRange (range : DateRange) (task : TransformedTask) : bool :=
  match tt_dueDate task with
  | None => false
  | Some due =>
      let taskDate := Dates.setHours0 zone due in
      let isAfterStart :=
        match startDate range with
        | Some s => Dates.setHours0 zone s <=? taskDate
        | None => true
        end in
      let isBeforeEnd :=
        match endDate range with
        | Some e => taskDate <=? Dates.setHours0 zone e
        | None => true
        end in
      isAfterStart && isBeforeEnd
  end.

(** The callback of the search [filter]; [term] is already lower case. *)
Definition matchesSearch (term : string) (task : TransformedTask) : bool :=
  JS.includes (JS.toLowerCase (tt_title task)) term
  || match tt_description task with
     | Some d => JS.truthy d && JS.includes (JS.toLowerCase d) term
     | None => false
     end
  || JS.includes (JS.toLowerCase (emp_name (employee task))) term.

Definition byDepartment (selectedDepartment : string)
           (l : list TransformedTask) : list TransformedTask :=
  if String.eqb selectedDepartment "all" then l
  else filter (fun task =>
                 String.eqb (emp_department (employee task)) selectedDepartment)
              l.

Definition byDateRange (dateRange : option DateRange)
           (l : list TransformedTask) : list TransformedTask :=
  match dateRange with
  | Some range => filter (inDateRange range) l
  | None => l
  end.

Definition bySearch (searchTerm : string) (l : list TransformedTask)
  : list TransformedTask :=
  if JS.truthy (JS.trim searchTerm)
  then filter (matchesSearch (JS.toLowerCase searchTerm)) l
  else l.

Definition filteredTasks (st : State) : list TransformedTask :=
  bySearch (searchTerm st)
    (byDateRange (dateRange st)
       (byDepartment (selectedDepartment st) (tasks st))).
End View.

(** *** [handleExport] *)

(** What the export modal hands over: [dateRange] is [null] or the two
    date inputs' texts, either of which may be empty. *)
Record ExportDateRange := mkExportDateRange {
  x_startDate : string;
  x_endDate : string
}.

Record ExportOptions := mkExportOptions {
  x_type : string;
  x_department : string;
  x_dateRange : option ExportDateRange
}.

(** The query string, as the server reads it back in [req.query]. *)
Definition exportParams (o : ExportOptions) : ExportQuery :=
  mkExportQuery
    (if negb (String.eqb (x_department o) "all")
     then Some (x_department o) else None)
    (match x_dateRange o with
     | Some r => if JS.truthy (x_startDate r) then Some (x_startDate r) else None
     | None => None
     end)
    (match x_dateRange o with
     | Some r => if JS.truthy (x_endDate r) then Some (x_endDate r) else None
     | None => None
     end).

Definition exportFilename (o : ExportOptions) : string :=
  let department :=
    if String.eqb (x_department o) "all" then "all-departments"
    else x_department o in
  let dateStr :=
    match x_dateRange o with
    | Some r =>
        if JS.truthy (x_startDate r)
        then "-" ++ JS.removeDashes (x_startDate r)
        else ""
    | None => ""
    end in
  let extension := if String.eqb (x_type o) "excel" then "xlsx" else "pdf" in
  "tasks-" ++ department ++ dateStr ++ "." ++ extension.

(** The dashboard's [dateRange] as [filteredTasks] reads it: a bound is
    used when its text is truthy, as the instant [new Date(text)]. *)
Definition dateRangeOf (newDate : string -> Z) (r : option DateRangePicker.Range)
  : option DateRange :=
  let bound (o : option string) :=
    match o with
    | Some s => if JS.truthy s then Some (newDate s) else None
    | None => None
    end in
  option_map (fun range =>
                mkDateRange (bound (DateRangePicker.r_startDate range))
                            (bound (DateRangePicker.r_endDate range))) r.

End AdminDashboard.

(** ** Vocabulary of the specification *)
Module Spec.
Import Server.

(** [u] is a capital letter and [l] its small form: the capitals are A to
    Z, U+00C0 to U+00D6 and U+00D8 to U+00DE, and the small form of each
    lies 32 places further. *)
Definition capitalOf (u l : ascii) : Prop :=
  let n := nat_of_ascii u in
  ((65 <= n <= 90)%nat \/ (192 <= n <= 214)%nat \/ (216 <= n <= 222)%nat)
  /\ nat_of_ascii l = (n + 32)%nat.

(** The same character up to letter case. *)
Definition sameLetter (a b : ascii) : Prop :=
  a = b \/ capitalOf a b \/ capitalOf b a.

(** The same text up to letter case, character by character. *)
Fixpoint sameText (s t : string) : Prop :=
  match s, t with
  | EmptyString, EmptyString => True
  | String a s', String b t' => sameLetter a b /\ sameText s' t'
  | _, _ => False
  end.

(** [term] occurs in [s] up to letter case: some run of consecutive
    characters of [s] is [term] up to letter case. *)
Definition ciContains (term s : string) : Prop :=
  exists pre mid post, s = pre ++ mid ++ post /\ sameText mid term.

(** The offsets of the zone differ by less than a day from one another:
    so it is in a zone at a fixed offset and in one that moves its clocks
    by an hour for daylight saving. *)
Definition steadyOffsets (zone : Dates.Zone) : Prop :=
  forall a b,
    Z.abs (Dates.offsetOfLocal zone a - Dates.offsetOfLocal zone b)
    < Dates.msPerDay.


(** A white-space character: tab, line feed, vertical tab, form feed,
    carriage return, space or no-break space. *)
Definition whiteSpace (c : ascii) : Prop :=
  In (nat_of_ascii c) [9; 10; 11; 12; 13; 32; 160]%nat.

(** A text that is empty or made of white space only. *)
Fixpoint blank (s : string) : Prop :=
  match s with
  | EmptyString => True
  | String c r => whiteSpace c /\ blank r
  end.

(** The actor is an administrator or the owner of the task. *)
Definition mayModify (user : User) (task : Task) : Prop :=
  user_role user = "admin" \/ user_id user = employeeId task.

(** Every two adjacent tasks are in newest-first order. *)
Definition Descending (l : list TransformedTask) : Prop :=
  forall pre a b post,
    l = (pre ++ a :: b :: post)%list -> tt_createdAt b <= tt_createdAt a.

(** The dashboard state after [setTasks(l)]. *)
Definition withTasks (st : AdminDashboard.State) (l : list TransformedTask)
  : AdminDashboard.State :=
  AdminDashboard.mkState l (AdminDashboard.selectedDepartment st)
    (AdminDashboard.dateRange st) (AdminDashboard.searchTerm st).


(** The machine-readable kind, status and message of a failed request. *)
Definition invalidCredentials : Err := ErrorResponse "Invalid credentials" 401.

(** The task's owner is a user of department [d]. *)
Definition ownedByDepartment (users : list User) (d : string) (t : Task)
  : Prop :=
  exists u, In u users /\ user_id u = employeeId t /\ user_department u = d.

(** The conjunction of the three stages of the admin filter pipeline. *)
Definition keeps (zone : Dates.Zone) (st : AdminDashboard.State)
           (task : TransformedTask) : bool :=
  (String.eqb (AdminDashboard.selectedDepartment st) "all"
   || String.eqb (emp_department (employee task))
                 (AdminDashboard.selectedDepartment st))
  && match AdminDashboard.dateRange st with
     | Some range => AdminDashboard.inDateRange zone range task
     | None => true
     end
  && (if JS.truthy (JS.trim (AdminDashboard.searchTerm st))
      then AdminDashboard.matchesSearch
             (JS.toLowerCase (AdminDashboard.searchTerm st)) task
      else true).

(** Under the comparator [cmp], [a] may stand before [b]. *)
Definition before {A : Type} (cmp : A -> A -> Z) (a b : A) : Prop :=
  cmp a b <= 0.

(** The start date the export modal hands over, empty when there is none. *)
Definition startOf (o : AdminDashboard.ExportOptions) : string :=
  match AdminDashboard.x_dateRange o with
  | Some r => AdminDashboard.x_startDate r
  | None => ""
  end.

(** The department parameter of an export request selects by department:
    it is present, not empty and not ["all"]. *)
Definition selectsDepartment (q : ExportQuery) (d : string) : Prop :=
  q_department q = Some d /\ d <> "" /\ d <> "all".

(** The header row of the exported sheet. *)
Definition headers : list string :=
  ["Task ID"; "Title"; "Description"; "Status"; "Priority"; "Due Date";
   "Employee"; "Department"; "Created At"].

(** A task document within the Task schema's constraints. *)
Definition wellFormedTask (t : Task) : Prop :=
  title t <> ""
  /\ (String.length (title t) <= 100)%nat
  /\ (forall d, description t = Some d -> (String.length d <= 500)%nat)
  /\ In (status t) statusEnum
  /\ In (priority t) priorityEnum.

(** The actor is an administrator, or [id] is the text of the actor's
    own ObjectId as [toString()] writes it. *)
Definition adminOrSelf (user : User) (id : string) : Prop :=
  user_role user = "admin" \/ ObjectId.toString (user_id user) = id.

(** The owner [createTask] gives the new task. *)
Definition ownerOf (user : User) (body : CreateBody) : string :=
  if JS.truthyOpt (c_employeeId body) then orEmpty (c_employeeId body)
  else ObjectId.toString (user_id user).


(** [v] is what [getTasks] sends for [t]. *)
Definition viewOf (users : list User) (t : Task) (v : TransformedTask) : Prop :=
  exists u,
    populate users t = Some u
    /\ v = mkTransformedTask (_id t) (title t) (description t) (status t)
                             (priority t) (dueDate t) (createdAt t)
                             (mkEmployee (user_id u) (user_name u)
                                         (user_department u)).

(** The tasks of the collection owned by [uid]: the employee dashboard's
    list after it has fetched them. *)
Definition tasksOf (uid : ObjectId.t) (tasks : list Task) : list Task :=
  filter (fun t => ObjectId.eqb (employeeId t) uid) tasks.

(** What the picker's two texts amount to: no range when both are empty,
    otherwise the non-empty ones as bounds. *)
Definition rangeOf (st : DateRangePicker.State) : option DateRangePicker.Range :=
  let bound (s : string) := if JS.truthy s then Some s else None in
  if JS.truthy (DateRangePicker.startDate st)
     || JS.truthy (DateRangePicker.endDate st)
  then Some (DateRangePicker.mkRange (bound (DateRangePicker.startDate st))
                                     (bound (DateRangePicker.endDate st)))
  else None.

(** The four status names of the quick filter. *)
Definition statusFilters : list string := ["todo"; "inprogress"; "review"; "done"].

End Spec.

(** ** Sample data: the seed script's users and tasks, and stand-ins for
    the library functions, used to run the model on concrete requests *)
Module Samples.
Import Server.

Fixpoint zeros (n : nat) : ObjectId.hex n :=
  match n with
  | O => tt
  | S n' => (ObjectId.x0, zeros n')
  end.

(** The ObjectId a text of 24 hexadecimal digits denotes. *)
Definition oid (s : string) : ObjectId.t :=
  match ObjectId.cast s with
  | Some id => id
  | None => zeros 24
  end.

(** A toy hash: the password behind a fixed salt. *)
Definition hash (password : string) : string := "$2a$10$" ++ password.
Definition compare (entered hashed : string) : bool :=
  String.eqb (hash entered) hashed.

Definition getSignedJwtToken (u : User) : string :=
  "jwt." ++ ObjectId.toString (user_id u) ++ "." ++ user_role u.

(** Dates print as their day number, e.g. ["day 20213"]. *)
Definition toLocaleDateString (t : Z) : string :=
  "day " ++ NilEmpty.string_of_int (Z.to_int (t / Dates.msPerDay)).
(** The sample clock stands at the seed run. *)
Definition toISOString (t : Z) : string := "2025-04-20T12:00:00.000Z".

Definition admin : User :=
  mkUser (oid "650000000000000000000001") "Admin User" "admin@example.com"
         (hash "password123") "admin" "Management".
Definition john : User :=
  mkUser (oid "650000000000000000000002") "John Developer" "john@example.com"
         (hash "password123") "employee" "Engineering".
Definition sarah : User :=
  mkUser (oid "650000000000000000000003") "Sarah Marketer" "sarah@example.com"
         (hash "password123") "employee" "Marketing".
Definition users : list User := [admin; john; sarah].

(** 2025-05-05, 2025-05-10 and 2025-05-15 at 00:00 UTC. *)
Definition may5 : Z := 1746403200000.
Definition may10 : Z := 1746835200000.
Definition may15 : Z := 1747267200000.
(** The seed run: 2025-04-20 12:00 UTC. *)
Definition seeded : Z := 1745150400000.

Definition apiTask : Task :=
  mkTask (oid "660000000000000000000001") "Develop API endpoints"
         (Some "Create REST API endpoints for the task manager")
         "In Progress" "High" (Some may5) (user_id john) seeded.
Definition bugTask : Task :=
  mkTask (oid "660000000000000000000002") "Fix frontend bugs"
         (Some "Address UI issues in the dashboard")
         "To Do" "Medium" (Some may10) (user_id john) (seeded + 1).
Definition campaignTask : Task :=
  mkTask (oid "660000000000000000000003") "Create marketing campaign"
         (Some "Develop Q2 marketing campaign for new product launch")
         "In Progress" "High" (Some may15) (user_id sarah) (seeded + 2).
Definition tasks : list Task := [apiTask; bugTask; campaignTask].

(** A body that sets a status outside the schema's enum. *)
Definition finishedPatch : Patch :=
  mkPatch None None (Some "Finished") None None.

(** A body that marks the task as done. *)
Definition donePatch : Patch :=
  mkPatch None None (Some "Done") None None.

(** Export requests from the modal: every department, Marketing only, and
    Marketing with a date range. *)
Definition exportAll : AdminDashboard.ExportOptions :=
  AdminDashboard.mkExportOptions "excel" "all" None.
Definition exportMarketing : AdminDashboard.ExportOptions :=
  AdminDashboard.mkExportOptions "excel" "Marketing" None.
Definition exportMarketingMay : AdminDashboard.ExportOptions :=
  AdminDashboard.mkExportOptions "excel" "Marketing"
    (Some (AdminDashboard.mkExportDateRange "2025-05-01" "2025-05-31")).
Definition exportFinance : AdminDashboard.ExportOptions :=
  AdminDashboard.mkExportOptions "excel" "Finance" None.

(** The row the export writes for the seed's first task. *)
Definition apiRow : Row :=
  mkRow (oid "660000000000000000000001") "Develop API endpoints"
        (Some "Create REST API endpoints for the task manager")
        "In Progress" "High" "day 20213" "John Developer" "Engineering"
        "day 20198".

(** The seed's finished report, due 2025-04-10. *)
Definition reportTask : Task :=
  mkTask (oid "660000000000000000000005") "Prepare sales report"
         (Some "Compile Q1 sales figures for management review")
         "Done" "Medium" (Some 1744243200000) (user_id sarah) (seeded + 4).


(** A task without a due date. *)
Definition undatedTask : Task :=
  mkTask (oid "660000000000000000000006") "Tidy the backlog" None
         "To Do" "Low" None (user_id john) (seeded + 5).

(** Noon of 2025-05-10 in UTC. *)
Definition noonMay10 : Z := may10 + 43200000.

(** The zone of UTC, and a zone five hours behind it all year. *)
Definition utc : Dates.Zone := Dates.fixed 0.
Definition utcMinus5 : Dates.Zone := Dates.fixed (-18000000).

(** A zone with daylight saving, over the spring of 2025: five hours
    behind UTC until 2025-03-09 07:00 UTC, when the local clocks go from
    02:00 to 03:00, and four hours behind from then on.  A local time
    before 03:00 of that day is taken back to UTC by the earlier offset. *)
Definition mar9 : Z := 1741478400000.
Definition eastern : Dates.Zone :=
  Dates.mkZone
    (fun t => if t <? mar9 + 25200000 then -18000000 else -14400000)
    (fun t => if t <? mar9 + 10800000 then -18000000 else -14400000).

(** What [GET /api/tasks] sends to the admin dashboard. *)
Definition apiView : TransformedTask :=
  mkTransformedTask (_id apiTask) (title apiTask) (description apiTask)
    (status apiTask) (priority apiTask) (dueDate apiTask) (createdAt apiTask)
    (mkEmployee (user_id john) (user_name john) (user_department john)).
Definition bugView : TransformedTask :=
  mkTransformedTask (_id bugTask) (title bugTask) (description bugTask)
    (status bugTask) (priority bugTask) (dueDate bugTask) (createdAt bugTask)
    (mkEmployee (user_id john) (user_name john) (user_department john)).
Definition campaignView : TransformedTask :=
  mkTransformedTask (_id campaignTask) (title campaignTask)
    (description campaignTask) (status campaignTask) (priority campaignTask)
    (dueDate campaignTask) (createdAt campaignTask)
    (mkEmployee (user_id sarah) (user_name sarah) (user_department sarah)).
Definition views : list TransformedTask := [apiView; bugView; campaignView].

(** A task whose title is written in capitals with an accent: the first
    letter is U+00C9. *)
Definition ecoleView : TransformedTask :=
  mkTransformedTask (oid "660000000000000000000009") (String "201" "COLE")
    None "To Do" "Low" None (seeded + 6)
    (mkEmployee (user_id sarah) (user_name sarah) (user_department sarah)).

(** Mongoose's message for an employee id that is no ObjectId. *)
Definition castMessage (v : string) : string :=
  "Cast to ObjectId failed for value " ++ v ++ " at path employeeId".

(** A new task typed into the blank form, and the task it becomes. *)
Definition notesForm : TaskForm.Form :=
  TaskForm.mkForm "  Write release notes " "" "To Do" (Some may15) "Medium".
Definition notesId : ObjectId.t := oid "660000000000000000000007".
Definition notesTask : Task :=
  mkTask notesId "Write release notes" (Some "") "To Do" "Medium" (Some may15)
         (user_id john) noonMay10.

(** A registration body, as the register form sends it, and the account it
    creates. *)
Definition miaForm : Register.Form :=
  Register.mkForm "Mia Analyst" "mia@example.com" "s3cret!" "s3cret!" "Finance".
Definition miaId : ObjectId.t := oid "65000000000000000000000a".
Definition mia : User :=
  mkUser miaId "Mia Analyst" "mia@example.com" (hash "s3cret!") "employee"
         "Finance".

(** The sample pattern asks for an [@]; the sample tokens are
    ["jwt.<id>.<role>"], verified by reading the id back. *)
Definition validEmail (s : string) : bool := JS.includes s "@".
Definition verify (token : string) : option string :=
  if JS.startsWith "jwt." token then Some (String.substring 4 24 token) else None.

End Samples.

(* ================================================================== *)
(** * Part II: properties *)
(* ================================================================== *)

(** ** Strings *)
Section StringFacts.

Lemma startsWith_spec (p s : string) :
  JS.startsWith p s = true <-> exists r, s = p ++ r.
Proof.
  revert s; induction p as [|a p IH]; intros s; simpl.
  - split; [intros _; now exists s | reflexivity].
  - destruct s as [|b s].
    + split; [discriminate | intros [r Hr]; discriminate].
    + rewrite andb_true_iff, Ascii.eqb_eq, IH. split.
      * intros [-> [r ->]]. now exists r.
      * intros [r Hr]. injection Hr as -> ->. split; [reflexivity | now exists r].
Qed.

Lemma includes_spec (s term : string) :
  JS.includes s term = true <-> exists pre post, s = pre ++ term ++ post.
Proof.
  induction s as [|c s IH].
  - simpl. rewrite orb_false_r, startsWith_spec. split.
    + intros [r Hr]. now exists "", r.
    + intros [pre [post H]]. destruct pre; [now exists post | discriminate].
  - cbn [JS.includes]. rewrite orb_true_iff, startsWith_spec, IH. split.
    + intros [[r Hr] | [pre [post H]]].
      * now exists "", r.
      * exists (String c pre), post. simpl. now rewrite H.
    + intros [pre [post H]]. destruct pre as [|c' pre].
      * left. now exists post.
      * right. simpl in H. injection H as _ H. now exists pre, post.
Qed.

Lemma toLowerCase_app (s t : string) :
  JS.toLowerCase (s ++ t) = JS.toLowerCase s ++ JS.toLowerCase t.
Proof.
  induction s as [|c s IH]; simpl; [reflexivity | now rewrite IH].
Qed.

Lemma toLowerCase_length (s : string) :
  String.length (JS.toLowerCase s) = String.length s.
Proof.
  induction s as [|c s IH]; simpl; [reflexivity | now rewrite IH].
Qed.

(** A lower-cased text splits the way its original does. *)
Lemma toLowerCase_split (s u v : string) :
  JS.toLowerCase s = u ++ v ->
  exists a b, s = a ++ b /\ JS.toLowerCase a = u /\ JS.toLowerCase b = v.
Proof.
  revert u; induction s as [|c s IH]; intros u H.
  - simpl in H. destruct u; [|discriminate]. simpl in H. subst v.
    now exists "", "".
  - destruct u as [|d u].
    + simpl in H. subst v. now exists "", (String c s).
    + simpl in H. injection H as Hc H. destruct (IH _ H) as [a [b [-> [Ha Hb]]]].
      exists (String c a), b. simpl. now rewrite Hc, Ha, Hb.
Qed.

Lemma ascii_code_inj (a b : ascii) : nat_of_ascii a = nat_of_ascii b <-> a = b.
Proof.
  split; [|now intros ->]. intros H.
  rewrite <- (ascii_nat_embedding a), <- (ascii_nat_embedding b). now rewrite H.
Qed.

(** What [toLowerCaseChar] does to a capital and to any other character. *)
Lemma toLowerCaseChar_code (c : ascii) :
  let n := nat_of_ascii c in
  ((65 <= n <= 90)%nat \/ (192 <= n <= 214)%nat \/ (216 <= n <= 222)%nat ->
   nat_of_ascii (JS.toLowerCaseChar c) = (n + 32)%nat)
  /\ (~ ((65 <= n <= 90)%nat \/ (192 <= n <= 214)%nat \/ (216 <= n <= 222)%nat) ->
      JS.toLowerCaseChar c = c).
Proof.
  intros n. unfold JS.toLowerCaseChar. fold n.
  destruct (Nat.leb 65 n && Nat.leb n 90 || Nat.leb 192 n && Nat.leb n 214
            || Nat.leb 216 n && Nat.leb n 222)%bool eqn:E.
  - rewrite !orb_true_iff, !andb_true_iff, !Nat.leb_le in E. split.
    + intros _. apply nat_ascii_embedding. lia.
    + intros H. exfalso. apply H. lia.
  - apply not_true_iff_false in E.
    rewrite !orb_true_iff, !andb_true_iff, !Nat.leb_le in E. split.
    + intros H. exfalso. apply E. lia.
    + reflexivity.
Qed.

(** Two characters have the same lower-case form exactly when they are the
    same letter up to case. *)
Lemma toLowerCaseChar_sameLetter (a b : ascii) :
  JS.toLowerCaseChar a = JS.toLowerCaseChar b <-> Spec.sameLetter a b.
Proof.
  unfold Spec.sameLetter, Spec.capitalOf.
  rewrite <- !ascii_code_inj.
  destruct (toLowerCaseChar_code a) as [Ha1 Ha2].
  destruct (toLowerCaseChar_code b) as [Hb1 Hb2].
  cbv zeta in *.
  set (n := nat_of_ascii a) in *. set (m := nat_of_ascii b) in *.
  assert (Ca : ((65 <= n <= 90)%nat \/ (192 <= n <= 214)%nat \/ (216 <= n <= 222)%nat)
               \/ ~ ((65 <= n <= 90)%nat \/ (192 <= n <= 214)%nat
                     \/ (216 <= n <= 222)%nat))
    by lia.
  assert (Cb : ((65 <= m <= 90)%nat \/ (192 <= m <= 214)%nat \/ (216 <= m <= 222)%nat)
               \/ ~ ((65 <= m <= 90)%nat \/ (192 <= m <= 214)%nat
                     \/ (216 <= m <= 222)%nat))
    by lia.
  destruct Ca as [Ca | Ca], Cb as [Cb | Cb].
  - rewrite (Ha1 Ca), (Hb1 Cb). lia.
  - rewrite (Ha1 Ca), (Hb2 Cb). fold m. lia.
  - rewrite (Ha2 Ca), (Hb1 Cb). fold n. lia.
  - rewrite (Ha2 Ca), (Hb2 Cb). fold n m. lia.
Qed.

Lemma toLowerCase_sameText (s t : string) :
  JS.toLowerCase s = JS.toLowerCase t <-> Spec.sameText s t.
Proof.
  revert t. induction s as [|a s IH]; intros [|b t]; simpl.
  - tauto.
  - split; [discriminate | tauto].
  - split; [discriminate | tauto].
  - rewrite <- IH, <- toLowerCaseChar_sameLetter. split.
    + intros [= H1 H2]. now split.
    + intros [H1 H2]. now rewrite H1, H2.
Qed.

Lemma sameText_refl (s : string) : Spec.sameText s s.
Proof. now apply toLowerCase_sameText. Qed.

(** [includes] after [toLowerCase] is containment up to letter case. *)
Lemma includes_toLowerCase (s term : string) :
  JS.includes (JS.toLowerCase s) (JS.toLowerCase term) = true
  <-> Spec.ciContains term s.
Proof.
  rewrite includes_spec. unfold Spec.ciContains. split.
  - intros [pre [post H]].
    destruct (toLowerCase_split _ _ _ H) as [a [b [-> [_ Hb]]]].
    destruct (toLowerCase_split _ _ _ Hb) as [m [p [-> [Hm _]]]].
    exists a, m, p. split; [reflexivity | now apply toLowerCase_sameText].
  - intros [pre [mid [post [-> Hm]]]]. apply toLowerCase_sameText in Hm.
    exists (JS.toLowerCase pre), (JS.toLowerCase post).
    now rewrite !toLowerCase_app, Hm.
Qed.

Lemma truthy_true (s : string) : JS.truthy s = true <-> s <> "".
Proof.
  unfold JS.truthy. rewrite negb_true_iff. split.
  - intros H ->. discriminate.
  - intros H. now apply String.eqb_neq.
Qed.

Lemma isWhiteSpace_whiteSpace (c : ascii) :
  JS.isWhiteSpace c = true <-> Spec.whiteSpace c.
Proof.
  unfold JS.isWhiteSpace, Spec.whiteSpace. cbv zeta.
  rewrite !orb_true_iff, andb_true_iff, !Nat.leb_le, !Nat.eqb_eq.
  simpl. lia.
Qed.

Lemma trimStart_blank (s : string) :
  Spec.blank (JS.trimStart s) <-> Spec.blank s.
Proof.
  induction s as [|c r IH]; simpl; [tauto|].
  destruct (JS.isWhiteSpace c) eqn:E.
  - apply isWhiteSpace_whiteSpace in E. tauto.
  - reflexivity.
Qed.

Lemma trimEnd_blank (s : string) : JS.trimEnd s = "" <-> Spec.blank s.
Proof.
  induction s as [|c r IH]; simpl; [tauto|].
  rewrite <- IH, <- isWhiteSpace_whiteSpace.
  destruct (JS.isWhiteSpace c); simpl.
  - destruct (String.eqb (JS.trimEnd r) "") eqn:E.
    + apply String.eqb_eq in E. tauto.
    + apply String.eqb_neq in E. split; [discriminate | tauto].
  - split; [discriminate | intros [H _]; discriminate].
Qed.

(** [trim] leaves nothing exactly of a blank text. *)
Lemma trim_blank (s : string) : JS.trim s = "" <-> Spec.blank s.
Proof. unfold JS.trim. now rewrite trimEnd_blank, trimStart_blank. Qed.

End StringFacts.

(** ** ObjectIds and their texts *)
Section ObjectIdFacts.

Lemma digitValue_inj (a b : ObjectId.digit) :
  ObjectId.digitValue a = ObjectId.digitValue b -> a = b.
Proof. destruct a, b; simpl; intros H; first [reflexivity | discriminate]. Qed.

Lemma charDigit_digitChar (d : ObjectId.digit) :
  ObjectId.charDigit (ObjectId.digitChar d) = Some d.
Proof. destruct d; reflexivity. Qed.

Lemma eqbHex_eq (n : nat) (a b : ObjectId.hex n) :
  ObjectId.eqbHex n a b = true <-> a = b.
Proof.
  induction n as [|n IH]; simpl.
  - destruct a, b. tauto.
  - destruct a as [d a], b as [e b]. simpl.
    rewrite andb_true_iff, Nat.eqb_eq, IH. split.
    + intros [Hd ->]. apply digitValue_inj in Hd. now subst e.
    + intros [= -> ->]. now split.
Qed.

Lemma parse_print (n : nat) (h : ObjectId.hex n) :
  ObjectId.parse n (ObjectId.print n h) = Some h.
Proof.
  induction n as [|n IH]; simpl.
  - now destruct h.
  - destruct h as [d h]. simpl. now rewrite charDigit_digitChar, IH.
Qed.

Lemma ObjectId_eqb_eq (a b : ObjectId.t) : ObjectId.eqb a b = true <-> a = b.
Proof. apply eqbHex_eq. Qed.

Lemma ObjectId_eqb_refl (a : ObjectId.t) : ObjectId.eqb a a = true.
Proof. now apply ObjectId_eqb_eq. Qed.

Lemma ObjectId_eqb_neq (a b : ObjectId.t) : ObjectId.eqb a b = false <-> a <> b.
Proof.
  rewrite <- ObjectId_eqb_eq. destruct (ObjectId.eqb a b); split; congruence.
Qed.

(** The text [toString] writes casts back to the ObjectId it was written
    for. *)
Lemma cast_toString (id : ObjectId.t) :
  ObjectId.cast (ObjectId.toString id) = Some id.
Proof. apply parse_print. Qed.

Lemma toString_inj (a b : ObjectId.t) :
  ObjectId.toString a = ObjectId.toString b <-> a = b.
Proof.
  split; [|now intros ->]. intros H.
  pose proof (cast_toString a) as Ha. rewrite H, cast_toString in Ha. congruence.
Qed.

End ObjectIdFacts.

(** ** Local midnight and local days *)
Section DateFacts.
Variable zone : Dates.Zone.





End DateFacts.

(** In a zone at a fixed offset, local midnight is the instant less the
    time of day that has passed locally. *)
Lemma setHours0_fixed (utcOffset t : Z) :
  Dates.setHours0 (Dates.fixed utcOffset) t
  = t - (t + utcOffset) mod Dates.msPerDay.
Proof.
  unfold Dates.setHours0, Dates.utc, Dates.localDay, Dates.localTime. simpl.
  pose proof (Z.div_mod (t + utcOffset) Dates.msPerDay) as H.
  unfold Dates.msPerDay in *. lia.
Qed.

Lemma fixed_steadyOffsets (utcOffset : Z) :
  Spec.steadyOffsets (Dates.fixed utcOffset).
Proof. intros a b. simpl. unfold Dates.msPerDay. lia. Qed.


(** ** Lists and filters *)
Section FilterFacts.
Context {A : Type}.

Lemma filter_true (l : list A) : filter (fun _ => true) l = l.
Proof. induction l as [|a l IH]; simpl; [reflexivity | now rewrite IH]. Qed.

Lemma filter_andb (f g : A -> bool) (l : list A) :
  filter g (filter f l) = filter (fun x => f x && g x) l.
Proof.
  induction l as [|a l IH]; simpl; [reflexivity|].
  destruct (f a); simpl; [destruct (g a)|]; now rewrite IH.
Qed.

Lemma filter_idem (f : A -> bool) (l : list A) :
  filter f (filter f l) = filter f l.
Proof.
  rewrite filter_andb. apply filter_ext. intros a. now destruct (f a).
Qed.

Lemma filter_StronglySorted (R : A -> A -> Prop) (f : A -> bool) (l : list A) :
  StronglySorted R l -> StronglySorted R (filter f l).
Proof.
  induction 1 as [|a l Hl IH Ha]; simpl; [constructor|].
  destruct (f a); [|exact IH].
  constructor; [exact IH|].
  rewrite Forall_forall in *. intros x Hx.
  apply filter_In in Hx. now apply Ha.
Qed.

(** In a strongly sorted list every two adjacent elements are related. *)
Lemma StronglySorted_adjacent (R : A -> A -> Prop) (l pre post : list A) (a b : A) :
  StronglySorted R l -> l = (pre ++ a :: b :: post)%list -> R a b.
Proof.
  intros Hs ->. induction pre as [|x pre IH]; simpl in Hs.
  - apply StronglySorted_inv in Hs. destruct Hs as [_ Hall].
    rewrite Forall_forall in Hall. apply Hall. now left.
  - apply StronglySorted_inv in Hs. now apply IH.
Qed.

End FilterFacts.

(** ** Sorting *)
Section SortFacts.
Context {A : Type}.
Variable cmp : A -> A -> Z.
Hypothesis cmp_total : forall a b, 0 < cmp a b -> cmp b a <= 0.
Hypothesis cmp_trans : forall a b c, cmp a b <= 0 -> cmp b c <= 0 -> cmp a c <= 0.

Lemma insert_In (a x : A) (l : list A) :
  In x (AdminDashboard.insert cmp a l) <-> x = a \/ In x l.
Proof.
  induction l as [|y l IH]; simpl.
  - intuition.
  - destruct (cmp a y <=? 0); simpl; rewrite ?IH; intuition.
Qed.

Lemma insert_Permutation (a : A) (l : list A) :
  Permutation (a :: l) (AdminDashboard.insert cmp a l).
Proof.
  induction l as [|y l IH]; simpl; [reflexivity|].
  destruct (cmp a y <=? 0); [reflexivity|].
  rewrite perm_swap. now constructor.
Qed.

Lemma sort_Permutation (l : list A) :
  Permutation l (AdminDashboard.sort cmp l).
Proof.
  induction l as [|a l IH]; simpl; [constructor|].
  rewrite <- insert_Permutation. now constructor.
Qed.

Lemma insert_StronglySorted (a : A) (l : list A) :
  StronglySorted (Spec.before cmp) l ->
  StronglySorted (Spec.before cmp) (AdminDashboard.insert cmp a l).
Proof.
  induction 1 as [|y l Hl IH Hy]; simpl.
  - repeat constructor.
  - destruct (cmp a y <=? 0) eqn:E.
    + apply Z.leb_le in E. constructor; [now constructor|].
      constructor; [exact E|].
      rewrite Forall_forall in *. intros x Hx.
      apply (cmp_trans a y x E). now apply Hy.
    + apply Z.leb_gt in E. constructor; [exact IH|].
      rewrite Forall_forall in *. intros x Hx.
      apply insert_In in Hx. destruct Hx as [-> | Hx].
      * now apply cmp_total.
      * now apply Hy.
Qed.

Lemma sort_StronglySorted (l : list A) :
  StronglySorted (Spec.before cmp) (AdminDashboard.sort cmp l).
Proof.
  induction l as [|a l IH]; simpl; [constructor|].
  now apply insert_StronglySorted.
Qed.

End SortFacts.

(** ** The employee dashboard's overdue filter *)
Section OverdueFilter.
Import Server.
Variable zone : Dates.Zone.




End OverdueFilter.


(** ** The admin dashboard's filter pipeline *)
Section AdminPipeline.
Import Server.
Variable zone : Dates.Zone.

Lemma byDepartment_filter (d : string) (l : list TransformedTask) :
  AdminDashboard.byDepartment d l
  = filter (fun task => String.eqb d "all"
                        || String.eqb (emp_department (employee task)) d) l.
Proof.
  unfold AdminDashboard.byDepartment. destruct (String.eqb d "all"); simpl.
  - symmetry. apply filter_true.
  - reflexivity.
Qed.

Lemma byDateRange_filter (r : option AdminDashboard.DateRange)
      (l : list TransformedTask) :
  AdminDashboard.byDateRange zone r l
  = filter (fun task => match r with
                        | Some range => AdminDashboard.inDateRange zone range task
                        | None => true
                        end) l.
Proof.
  destruct r as [range|]; simpl.
  - reflexivity.
  - symmetry. apply filter_true.
Qed.

Lemma bySearch_filter (q : string) (l : list TransformedTask) :
  AdminDashboard.bySearch q l
  = filter (fun task => if JS.truthy (JS.trim q)
                        then AdminDashboard.matchesSearch (JS.toLowerCase q) task
                        else true) l.
Proof.
  unfold AdminDashboard.bySearch. destruct (JS.truthy (JS.trim q)).
  - reflexivity.
  - symmetry. apply filter_true.
Qed.

(** The pipeline is one filter by the conjunction of its stages. *)
Lemma filteredTasks_filter (st : AdminDashboard.State) :
  AdminDashboard.filteredTasks zone st
  = filter (Spec.keeps zone st) (AdminDashboard.tasks st).
Proof.
  unfold AdminDashboard.filteredTasks.
  rewrite byDepartment_filter, byDateRange_filter, bySearch_filter.
  rewrite !filter_andb. apply filter_ext. intros task.
  unfold Spec.keeps. now rewrite andb_assoc.
Qed.

Lemma filteredTasks_In (st : AdminDashboard.State) (task : TransformedTask) :
  In task (AdminDashboard.filteredTasks zone st)
  <-> In task (AdminDashboard.tasks st) /\ Spec.keeps zone st task = true.
Proof. rewrite filteredTasks_filter. apply filter_In. Qed.




Lemma ciContains_nonempty (term s : string) :
  term <> "" -> Spec.ciContains term s -> s <> "".
Proof.
  intros Hterm [pre [mid [post [-> Hmid]]]] Hs.
  destruct pre; [|discriminate]. destruct mid; [|discriminate].
  destruct term; [now apply Hterm | exact Hmid].
Qed.

Lemma matchesSearch_spec (term : string) (task : TransformedTask) :
  term <> "" ->
  AdminDashboard.matchesSearch (JS.toLowerCase term) task = true
  <-> Spec.ciContains term (tt_title task)
      \/ (exists d, tt_description task = Some d /\ Spec.ciContains term d)
      \/ Spec.ciContains term (emp_name (employee task)).
Proof.
  intros Hterm. unfold AdminDashboard.matchesSearch.
  rewrite !orb_true_iff, !includes_toLowerCase.
  destruct (tt_description task) as [d|].
  - rewrite andb_true_iff, includes_toLowerCase, truthy_true. split.
    + intros [[H | [_ H]] | H]; [now left | right; left; now exists d | now right; right].
    + intros [H | [[d' [[= <-] H]] | H]].
      * now left; left.
      * left; right. split; [now apply (ciContains_nonempty term) | exact H].
      * now right.
  - split.
    + intros [[H | H] | H]; [now left | discriminate | now right; right].
    + intros [H | [[d' [[=] _]] | H]]; [now left; left | now right].
Qed.

(** C6. With department "Engineering" selected and "bug" typed in the search
    box (no date range), the admin view lists exactly the tasks whose
    owner's department is Engineering and whose title, description or owner
    name contains "bug" up to letter case; it is the search filter applied
    to the department filter's result.  In general the pipeline's result is
    the intersection of what each of its filters keeps on its own. *)
Theorem engineering_bug_search (l : list TransformedTask) :
  let shown :=
    AdminDashboard.filteredTasks zone
      (AdminDashboard.mkState l "Engineering" None "bug") in
  (forall task,
      In task shown
      <-> In task l
          /\ emp_department (employee task) = "Engineering"
          /\ (Spec.ciContains "bug" (tt_title task)
              \/ (exists d, tt_description task = Some d /\ Spec.ciContains "bug" d)
              \/ Spec.ciContains "bug" (emp_name (employee task))))
  /\ shown
     = filter (AdminDashboard.matchesSearch "bug")
         (filter (fun task =>
                    String.eqb (emp_department (employee task)) "Engineering") l)
  /\ shown
     = AdminDashboard.bySearch "bug" (AdminDashboardJs.filteredTasks l "Engineering")
  /\ (forall st task,
         In task (AdminDashboard.filteredTasks zone st)
         <-> In task (AdminDashboard.byDepartment
                        (AdminDashboard.selectedDepartment st)
                        (AdminDashboard.tasks st))
             /\ In task (AdminDashboard.byDateRange zone
                           (AdminDashboard.dateRange st)
                           (AdminDashboard.tasks st))
             /\ In task (AdminDashboard.bySearch
                           (AdminDashboard.searchTerm st)
                           (AdminDashboard.tasks st))).
Proof.
  intros shown. subst shown.
  assert (Heq : AdminDashboard.filteredTasks zone
                  (AdminDashboard.mkState l "Engineering" None "bug")
                = filter (AdminDashboard.matchesSearch "bug")
                    (filter (fun task =>
                               String.eqb (emp_department (employee task))
                                          "Engineering") l))
    by reflexivity.
  split; [|split; [exact Heq | split; [reflexivity|]]].
  - intros task. rewrite Heq, !filter_In, String.eqb_eq.
    change "bug" with (JS.toLowerCase "bug") at 1.
    rewrite matchesSearch_spec by discriminate. tauto.
  - intros st task. rewrite filteredTasks_In.
    rewrite byDepartment_filter, byDateRange_filter, bySearch_filter.
    rewrite !filter_In. unfold Spec.keeps. rewrite !andb_true_iff. tauto.
Qed.

Lemma keeps_withTasks (st : AdminDashboard.State) (l : list TransformedTask)
      (task : TransformedTask) :
  Spec.keeps zone (Spec.withTasks st l) task = Spec.keeps zone st task.
Proof. reflexivity. Qed.

(** C7. Filtering what the pipeline has already filtered, with the same
    filter values, changes nothing: for the whole pipeline, and for the
    department filter followed by the text search in particular. *)
Theorem filter_pipeline_idempotent (st : AdminDashboard.State) :
  AdminDashboard.filteredTasks zone
    (Spec.withTasks st (AdminDashboard.filteredTasks zone st))
  = AdminDashboard.filteredTasks zone st
  /\ (forall d q l,
         AdminDashboard.bySearch q
           (AdminDashboard.byDepartment d
              (AdminDashboard.bySearch q (AdminDashboard.byDepartment d l)))
         = AdminDashboard.bySearch q (AdminDashboard.byDepartment d l)).
Proof.
  assert (Hall : forall s,
             AdminDashboard.filteredTasks zone
               (Spec.withTasks s (AdminDashboard.filteredTasks zone s))
             = AdminDashboard.filteredTasks zone s).
  { intros s. rewrite (filteredTasks_filter (Spec.withTasks s _)). simpl.
    rewrite (filteredTasks_filter s).
    rewrite (filter_ext _ _ (keeps_withTasks s _)).
    apply filter_idem. }
  split; [apply Hall|].
  intros d q l. exact (Hall (AdminDashboard.mkState l d None q)).
Qed.

Lemma byCreatedAtDesc_total (a b : TransformedTask) :
  0 < AdminDashboard.byCreatedAtDesc a b -> AdminDashboard.byCreatedAtDesc b a <= 0.
Proof. unfold AdminDashboard.byCreatedAtDesc. lia. Qed.

Lemma byCreatedAtDesc_trans (a b c : TransformedTask) :
  AdminDashboard.byCreatedAtDesc a b <= 0 ->
  AdminDashboard.byCreatedAtDesc b c <= 0 ->
  AdminDashboard.byCreatedAtDesc a c <= 0.
Proof. unfold AdminDashboard.byCreatedAtDesc. lia. Qed.

Lemma StronglySorted_Descending (l : list TransformedTask) :
  StronglySorted (Spec.before AdminDashboard.byCreatedAtDesc) l ->
  Spec.Descending l.
Proof.
  intros Hs pre a b post Hl.
  pose proof (StronglySorted_adjacent _ _ _ _ _ _ Hs Hl) as H.
  unfold Spec.before, AdminDashboard.byCreatedAtDesc in H. lia.
Qed.

(** C8. The admin view stores the fetched tasks sorted by creation time,
    newest first: the stored list is a rearrangement of the fetched one in
    which each task is at least as recent as the one after it, and the
    same holds for the list displayed under any choice of filters. *)
Theorem admin_listing_newest_first (data : list TransformedTask)
        (d : string) (r : option AdminDashboard.DateRange) (q : string) :
  Spec.Descending (AdminDashboard.fetchTasks data)
  /\ Spec.Descending
       (AdminDashboard.filteredTasks zone
          (AdminDashboard.mkState (AdminDashboard.fetchTasks data) d r q))
  /\ Permutation data (AdminDashboard.fetchTasks data).
Proof.
  assert (Hs : StronglySorted (Spec.before AdminDashboard.byCreatedAtDesc)
                 (AdminDashboard.fetchTasks data)).
  { apply sort_StronglySorted.
    - exact byCreatedAtDesc_total.
    - exact byCreatedAtDesc_trans. }
  split; [now apply StronglySorted_Descending|]. split.
  - apply StronglySorted_Descending. rewrite filteredTasks_filter. simpl.
    now apply filter_StronglySorted.
  - apply sort_Permutation.
Qed.

End AdminPipeline.


(** Splits a conjunction of implications and equivalences between concrete
    answers and closes the cases that hold by computation. *)
Ltac answer_cases :=
  repeat match goal with
         | |- _ /\ _ => split
         | |- _ <-> _ => split
         end;
  intros;
  repeat match goal with
         | H : exists _, _ |- _ => destruct H
         | H : _ /\ _ |- _ => destruct H
         end;
  try discriminate; try congruence; try reflexivity; try tauto.

(** ** Update and delete: the ownership check *)
Section TaskAuthorization.
Import Server.
Variable Body : Type.
Variable findByIdAndUpdate :
  list Task -> string -> Body -> result (option Task) * list Task.

Lemma notAuthorized_true (user : User) (task : Task) :
  notAuthorized user (ObjectId.toString (employeeId task)) = true
  <-> ~ Spec.mayModify user task.
Proof.
  unfold notAuthorized, Spec.mayModify.
  rewrite andb_true_iff, !negb_true_iff, !String.eqb_neq, toString_inj. tauto.
Qed.

Lemma notAuthorized_false (user : User) (task : Task) :
  notAuthorized user (ObjectId.toString (employeeId task)) = false
  <-> Spec.mayModify user task.
Proof.
  unfold notAuthorized, Spec.mayModify.
  rewrite andb_false_iff, !negb_false_iff, !String.eqb_eq, toString_inj. tauto.
Qed.

(** The document [findById] finds has the ObjectId the text casts to. *)
Lemma findById_found {D : Type} (key : D -> ObjectId.t) (coll : list D)
      (id : string) (d : D) :
  findById key coll id = Ok (Some d) ->
  ObjectId.cast id = Some (key d)
  /\ find (fun x => ObjectId.eqb (key x) (key d)) coll = Some d.
Proof.
  unfold findById. destruct (ObjectId.cast id) as [oid|]; [|discriminate].
  intros [= H]. pose proof (find_some _ _ H) as [_ Hk].
  apply ObjectId_eqb_eq in Hk. subst oid. now split.
Qed.

Lemma find_replaceFirst (id : ObjectId.t) (f : Task -> Task) (tasks : list Task)
      (task : Task) :
  (forall t, _id (f t) = _id t) ->
  find (fun t => ObjectId.eqb (_id t) id) tasks = Some task ->
  find (fun t => ObjectId.eqb (_id t) id) (replaceFirst id f tasks)
  = Some (f task).
Proof.
  intros Hid. induction tasks as [|t l IH]; simpl; [discriminate|].
  destruct (ObjectId.eqb (_id t) id) eqn:E; simpl.
  - intros [= <-]. now rewrite Hid, E.
  - rewrite E. exact IH.
Qed.

(** What [updateTask] answers once the task is found. *)
Lemma updateTask_found (tasks : list Task) (user : User) (id : string)
      (task : Task) (body : Body) :
  findById _id tasks id = Ok (Some task) ->
  updateTask findByIdAndUpdate tasks (Some user) id body
  = if notAuthorized user (ObjectId.toString (employeeId task)) then
      (Next (ErrorResponse "Not authorized to update this task" 401), tasks)
    else
      (bind (fst (findByIdAndUpdate tasks id body))
            (fun task' => Ok (200, task')),
       snd (findByIdAndUpdate tasks id body)).
Proof.
  intros Hfind. unfold updateTask. rewrite Hfind.
  destruct (notAuthorized user _); [reflexivity|].
  now destruct (findByIdAndUpdate tasks id body).
Qed.

Lemma deleteTask_found (tasks : list Task) (user : User) (id : string)
      (task : Task) :
  findById _id tasks id = Ok (Some task) ->
  deleteTask tasks (Some user) id
  = if notAuthorized user (ObjectId.toString (employeeId task)) then
      (Next (ErrorResponse "Not authorized to delete this task" 401), tasks)
    else (Ok 200, removeFirst (_id task) tasks).
Proof.
  intros Hfind. unfold deleteTask. now rewrite Hfind.
Qed.

(** C1 (as amended). For a task in the store and an authenticated actor:
    delete succeeds exactly when the actor is an admin or the task's owner.
    Update is let through by the same check: an actor who is neither gets
    the policy denial, and for an admin or the owner the answer and the
    collection afterwards are those of [Task.findByIdAndUpdate] on the
    request's body, whatever the body holds; so update succeeds exactly
    when the actor is an admin or the owner and that call succeeds.  An
    actor who is neither admin nor owner gets the policy denial (status
    401, "Not authorized to ... this task") and the task collection is
    left as it was. *)
Theorem update_delete_owner_or_admin (tasks : list Task) (user : User)
        (id : string) (task : Task) (body : Body) :
  findById _id tasks id = Ok (Some task) ->
  (fst (deleteTask tasks (Some user) id) = Ok 200
   <-> Spec.mayModify user task)
  /\ ((exists answer,
         fst (updateTask findByIdAndUpdate tasks (Some user) id body) = Ok answer)
      <-> Spec.mayModify user task
          /\ exists task', fst (findByIdAndUpdate tasks id body) = Ok task')
  /\ (deleteTask tasks (Some user) id
      = (Next (ErrorResponse "Not authorized to delete this task" 401), tasks)
      <-> ~ Spec.mayModify user task)
  /\ (~ Spec.mayModify user task ->
      updateTask findByIdAndUpdate tasks (Some user) id body
      = (Next (ErrorResponse "Not authorized to update this task" 401), tasks))
  /\ (Spec.mayModify user task ->
      deleteTask tasks (Some user) id = (Ok 200, removeFirst (_id task) tasks))
  /\ (Spec.mayModify user task ->
      updateTask findByIdAndUpdate tasks (Some user) id body
      = (bind (fst (findByIdAndUpdate tasks id body))
              (fun task' => Ok (200, task')),
         snd (findByIdAndUpdate tasks id body))).
Proof.
  intros Hfind.
  rewrite (deleteTask_found _ _ _ _ Hfind), (updateTask_found _ _ _ _ _ Hfind).
  rewrite <- (notAuthorized_true user task), <- (notAuthorized_false user task).
  destruct (notAuthorized user (ObjectId.toString (employeeId task))); simpl.
  - answer_cases.
  - destruct (fst (findByIdAndUpdate tasks id body)) as [task'|e]; simpl.
    + answer_cases; [split; [reflexivity | now exists task']
                    | now exists (200, task')].
    + answer_cases.
Qed.

End TaskAuthorization.

(** What the update of a body made of the task form's fields amounts to
    once the task is found: the validators run on the trimmed fields, and
    the fields the body gives replace the task's. *)
Lemma findByIdAndUpdatePatch_found (tasks : list Server.Task) (id : string)
      (task : Server.Task) (body : Server.Patch) :
  Server.findById Server._id tasks id = Server.Ok (Some task) ->
  Server.findByIdAndUpdatePatch tasks id body
  = match Server.runValidators (Server.castPatch body) with
    | [] => (Server.Ok (Some (Server.applyPatch (Server.castPatch body) task)),
             Server.replaceFirst (Server._id task)
               (Server.applyPatch (Server.castPatch body)) tasks)
    | m :: ms => (Server.Next (Server.ValidationError (m :: ms)), tasks)
    end.
Proof.
  intros Hfind. destruct (findById_found _ _ _ _ Hfind) as [Hid Hf].
  unfold Server.findByIdAndUpdatePatch. rewrite Hid.
  destruct (Server.runValidators (Server.castPatch body)) as [|m ms];
    [|reflexivity].
  rewrite (find_replaceFirst _ _ tasks task); [reflexivity | reflexivity | exact Hf].
Qed.

(** John owns the bug task and may mark it done; Sarah, an employee who
    does not own it, is denied and the collection stays as it was. *)
Lemma update_delete_owner_or_admin_witness :
  Server.findById Server._id Samples.tasks
    (ObjectId.toString (Server._id Samples.bugTask))
  = Server.Ok (Some Samples.bugTask)
  /\ (fst (Server.deleteTask Samples.tasks (Some Samples.john)
             (ObjectId.toString (Server._id Samples.bugTask))) = Server.Ok 200
      <-> Spec.mayModify Samples.john Samples.bugTask)
  /\ Server.updateTask Server.findByIdAndUpdatePatch Samples.tasks
       (Some Samples.sarah) (ObjectId.toString (Server._id Samples.bugTask))
       Samples.donePatch
     = (Server.Next
          (Server.ErrorResponse "Not authorized to update this task" 401),
        Samples.tasks).
Proof.
  split; [reflexivity|]. split.
  - exact (proj1 (update_delete_owner_or_admin Server.Patch
                    Server.findByIdAndUpdatePatch Samples.tasks
                    Samples.john (ObjectId.toString (Server._id Samples.bugTask))
                    Samples.bugTask Samples.donePatch eq_refl)).
  - reflexivity.
Defined.

(** C1 as stated fails: the owner of a task sends a status outside the
    schema's enum; the update passes the ownership check and is then
    rejected by the validators (status 400), so it does not succeed
    although the actor owns the task. *)
Lemma owner_update_rejected_by_validators :
  Server.findById Server._id Samples.tasks
    (ObjectId.toString (Server._id Samples.bugTask))
  = Server.Ok (Some Samples.bugTask)
  /\ Spec.mayModify Samples.john Samples.bugTask
  /\ Server.updateTask Server.findByIdAndUpdatePatch Samples.tasks
       (Some Samples.john) (ObjectId.toString (Server._id Samples.bugTask))
       Samples.finishedPatch
     = (Server.Next
          (Server.ValidationError
             ["`Finished` is not a valid enum value for path `status`."]),
        Samples.tasks)
  /\ Server.errorHandler
       (Server.ValidationError
          ["`Finished` is not a valid enum value for path `status`."])
     = Server.mkErrorBody 400
         "`Finished` is not a valid enum value for path `status`.".
Proof.
  split; [reflexivity|]. split; [right; reflexivity|].
  split; reflexivity.
Qed.

(** ** Login *)
Section Login.
Import Server.
Variable compare : string -> string -> bool.
Variable getSignedJwtToken : User -> string.

(** C4 (as amended). Two login attempts that both carry a non-empty email
    and password, one with an email no user has and one with a registered
    email and a password that does not match its hash, fail with the same
    error: message "Invalid credentials", status 401, and the same answer
    from the error handler. *)
Theorem login_failures_indistinguishable (users : list User)
        (email1 password1 email2 password2 : string) (user : User) :
  email1 <> "" -> password1 <> "" -> email2 <> "" -> password2 <> "" ->
  findOne users email1 = None ->
  findOne users email2 = Some user ->
  compare password2 (user_password user) = false ->
  login compare getSignedJwtToken users
        (mkLoginBody (Some email1) (Some password1))
  = Next Spec.invalidCredentials
  /\ login compare getSignedJwtToken users
           (mkLoginBody (Some email2) (Some password2))
     = Next Spec.invalidCredentials
  /\ errorHandler Spec.invalidCredentials = mkErrorBody 401 "Invalid credentials".
Proof.
  intros He1 Hp1 He2 Hp2 Hnone Hsome Hcmp.
  apply truthy_true in He1, Hp1, He2, Hp2.
  unfold login. simpl.
  rewrite He1, Hp1, He2, Hp2, Hnone, Hsome, Hcmp. simpl.
  repeat split.
Qed.

End Login.

(** An unknown address and Sarah's address with a wrong password. *)
Lemma login_failures_indistinguishable_witness :
  Server.login Samples.compare Samples.getSignedJwtToken Samples.users
    (Server.mkLoginBody (Some "ghost@example.com") (Some "password123"))
  = Server.Next Spec.invalidCredentials
  /\ Server.login Samples.compare Samples.getSignedJwtToken Samples.users
       (Server.mkLoginBody (Some "sarah@example.com") (Some "letmein"))
     = Server.Next Spec.invalidCredentials
  /\ Server.errorHandler Spec.invalidCredentials
     = Server.mkErrorBody 401 "Invalid credentials".
Proof.
  apply (login_failures_indistinguishable Samples.compare
           Samples.getSignedJwtToken Samples.users
           "ghost@example.com" "password123" "sarah@example.com" "letmein"
           Samples.sarah);
    first [discriminate | reflexivity].
Defined.

(** C4 as stated fails: an attempt with an unregistered email and an empty
    password is turned away by the presence check (status 400), while a
    registered email with a wrong password gets "Invalid credentials"
    (status 401). *)
Lemma login_empty_password_differs :
  Server.findOne Samples.users "ghost@example.com" = None
  /\ Server.login Samples.compare Samples.getSignedJwtToken Samples.users
       (Server.mkLoginBody (Some "ghost@example.com") (Some ""))
     = Server.Next
         (Server.ErrorResponse "Please provide an email and password" 400)
  /\ Server.findOne Samples.users "sarah@example.com" = Some Samples.sarah
  /\ Samples.compare "letmein" (Server.user_password Samples.sarah) = false
  /\ Server.login Samples.compare Samples.getSignedJwtToken Samples.users
       (Server.mkLoginBody (Some "sarah@example.com") (Some "letmein"))
     = Server.Next (Server.ErrorResponse "Invalid credentials" 401)
  /\ Server.errorHandler
       (Server.ErrorResponse "Please provide an email and password" 400)
     <> Server.errorHandler (Server.ErrorResponse "Invalid credentials" 401).
Proof.
  repeat split; discriminate.
Qed.

(** ** Listing an employee's tasks *)
Section EmployeeTasks.
Import Server.

Lemma find_absent (users : list User) (oid : ObjectId.t) :
  (forall u, In u users -> user_id u <> oid) ->
  find (fun u => ObjectId.eqb (user_id u) oid) users = None.
Proof.
  intros Habs. induction users as [|u l IH]; simpl; [reflexivity|].
  destruct (ObjectId.eqb (user_id u) oid) eqn:E.
  - apply ObjectId_eqb_eq in E. exfalso. apply (Habs u); [now left | exact E].
  - apply IH. intros v Hv. apply Habs. now right.
Qed.

(** C10. When no user has the requested id, that is, no user's ObjectId is
    the one the requested text casts to, listing that employee's tasks
    fails with status 404 for every actor, also for an employee asking for
    an id that is not their own: the existence check comes before the
    ownership check.  The error is "No user with the id of <id>", or the
    cast error (answered "Resource not found", 404 as well) when the text
    is no ObjectId at all. *)
Theorem employee_tasks_unknown_id_not_found (users : list User)
        (tasks : list Task) (user : User) (id : string) :
  (forall oid u, ObjectId.cast id = Some oid -> In u users -> user_id u <> oid) ->
  (exists e, getEmployeeTasks users tasks (Some user) id = Next e
             /\ eb_status (errorHandler e) = 404)
  /\ (ObjectId.cast id <> None ->
      getEmployeeTasks users tasks (Some user) id
      = Next (ErrorResponse ("No user with the id of " ++ id) 404))
  /\ (ObjectId.cast id = None ->
      getEmployeeTasks users tasks (Some user) id = Next CastError)
  /\ getEmployeeTasks users tasks (Some user) id
     <> Next (ErrorResponse "Not authorized to access these tasks" 401).
Proof.
  intros Habs. unfold getEmployeeTasks, findById.
  destruct (ObjectId.cast id) as [oid|]; simpl.
  - rewrite (find_absent users oid) by (intros u; now apply Habs).
    split; [|split; [reflexivity | split; [discriminate|]]].
    + eexists. split; reflexivity.
    + discriminate.
  - split; [|split; [intros H; now contradiction H | split; [reflexivity | discriminate]]].
    eexists. split; reflexivity.
Qed.

End EmployeeTasks.

(** Sarah, an employee, asks for the tasks of an id nobody has. *)
Lemma employee_tasks_unknown_id_not_found_witness :
  Server.notAuthorized Samples.sarah "65000000000000000000FFFF" = true
  /\ Server.getEmployeeTasks Samples.users Samples.tasks
       (Some Samples.sarah) "65000000000000000000FFFF"
     = Server.Next
         (Server.ErrorResponse
            "No user with the id of 65000000000000000000FFFF" 404).
Proof.
  split; [reflexivity|].
  refine (proj1 (proj2 (employee_tasks_unknown_id_not_found
                          Samples.users Samples.tasks Samples.sarah
                          "65000000000000000000FFFF" _)) _).
  - intros oid u [= <-] [<- | [<- | [<- | []]]]; discriminate.
  - discriminate.
Defined.

(** ** Export *)
Section ExportTasks.
Import Server.
Variable toLocaleDateString : Z -> string.
Variable toISOString : Z -> string.

Lemma mapM_Forall2 {A B : Type} (f : A -> result B) (l : list A) (bs : list B) :
  mapM f l = Ok bs -> Forall2 (fun a b => f a = Ok b) l bs.
Proof.
  revert bs. induction l as [|a l IH]; simpl; intros bs.
  - intros [= <-]. constructor.
  - destruct (f a) as [b|e] eqn:Ea; simpl; [|discriminate].
    destruct (mapM f l) as [bs'|e]; simpl; [|discriminate].
    intros [= <-]. constructor; [exact Ea | now apply IH].
Qed.

(** The tasks of one department: their owner's ObjectId is among those of
    the department's users. *)
Lemma ownedByDepartment_existsb (users : list User) (d : string) (t : Task) :
  existsb (ObjectId.eqb (employeeId t))
          (map user_id (filter (fun u => String.eqb (user_department u) d) users))
  = true
  <-> Spec.ownedByDepartment users d t.
Proof.
  unfold Spec.ownedByDepartment. rewrite existsb_exists. split.
  - intros [x [Hx Hex]]. apply in_map_iff in Hx.
    destruct Hx as [u [<- Hu]]. apply filter_In in Hu.
    destruct Hu as [Hu Hd]. exists u.
    apply ObjectId_eqb_eq in Hex. apply String.eqb_eq in Hd.
    now repeat split.
  - intros [u [Hu [Hid Hd]]]. exists (user_id u). split.
    + apply in_map. apply filter_In. split; [exact Hu|].
      now apply String.eqb_eq.
    + now apply ObjectId_eqb_eq.
Qed.

(** The export's query is a selection from the collection: it keeps the
    collection's order and keeps each task as often as it occurs. *)
Lemma exportQueryTasks_filter (users : list User) (tasks : list Task)
      (q : ExportQuery) :
  exists keep : Task -> bool,
    exportQueryTasks users tasks q = filter keep tasks
    /\ forall t,
         keep t = true
         <-> (forall d, Spec.selectsDepartment q d ->
                        Spec.ownedByDepartment users d t).
Proof.
  unfold exportQueryTasks, Spec.selectsDepartment.
  destruct (q_department q) as [d|].
  - destruct (JS.truthy d && negb (String.eqb d "all")) eqn:E.
    + apply andb_true_iff in E. destruct E as [E1 E2].
      apply truthy_true in E1. apply negb_true_iff, String.eqb_neq in E2.
      eexists. split; [reflexivity|]. intros t. cbv beta.
      rewrite ownedByDepartment_existsb. split.
      * now intros H d' [[= <-] _].
      * intros H. now apply H.
    + exists (fun _ => true). split; [symmetry; apply filter_true|].
      intros t. split; [|reflexivity]. intros _ d' [[= <-] [H1 H2]].
      apply truthy_true in H1. apply String.eqb_neq in H2.
      rewrite H1, H2 in E. discriminate.
  - exists (fun _ => true). split; [symmetry; apply filter_true|].
    intros t. split; [|reflexivity]. intros _ d' [[=] _].
Qed.

(** The tasks the department parameter selects. *)
Lemma exportQueryTasks_In (users : list User) (tasks : list Task)
      (q : ExportQuery) (t : Task) :
  In t (exportQueryTasks users tasks q)
  <-> In t tasks
      /\ (forall d, Spec.selectsDepartment q d -> Spec.ownedByDepartment users d t).
Proof.
  destruct (exportQueryTasks_filter users tasks q) as [keep [-> Hkeep]].
  now rewrite filter_In, Hkeep.
Qed.

Lemma exportFilename_startOf (o : AdminDashboard.ExportOptions) :
  AdminDashboard.exportFilename o
  = "tasks-"
    ++ (if String.eqb (AdminDashboard.x_department o) "all"
        then "all-departments" else AdminDashboard.x_department o)
    ++ (if JS.truthy (Spec.startOf o)
        then "-" ++ JS.removeDashes (Spec.startOf o) else "")
    ++ "."
    ++ (if String.eqb (AdminDashboard.x_type o) "excel" then "xlsx" else "pdf").
Proof.
  unfold AdminDashboard.exportFilename, Spec.startOf.
  destruct (AdminDashboard.x_dateRange o); reflexivity.
Qed.

Lemma exportFilename_depends (o o' : AdminDashboard.ExportOptions) :
  AdminDashboard.x_type o = AdminDashboard.x_type o' ->
  AdminDashboard.x_department o = AdminDashboard.x_department o' ->
  Spec.startOf o = Spec.startOf o' ->
  AdminDashboard.exportFilename o = AdminDashboard.exportFilename o'.
Proof.
  intros Ht Hd Hs. rewrite !exportFilename_startOf. now rewrite Ht, Hd, Hs.
Qed.

(** C2 (as amended). The date-range parameters of an export request have
    no effect on the exported artifact: requests that agree on the
    department get the same answer whatever their start and end dates,
    which only enter the file name the client builds (from the department,
    the start date and the format).  The department parameter does select
    the rows: the tasks exported are the collection filtered, order and
    repetitions kept, to the tasks whose owner is a user of that department
    when a department other than "all" is given, and to every task
    otherwise; the sheet has one row for each of them, in that order.  The
    file name the server proposes depends on no parameter. *)
Theorem export_parameters_effect (users : list User) (tasks : list Task)
        (user : User) (now : Z) :
  let export :=
    exportTasks toLocaleDateString toISOString users tasks (Some user) in
  (forall q q', q_department q = q_department q' -> export q now = export q' now)
  /\ (forall o o',
         AdminDashboard.x_department o = AdminDashboard.x_department o' ->
         export (AdminDashboard.exportParams o) now
         = export (AdminDashboard.exportParams o') now)
  /\ (forall q resp,
         export q now = Ok resp ->
         exists keep : Task -> bool,
           (forall t, keep t = true
                      <-> (forall d, Spec.selectsDepartment q d ->
                                     Spec.ownedByDepartment users d t))
           /\ exportQueryTasks users tasks q = filter keep tasks
           /\ Forall2 (fun t row => addRow toLocaleDateString users t = Ok row)
                      (filter keep tasks)
                      (ws_rows (worksheet resp)))
  /\ (forall q t,
         In t (exportQueryTasks users tasks q)
         <-> In t tasks
             /\ (forall d, Spec.selectsDepartment q d ->
                           Spec.ownedByDepartment users d t))
  /\ (forall q q' resp resp',
         export q now = Ok resp -> export q' now = Ok resp' ->
         contentDisposition resp = contentDisposition resp')
  /\ (forall o o',
         AdminDashboard.x_type o = AdminDashboard.x_type o' ->
         AdminDashboard.x_department o = AdminDashboard.x_department o' ->
         Spec.startOf o = Spec.startOf o' ->
         AdminDashboard.exportFilename o = AdminDashboard.exportFilename o').
Proof.
  intros export. subst export. cbv beta.
  assert (Hdep : forall q q', q_department q = q_department q' ->
                   exportTasks toLocaleDateString toISOString users tasks
                               (Some user) q now
                   = exportTasks toLocaleDateString toISOString users tasks
                                 (Some user) q' now).
  { intros q q' Hq. unfold exportTasks, exportQueryTasks. now rewrite Hq. }
  split; [exact Hdep|]. split; [|split; [|split; [|split]]].
  - intros o o' Ho. apply Hdep. unfold AdminDashboard.exportParams. simpl.
    now rewrite Ho.
  - intros q resp. unfold exportTasks.
    destruct (negb (String.eqb (user_role user) "admin")); [discriminate|].
    destruct (mapM (addRow toLocaleDateString users) (exportQueryTasks users tasks q))
      as [rows|e] eqn:E; simpl; [|discriminate].
    intros [= <-]. simpl. apply mapM_Forall2 in E.
    destruct (exportQueryTasks_filter users tasks q) as [keep [Hq Hkeep]].
    exists keep. split; [exact Hkeep|]. split; [exact Hq|]. now rewrite <- Hq.
  - intros q t. apply exportQueryTasks_In.
  - intros q q' resp resp'. unfold exportTasks.
    destruct (negb (String.eqb (user_role user) "admin")); [discriminate|].
    destruct (mapM _ (exportQueryTasks users tasks q)); simpl; [|discriminate].
    destruct (mapM _ (exportQueryTasks users tasks q')); simpl; [|discriminate].
    now intros [= <-] [= <-].
  - exact exportFilename_depends.
Qed.

(** C9. An administrator's export whose task query finds nothing succeeds:
    the answer is the spreadsheet with the header row (the nine column
    titles, in bold) and no data row. *)
Theorem export_empty_headers_only (users : list User) (tasks : list Task)
        (user : User) (q : ExportQuery) (now : Z) :
  user_role user = "admin" ->
  exportQueryTasks users tasks q = [] ->
  exists resp,
    exportTasks toLocaleDateString toISOString users tasks (Some user) q now = Ok resp
    /\ exportRoute toLocaleDateString toISOString users tasks (Some user) q now
       = Ok resp
    /\ ws_rows (worksheet resp) = []
    /\ map header (ws_columns (worksheet resp)) = Spec.headers
    /\ ws_headerBold (worksheet resp) = true
    /\ contentType resp
       = "application/vnd.openxmlformats-officedocument.spreadsheetml.sheet".
Proof.
  intros Hadmin Hempty.
  unfold exportRoute, authorize, exportTasks.
  rewrite Hadmin, Hempty. simpl.
  eexists. repeat split.
Qed.

End ExportTasks.

(** The same Marketing export with and without a date range. *)
Lemma export_parameters_effect_witness :
  Server.exportTasks Samples.toLocaleDateString Samples.toISOString
    Samples.users Samples.tasks (Some Samples.admin)
    (AdminDashboard.exportParams Samples.exportMarketing) Samples.seeded
  = Server.exportTasks Samples.toLocaleDateString Samples.toISOString
      Samples.users Samples.tasks (Some Samples.admin)
      (AdminDashboard.exportParams Samples.exportMarketingMay) Samples.seeded.
Proof.
  exact (proj1 (proj2 (export_parameters_effect Samples.toLocaleDateString
                         Samples.toISOString Samples.users Samples.tasks
                         Samples.admin Samples.seeded))
               Samples.exportMarketing Samples.exportMarketingMay eq_refl).
Defined.

(** C2 as stated fails: over the same task collection, the export of every
    department has a row for John's task that the export of the Marketing
    department lacks, so the department parameter changes the rows. *)
Lemma export_department_changes_rows :
  exists all marketing,
    Server.exportTasks Samples.toLocaleDateString Samples.toISOString
      Samples.users Samples.tasks (Some Samples.admin)
      (AdminDashboard.exportParams Samples.exportAll) Samples.seeded
    = Server.Ok all
    /\ Server.exportTasks Samples.toLocaleDateString Samples.toISOString
         Samples.users Samples.tasks (Some Samples.admin)
         (AdminDashboard.exportParams Samples.exportMarketing) Samples.seeded
       = Server.Ok marketing
    /\ In Samples.apiRow (Server.ws_rows (Server.worksheet all))
    /\ ~ In Samples.apiRow (Server.ws_rows (Server.worksheet marketing))
    /\ List.length (Server.ws_rows (Server.worksheet all)) = 3%nat
    /\ List.length (Server.ws_rows (Server.worksheet marketing)) = 1%nat.
Proof.
  eexists. eexists.
  split; [vm_compute; reflexivity|]. split; [vm_compute; reflexivity|].
  split; [vm_compute; now left|]. split; [|split; reflexivity].
  vm_compute. intros [H | []]. discriminate.
Qed.

(** An administrator exports the Finance department, which has no tasks. *)
Lemma export_empty_headers_only_witness :
  exists resp,
    Server.exportTasks Samples.toLocaleDateString Samples.toISOString
      Samples.users Samples.tasks (Some Samples.admin)
      (AdminDashboard.exportParams Samples.exportFinance) Samples.seeded
    = Server.Ok resp
    /\ Server.ws_rows (Server.worksheet resp) = []
    /\ map Server.header (Server.ws_columns (Server.worksheet resp)) = Spec.headers.
Proof.
  destruct (export_empty_headers_only Samples.toLocaleDateString
              Samples.toISOString Samples.users Samples.tasks Samples.admin
              (AdminDashboard.exportParams Samples.exportFinance)
              Samples.seeded eq_refl eq_refl)
    as [resp [H1 [_ [H2 [H3 _]]]]].
  exists resp. repeat split; assumption.
Defined.

(** ** The model run on the seed data *)
Section Runs.
Import Server Samples.

Example getTasks_seed : getTasks users tasks = Ok (200, views).
Proof. reflexivity. Qed.

(** At noon of May 10 (UTC) the task due May 5 is overdue; the one due
    today, the finished one and the undated one are not. *)
Example overdue_seed :
  EmployeeDashboard.filteredTasks utc "overdue" noonMay10
    [apiTask; bugTask; reportTask; undatedTask]
  = [apiTask].
Proof. reflexivity. Qed.

(** The other quick filters select by status or priority; an unknown
    filter name shows everything. *)
Example quick_filters_seed :
  EmployeeDashboard.filteredTasks utc "done" noonMay10 [apiTask; bugTask; reportTask]
  = [reportTask]
  /\ EmployeeDashboard.filteredTasks utc "high" noonMay10 [apiTask; bugTask; reportTask]
     = [apiTask]
  /\ EmployeeDashboard.filteredTasks utc "all" noonMay10 [apiTask; bugTask; reportTask]
     = [apiTask; bugTask; reportTask].
Proof. repeat split. Qed.

(** Newest first. *)
Example fetchTasks_seed :
  AdminDashboard.fetchTasks views = [campaignView; bugView; apiView].
Proof. reflexivity. Qed.

(** The search is blind to letter case and looks at title, description and
    owner name. *)
Example search_seed :
  AdminDashboard.filteredTasks utc
    (AdminDashboard.mkState views "Engineering" None "BUG") = [bugView]
  /\ AdminDashboard.filteredTasks utc
       (AdminDashboard.mkState views "all" None "sarah") = [campaignView]
  /\ AdminDashboard.filteredTasks utc
       (AdminDashboard.mkState views "Marketing" None "bug") = []
  /\ AdminDashboard.filteredTasks utc
       (AdminDashboard.mkState views "all" None "   ") = views.
Proof. repeat split. Qed.

(** Beyond ASCII: the capital E with acute accent (U+00C9) is found by the
    small one (U+00E9), and a term made of a no-break space (U+00A0) is
    blank. *)
Example search_latin1_seed :
  JS.toLowerCase (String "201" "COLE") = String "233" "cole"
  /\ AdminDashboard.bySearch (String "233" "cole") [ecoleView; bugView]
     = [ecoleView]
  /\ JS.trim (String "160" "") = ""
  /\ AdminDashboard.bySearch (String "160" "") [ecoleView; bugView]
     = [ecoleView; bugView].
Proof. repeat split. Qed.

(** A start bound of May 10 keeps the tasks due on May 10 and later. *)
Example date_range_seed :
  AdminDashboard.filteredTasks utc
    (AdminDashboard.mkState views "all"
       (Some (AdminDashboard.mkDateRange (Some may10) None)) "")
  = [bugView; campaignView]
  /\ AdminDashboard.filteredTasks utc
       (AdminDashboard.mkState views "all"
          (Some (AdminDashboard.mkDateRange (Some may5) (Some may10))) "")
     = [apiView; bugView].
Proof. repeat split. Qed.

(** Five hours behind UTC, midnight UTC of May 10 still belongs to May 9. *)
Example setHours0_west :
  Dates.setHours0 utcMinus5 may10 = may10 - 86400000 + 18000000
  /\ Dates.localDay utcMinus5 may10 = Dates.localDay utc may10 - 1.
Proof. split; reflexivity. Qed.

(** Across the change to daylight saving: the local day of March 9 begins
    at 05:00 UTC and lasts 23 hours, the local day of March 10 begins at
    04:00 UTC.  Noon UTC of either day is normalized to the beginning of
    its own local day. *)
Example setHours0_daylight_saving :
  Dates.setHours0 eastern (mar9 + 43200000) = mar9 + 18000000
  /\ Dates.setHours0 eastern (mar9 + 86400000 + 43200000)
     = mar9 + 86400000 + 14400000
  /\ Dates.setHours0 eastern (mar9 + 86400000 + 43200000)
     - Dates.setHours0 eastern (mar9 + 43200000) = 82800000.
Proof. repeat split. Qed.

Example exportFilename_seed :
  AdminDashboard.exportFilename exportMarketingMay = "tasks-Marketing-20250501.xlsx"
  /\ AdminDashboard.exportFilename exportAll = "tasks-all-departments.xlsx".
Proof. split; reflexivity. Qed.

(** The owner marks the bug task as done; and deletes it. *)
Example updateTask_seed :
  updateTask findByIdAndUpdatePatch tasks (Some john)
             (ObjectId.toString (_id bugTask)) donePatch
  = (Ok (200, Some (mkTask (_id bugTask) (title bugTask) (description bugTask)
                           "Done" (priority bugTask) (dueDate bugTask)
                           (employeeId bugTask) (createdAt bugTask))),
     [apiTask;
      mkTask (_id bugTask) (title bugTask) (description bugTask)
             "Done" (priority bugTask) (dueDate bugTask)
             (employeeId bugTask) (createdAt bugTask);
      campaignTask])
  /\ deleteTask tasks (Some john) (ObjectId.toString (_id bugTask))
     = (Ok 200, [apiTask; campaignTask])
  /\ deleteTask tasks (Some admin) (ObjectId.toString (_id bugTask))
     = (Ok 200, [apiTask; campaignTask]).
Proof. repeat split. Qed.

(** A request may write an ObjectId in capitals: Mongoose finds the
    document all the same, while the comparison with [req.user.id] is one
    of texts. *)
Example objectId_spelling_seed :
  ObjectId.toString miaId = "65000000000000000000000a"
  /\ ObjectId.cast "65000000000000000000000A" = Some miaId
  /\ findById user_id (users ++ [mia]) "65000000000000000000000A" = Ok (Some mia)
  /\ notAuthorized mia "65000000000000000000000A" = true
  /\ notAuthorized mia "65000000000000000000000a" = false
  /\ ObjectId.cast "650000000000" = None.
Proof. repeat split. Qed.

Example login_seed :
  login compare getSignedJwtToken users
        (mkLoginBody (Some "john@example.com") (Some "password123"))
  = Ok (200, mkTokenResponse (user_id john) "John Developer" "john@example.com"
                             "employee" "Engineering"
                             "jwt.650000000000000000000002.employee").
Proof. reflexivity. Qed.

End Runs.

(* ================================================================== *)
(** * Part III: further properties of the code *)
(* ================================================================== *)

(** ** The ownership guard *)
Section Guards.
Import Server.

Lemma notAuthorized_id_false (user : User) (id : string) :
  notAuthorized user id = false <-> Spec.adminOrSelf user id.
Proof.
  unfold notAuthorized, Spec.adminOrSelf.
  rewrite andb_false_iff, !negb_false_iff, !String.eqb_eq. tauto.
Qed.

Lemma notAuthorized_id_true (user : User) (id : string) :
  notAuthorized user id = true <-> ~ Spec.adminOrSelf user id.
Proof.
  unfold notAuthorized, Spec.adminOrSelf.
  rewrite andb_true_iff, !negb_true_iff, !String.eqb_neq. tauto.
Qed.

End Guards.

(** ** Reading tasks *)
Section ReadingTasks.
Import Server.

(** X1. For a requested id that is the ObjectId of an existing user,
    listing that employee's tasks succeeds exactly for an administrator
    and for an actor whose own id, as [toString()] writes it, is the
    requested text; the answer is then the tasks of the collection owned
    by that user, in collection order.  Anyone else gets "Not authorized to
    access these tasks" (401): also the employee in person who writes their
    own id in another spelling (in capitals), though the lookup finds
    them. *)
Theorem employee_tasks_admin_or_self (users : list User) (tasks : list Task)
        (user : User) (id : string) (u : User) :
  findById user_id users id = Ok (Some u) ->
  ((exists ts, getEmployeeTasks users tasks (Some user) id = Ok (200, ts))
   <-> Spec.adminOrSelf user id)
  /\ (Spec.adminOrSelf user id ->
      getEmployeeTasks users tasks (Some user) id
      = Ok (200, Spec.tasksOf (user_id u) tasks))
  /\ (forall ts t,
         getEmployeeTasks users tasks (Some user) id = Ok (200, ts) ->
         (In t ts <-> In t tasks /\ employeeId t = user_id u))
  /\ (~ Spec.adminOrSelf user id ->
      getEmployeeTasks users tasks (Some user) id
      = Next (ErrorResponse "Not authorized to access these tasks" 401))
  /\ (user_role user <> "admin" -> user_id user = user_id u ->
      id <> ObjectId.toString (user_id u) ->
      getEmployeeTasks users tasks (Some user) id
      = Next (ErrorResponse "Not authorized to access these tasks" 401)).
Proof.
  intros Hfind. destruct (findById_found _ _ _ _ Hfind) as [Hcast _].
  assert (Hdenied : ~ Spec.adminOrSelf user id ->
                    getEmployeeTasks users tasks (Some user) id
                    = Next (ErrorResponse "Not authorized to access these tasks" 401)).
  { intros H. apply notAuthorized_id_true in H.
    unfold getEmployeeTasks. rewrite Hfind. simpl. now rewrite H. }
  assert (Hserved : Spec.adminOrSelf user id ->
                    getEmployeeTasks users tasks (Some user) id
                    = Ok (200, Spec.tasksOf (user_id u) tasks)).
  { intros H. apply notAuthorized_id_false in H.
    unfold getEmployeeTasks, findByEmployeeId. rewrite Hfind. simpl.
    now rewrite H, Hcast. }
  split; [|split; [exact Hserved | split; [|split; [exact Hdenied|]]]].
  - split; [|intros H; rewrite (Hserved H); now eexists].
    intros [ts Hts]. destruct (notAuthorized user id) eqn:E.
    + apply notAuthorized_id_true in E. rewrite (Hdenied E) in Hts. discriminate.
    + now apply notAuthorized_id_false.
  - intros ts t Hts. destruct (notAuthorized user id) eqn:E.
    + apply notAuthorized_id_true in E. rewrite (Hdenied E) in Hts. discriminate.
    + apply notAuthorized_id_false in E. rewrite (Hserved E) in Hts.
      injection Hts as <-. unfold Spec.tasksOf.
      now rewrite filter_In, ObjectId_eqb_eq.
  - intros Hrole Hself Hid. apply Hdenied. intros [H | H]; [contradiction|].
    apply Hid. now rewrite <- Hself, H.
Qed.

End ReadingTasks.

(** ** The administrator's listing and export *)
Section AdminListing.
Import Server.
Variable toLocaleDateString : Z -> string.
Variable toISOString : Z -> string.

Lemma mapM_Next {A B : Type} (f : A -> result B) (l : list A) (e : Err) :
  mapM f l = Next e -> exists a, In a l /\ f a = Next e.
Proof.
  induction l as [|a l IH]; simpl; [discriminate|].
  destruct (f a) as [b|e'] eqn:Ea; simpl.
  - destruct (mapM f l) as [bs|e'']; simpl; [discriminate|].
    intros [= <-]. destruct (IH eq_refl) as [x [Hx Hfx]].
    exists x. split; [now right | exact Hfx].
  - intros [= <-]. exists a. split; [now left | exact Ea].
Qed.


Lemma transformTask_viewOf (users : list User) (t : Task) (v : TransformedTask) :
  transformTask users t = Ok v <-> Spec.viewOf users t v.
Proof.
  unfold transformTask, Spec.viewOf. destruct (populate users t) as [u|].
  - split.
    + intros [= <-]. now exists u.
    + intros [u' [[= <-] ->]]. reflexivity.
  - split; [discriminate | intros [u' [[=] _]]].
Qed.




Lemma getTasks_Forall2 (users : list User) (tasks : list Task)
      (views : list TransformedTask) :
  getTasks users tasks = Ok (200, views) ->
  Forall2 (Spec.viewOf users) tasks views.
Proof.
  unfold getTasks.
  destruct (mapM (transformTask users) tasks) as [vs|e] eqn:E; simpl; [|discriminate].
  intros [= <-]. apply mapM_Forall2 in E.
  induction E as [|t v l vs Htv _ IH]; constructor; [|exact IH].
  now apply transformTask_viewOf.
Qed.


Lemma NoDup_map_eq {A B : Type} (f : A -> B) (l : list A) (a b : A) :
  NoDup (map f l) -> In a l -> In b l -> f a = f b -> a = b.
Proof.
  induction l as [|x l IH]; simpl; [intros _ []|].
  intros Hnd Ha Hb Hf. apply NoDup_cons_iff in Hnd. destruct Hnd as [Hx Hnd].
  destruct Ha as [-> | Ha], Hb as [-> | Hb].
  - reflexivity.
  - exfalso. apply Hx. rewrite Hf. now apply in_map.
  - exfalso. apply Hx. rewrite <- Hf. now apply in_map.
  - now apply IH.
Qed.

Lemma owner_in_department (users : list User) (t : Task) (u : User) (d : string) :
  NoDup (map user_id users) ->
  populate users t = Some u ->
  existsb (ObjectId.eqb (employeeId t))
          (map user_id (filter (fun x => String.eqb (user_department x) d) users))
  = String.eqb (user_department u) d.
Proof.
  intros Hnd Hpop. unfold populate in Hpop.
  pose proof (find_some _ _ Hpop) as [Hin Hid]. apply ObjectId_eqb_eq in Hid.
  apply eq_true_iff_eq. rewrite existsb_exists, String.eqb_eq. split.
  - intros [x [Hx Hex]]. apply ObjectId_eqb_eq in Hex.
    apply in_map_iff in Hx. destruct Hx as [u' [<- Hu']].
    apply filter_In in Hu'. destruct Hu' as [Hu' Hd]. apply String.eqb_eq in Hd.
    assert (u = u') by (apply (NoDup_map_eq user_id users); congruence).
    now subst u'.
  - intros Hd. exists (user_id u). split; [|now apply ObjectId_eqb_eq].
    apply in_map. apply filter_In. split; [exact Hin | now apply String.eqb_eq].
Qed.

Lemma Permutation_filter {A : Type} (f : A -> bool) (l l' : list A) :
  Permutation l l' -> Permutation (filter f l) (filter f l').
Proof.
  induction 1 as [|x l l' _ IH|x y l|l l' l'' _ IH1 _ IH2]; simpl.
  - constructor.
  - destruct (f x); [now constructor | exact IH].
  - destruct (f x), (f y); try reflexivity. apply perm_swap.
  - now transitivity (filter f l').
Qed.

Lemma filter_map_Forall2 {A B C : Type} (R : A -> B -> Prop)
      (P : A -> bool) (Q : B -> bool) (f : A -> C) (g : B -> C)
      (l1 : list A) (l2 : list B) :
  (forall a b, R a b -> P a = Q b /\ f a = g b) ->
  Forall2 R l1 l2 ->
  map f (filter P l1) = map g (filter Q l2).
Proof.
  intros HR. induction 1 as [|a b l1 l2 Hab _ IH]; simpl; [reflexivity|].
  destruct (HR a b Hab) as [HP Hf]. rewrite <- HP.
  destruct (P a); simpl; now rewrite ?Hf, IH.
Qed.

(** X3. The dashboard and the export agree on what a department is: when
    user ids are distinct and the listing succeeds, the tasks the admin
    dashboard shows under a department (other than "all", not empty), from
    the list it has stored after fetching, are the tasks the export writes
    rows for when asked for that department, each as often.  The two differ
    in order only: the dashboard lists them newest first, the export in
    collection order; filtering the listing as it was answered gives the
    export's order. *)
Theorem dashboard_department_is_export_department
        (users : list User) (tasks : list Task) (views : list TransformedTask)
        (d : string) (s e : option string) (zone : Dates.Zone) :
  NoDup (map user_id users) ->
  getTasks users tasks = Ok (200, views) ->
  d <> "" -> d <> "all" ->
  let exported := exportQueryTasks users tasks (mkExportQuery (Some d) s e) in
  let shown :=
    AdminDashboard.filteredTasks zone
      (AdminDashboard.mkState (AdminDashboard.fetchTasks views) d None "") in
  Permutation (map tt_id shown) (map _id exported)
  /\ Spec.Descending shown
  /\ map tt_id (AdminDashboard.filteredTasks zone
                  (AdminDashboard.mkState views d None ""))
     = map _id exported.
Proof.
  intros Hnd Hget Hne Hall exported shown. subst exported shown.
  apply getTasks_Forall2 in Hget.
  assert (Heq : map tt_id
                    (filter (fun task =>
                               String.eqb (emp_department (employee task)) d) views)
                = map _id (exportQueryTasks users tasks (mkExportQuery (Some d) s e))).
  { unfold exportQueryTasks. simpl.
    apply String.eqb_neq in Hall. rewrite Hall.
    apply truthy_true in Hne. rewrite Hne. simpl.
    symmetry. apply (filter_map_Forall2 (Spec.viewOf users)); [|exact Hget].
    intros t v [u [Hu ->]]. simpl. split; [|reflexivity].
    now apply owner_in_department. }
  assert (Hshown : forall l,
             AdminDashboard.filteredTasks zone (AdminDashboard.mkState l d None "")
             = filter (fun task =>
                         String.eqb (emp_department (employee task)) d) l).
  { intros l. unfold AdminDashboard.filteredTasks, AdminDashboard.bySearch,
      AdminDashboard.byDateRange, AdminDashboard.byDepartment. simpl.
    apply String.eqb_neq in Hall. now rewrite Hall. }
  rewrite !Hshown. split; [|split; [|exact Heq]].
  - rewrite <- Heq. apply Permutation_map, Permutation_filter.
    symmetry. apply sort_Permutation.
  - apply StronglySorted_Descending, filter_StronglySorted.
    apply sort_StronglySorted.
    + exact byCreatedAtDesc_total.
    + exact byCreatedAtDesc_trans.
Qed.

Lemma exportTasks_admin_error (users : list User) (tasks : list Task)
      (user : User) (q : ExportQuery) (now : Z) (e : Err) :
  user_role user = "admin" ->
  exportTasks toLocaleDateString toISOString users tasks (Some user) q now = Next e ->
  e = nullRead "name".
Proof.
  intros Hadmin. unfold exportTasks. rewrite Hadmin. simpl.
  destruct (mapM _ _) as [rows|e'] eqn:E; simpl; [discriminate|].
  intros [= <-]. apply mapM_Next in E. destruct E as [t [_ Ht]].
  unfold addRow in Ht. destruct (populate users t); [discriminate|].
  now injection Ht as <-.
Qed.

(** X4. The two administrator routes are guarded by [authorize('admin')]
    before their controllers run: an administrator gets the controller's
    answer, anyone else gets "User role <role> is not authorized to access
    this route" with status 403; the export controller's own denial
    (status 401) is never the answer of the route. *)
Theorem admin_routes_guard (users : list User) (tasks : list Task)
        (user : User) (q : ExportQuery) (now : Z) :
  let export :=
    exportRoute toLocaleDateString toISOString users tasks (Some user) q now in
  let denied :=
    ErrorResponse ("User role " ++ user_role user
                   ++ " is not authorized to access this route") 403 in
  (user_role user = "admin" ->
   export = exportTasks toLocaleDateString toISOString users tasks (Some user) q now
   /\ getTasksRoute users tasks (Some user) = getTasks users tasks)
  /\ (user_role user <> "admin" ->
      export = Next denied /\ getTasksRoute users tasks (Some user) = Next denied)
  /\ export <> Next (ErrorResponse "Not authorized to export tasks" 401).
Proof.
  intros export denied. subst export denied.
  unfold exportRoute, getTasksRoute, authorize. cbn [existsb].
  rewrite orb_false_r.
  destruct (String.eqb (user_role user) "admin") eqn:E.
  - apply String.eqb_eq in E. split; [now split|]. split; [congruence|].
    intros H. apply exportTasks_admin_error in H; [discriminate | exact E].
  - apply String.eqb_neq in E. split; [congruence|]. split; [now split|].
    discriminate.
Qed.

End AdminListing.

(** Mia, whose ObjectId has a letter in it, asks for her own tasks writing
    that letter as a capital and is refused; an administrator who writes
    it the same way is served; Mia is served when she writes her id as
    the server does. *)
Lemma employee_tasks_admin_or_self_witness :
  Server.findById Server.user_id (Samples.users ++ [Samples.mia])
    "65000000000000000000000A" = Server.Ok (Some Samples.mia)
  /\ Server.getEmployeeTasks (Samples.users ++ [Samples.mia]) Samples.tasks
       (Some Samples.mia) "65000000000000000000000A"
     = Server.Next
         (Server.ErrorResponse "Not authorized to access these tasks" 401)
  /\ Server.getEmployeeTasks (Samples.users ++ [Samples.mia]) Samples.tasks
       (Some Samples.admin) "65000000000000000000000A"
     = Server.Ok (200, [])
  /\ Server.getEmployeeTasks Samples.users Samples.tasks
       (Some Samples.john) (ObjectId.toString (Server.user_id Samples.john))
     = Server.Ok (200, [Samples.apiTask; Samples.bugTask]).
Proof.
  split; [reflexivity|]. split; [|split; reflexivity].
  refine (proj2 (proj2 (proj2 (proj2 (employee_tasks_admin_or_self
            (Samples.users ++ [Samples.mia]) Samples.tasks Samples.mia
            "65000000000000000000000A" Samples.mia eq_refl)))) _ eq_refl _);
    discriminate.
Defined.

(** The Engineering department of the seed data, on screen and exported. *)
Lemma dashboard_department_is_export_department_witness :
  Permutation
    (map Server.tt_id
       (AdminDashboard.filteredTasks Samples.utc
          (AdminDashboard.mkState (AdminDashboard.fetchTasks Samples.views)
             "Engineering" None "")))
    (map Server._id
       (Server.exportQueryTasks Samples.users Samples.tasks
          (Server.mkExportQuery (Some "Engineering") None None)))
  /\ map Server.tt_id
       (AdminDashboard.filteredTasks Samples.utc
          (AdminDashboard.mkState (AdminDashboard.fetchTasks Samples.views)
             "Engineering" None ""))
     = [Server._id Samples.bugTask; Server._id Samples.apiTask]
  /\ map Server._id
       (Server.exportQueryTasks Samples.users Samples.tasks
          (Server.mkExportQuery (Some "Engineering") None None))
     = [Server._id Samples.apiTask; Server._id Samples.bugTask].
Proof.
  split; [|split; reflexivity].
  refine (proj1 (dashboard_department_is_export_department Samples.users
                   Samples.tasks Samples.views "Engineering" None None
                   Samples.utc _ eq_refl _ _)); try discriminate.
  repeat constructor; simpl; intuition discriminate.
Defined.

(** ** Creating, updating and deleting tasks *)
Section WritingTasks.
Import Server.
Variable castMessage : string -> string.

(** The validators pass only for an owner text that casts. *)
Lemma validateTask_cast (body : CreateBody) (owner : string) :
  validateTask castMessage body owner = [] ->
  exists oid, ObjectId.cast owner = Some oid.
Proof.
  unfold validateTask. intros H.
  repeat (apply app_eq_nil in H; destruct H as [_ H]).
  destruct (ObjectId.cast owner) as [oid|]; [now exists oid | discriminate].
Qed.

Lemma createTask_cases (tasks : list Task) (user : User) (newId : ObjectId.t)
      (now : Z) (body : CreateBody) :
  createTask castMessage tasks (Some user) newId now body
  = if notAuthorized user (Spec.ownerOf user body) then
      (Next (ErrorResponse "Not authorized to create tasks for other employees" 401),
       tasks)
    else
      match validateTask castMessage body (Spec.ownerOf user body),
            ObjectId.cast (Spec.ownerOf user body) with
      | [], Some oid =>
          let task :=
            mkTask newId (JS.trim (orEmpty (c_title body)))
                   (option_map JS.trim (c_description body))
                   (orElse (c_status body) "To Do")
                   (orElse (c_priority body) "Medium")
                   (c_dueDate body) oid now in
          (Ok (201, task), (tasks ++ [task])%list)
      | messages, _ => (Next (ValidationError messages), tasks)
      end.
Proof.
  unfold createTask, createTaskDoc, Spec.ownerOf.
  destruct (notAuthorized user _); [reflexivity|].
  destruct (ObjectId.cast _), (validateTask _ _ _); reflexivity.
Qed.

Lemma createTask_Ok (tasks tasks' : list Task) (user : User) (newId : ObjectId.t)
      (now : Z) (body : CreateBody) (task : Task) :
  createTask castMessage tasks (Some user) newId now body
  = (Ok (201, task), tasks') ->
  tasks' = (tasks ++ [task])%list
  /\ _id task = newId
  /\ ObjectId.cast (Spec.ownerOf user body) = Some (employeeId task)
  /\ createdAt task = now
  /\ Spec.adminOrSelf user (Spec.ownerOf user body)
  /\ validateTask castMessage body (Spec.ownerOf user body) = [].
Proof.
  rewrite createTask_cases.
  destruct (notAuthorized user (Spec.ownerOf user body)) eqn:Hauth; [discriminate|].
  apply notAuthorized_id_false in Hauth.
  destruct (validateTask _ _ _); [|discriminate].
  destruct (ObjectId.cast _) as [oid|]; [|discriminate].
  cbv zeta. intros [= <- <-]. simpl. now repeat split.
Qed.

(** X5. Creating a task: the owner is the id named in the body, or the
    actor when the body names none.  The request succeeds exactly when the
    actor is an administrator or that owner and the body passes the Task
    schema's validators; the new task then goes to the end of the
    collection with the drawn id, the ObjectId that owner text casts to
    and the current time, so a task created by an employee is always the
    employee's own.  Naming another employee without being an
    administrator is answered 401, and no failed request changes the
    collection. *)
Theorem createTask_for_oneself (tasks : list Task) (user : User)
        (newId : ObjectId.t) (now : Z) (body : CreateBody) :
  let create := createTask castMessage tasks (Some user) newId now body in
  let owner := Spec.ownerOf user body in
  ((exists task tasks', create = (Ok (201, task), tasks'))
   <-> Spec.adminOrSelf user owner
       /\ validateTask castMessage body owner = [])
  /\ (~ Spec.adminOrSelf user owner ->
      create
      = (Next (ErrorResponse "Not authorized to create tasks for other employees" 401),
         tasks))
  /\ (forall task tasks',
         create = (Ok (201, task), tasks') ->
         tasks' = (tasks ++ [task])%list
         /\ _id task = newId /\ ObjectId.cast owner = Some (employeeId task)
         /\ createdAt task = now
         /\ (user_role user <> "admin" -> employeeId task = user_id user))
  /\ (forall e tasks', create = (Next e, tasks') -> tasks' = tasks).
Proof.
  intros create owner. subst create owner.
  split; [|split; [|split]].
  - split.
    + intros [task [tasks' H]]. apply createTask_Ok in H. tauto.
    + intros [Hauth Hv]. rewrite createTask_cases.
      apply notAuthorized_id_false in Hauth. rewrite Hauth, Hv.
      destruct (validateTask_cast _ _ Hv) as [oid ->]. cbv zeta.
      now do 2 eexists.
  - intros H. rewrite createTask_cases.
    apply notAuthorized_id_true in H. now rewrite H.
  - intros task tasks' H. apply createTask_Ok in H.
    destruct H as [H1 [H2 [H3 [H4 [H5 _]]]]]. repeat split; try assumption.
    intros Hrole. destruct H5 as [H5 | H5]; [contradiction|].
    rewrite <- H5, cast_toString in H3. congruence.
  - intros e tasks'. rewrite createTask_cases.
    destruct (notAuthorized user _); [now intros [= _ <-]|].
    destruct (validateTask castMessage body (Spec.ownerOf user body)),
             (ObjectId.cast (Spec.ownerOf user body)); cbv zeta;
      first [discriminate | now intros [= _ <-]].
Qed.

(** X6. The round trip of create and list: after a task is created for an
    existing user, the same actor's listing of that user's tasks, asked
    for by the owner text of the create request, is the earlier listing
    with the new task appended, field for field as it was answered. *)
Theorem create_then_list (users : list User) (tasks tasks' : list Task)
        (user owner : User) (newId : ObjectId.t) (now : Z) (body : CreateBody)
        (task : Task) :
  createTask castMessage tasks (Some user) newId now body
  = (Ok (201, task), tasks') ->
  findById user_id users (Spec.ownerOf user body) = Ok (Some owner) ->
  getEmployeeTasks users tasks' (Some user) (Spec.ownerOf user body)
  = Ok (200, (filter (fun t => ObjectId.eqb (employeeId t) (employeeId task)) tasks
              ++ [task])%list)
  /\ getEmployeeTasks users tasks (Some user) (Spec.ownerOf user body)
     = Ok (200, filter (fun t => ObjectId.eqb (employeeId t) (employeeId task)) tasks).
Proof.
  intros Hcreate Hfind.
  destruct (createTask_Ok _ _ _ _ _ _ _ Hcreate) as [-> [_ [Howner [_ [Hauth _]]]]].
  unfold getEmployeeTasks, findByEmployeeId. rewrite Hfind. simpl.
  apply notAuthorized_id_false in Hauth. rewrite Hauth, Howner. simpl.
  rewrite filter_app. simpl. now rewrite ObjectId_eqb_refl.
Qed.

Lemma validateTitle_ok (v : string) :
  validateTitle v = [] -> v <> "" /\ (String.length v <= 100)%nat.
Proof.
  unfold validateTitle. destruct (String.eqb v "") eqn:E; [discriminate|].
  destruct (Nat.ltb 100 (String.length v)) eqn:L; [discriminate|].
  intros _. apply String.eqb_neq in E. apply Nat.ltb_ge in L. now split.
Qed.

Lemma validateDescription_ok (v : string) :
  validateDescription v = [] -> (String.length v <= 500)%nat.
Proof.
  unfold validateDescription.
  destruct (Nat.ltb 500 (String.length v)) eqn:L; [discriminate|].
  intros _. now apply Nat.ltb_ge in L.
Qed.

Lemma validateEnum_ok (path : string) (enum : list string) (v : string) :
  validateEnum path enum v = [] -> In v enum.
Proof.
  unfold validateEnum. destruct (existsb (String.eqb v) enum) eqn:E; [|discriminate].
  intros _. apply existsb_exists in E. destruct E as [x [Hx Hvx]].
  apply String.eqb_eq in Hvx. now subst x.
Qed.

Lemma applyPatch_wellFormed (p : Patch) (t : Task) :
  runValidators p = [] -> Spec.wellFormedTask t ->
  Spec.wellFormedTask (applyPatch p t).
Proof.
  unfold runValidators. intros Hv [Ht [Hl [Hd [Hs Hp]]]].
  apply app_eq_nil in Hv. destruct Hv as [Hv1 Hv].
  apply app_eq_nil in Hv. destruct Hv as [Hv2 Hv].
  apply app_eq_nil in Hv. destruct Hv as [Hv3 Hv4].
  unfold Spec.wellFormedTask, applyPatch. simpl.
  destruct p as [pt pd ps pp pdue]. simpl in *.
  repeat split.
  - destruct pt as [v|]; simpl in *; [now apply validateTitle_ok|exact Ht].
  - destruct pt as [v|]; simpl in *; [now apply validateTitle_ok|exact Hl].
  - destruct pd as [v|]; simpl in *.
    + intros d [= <-]. now apply validateDescription_ok.
    + exact Hd.
  - destruct ps as [v|]; simpl in *; [now apply validateEnum_ok in Hv3|exact Hs].
  - destruct pp as [v|]; simpl in *; [now apply validateEnum_ok in Hv4|exact Hp].
Qed.

Lemma replaceFirst_Forall (P : Task -> Prop) (id : ObjectId.t) (f : Task -> Task)
      (l : list Task) :
  (forall t, P t -> P (f t)) -> Forall P l -> Forall P (replaceFirst id f l).
Proof.
  intros Hf. induction 1 as [|t l Ht Hl IH]; simpl; [constructor|].
  destruct (ObjectId.eqb (_id t) id); constructor; auto.
Qed.

Lemma removeFirst_Forall (P : Task -> Prop) (id : ObjectId.t) (l : list Task) :
  Forall P l -> Forall P (removeFirst id l).
Proof.
  induction 1 as [|t l Ht Hl IH]; simpl; [constructor|].
  destruct (ObjectId.eqb (_id t) id); [exact Hl | now constructor].
Qed.

(** X7. Writes made of the forms' fields keep the collection within the
    Task schema.  If every stored task has a non-empty title of at most 100
    characters, a description of at most 500, and a status and priority
    from the schema's lists, the same holds after a create request whose
    body gives title, description, status, priority and employee id as
    texts (any of them may be missing), after an update request whose body
    is made of the task form's fields (any of them may be missing), and
    after a delete request, whoever sends them. *)
Theorem writes_keep_tasks_well_formed (tasks : list Task) (user : User)
        (id : string) (newId : ObjectId.t) (now : Z) (body : CreateBody)
        (patch : Patch) :
  Forall Spec.wellFormedTask tasks ->
  Forall Spec.wellFormedTask
         (snd (createTask castMessage tasks (Some user) newId now body))
  /\ Forall Spec.wellFormedTask
            (snd (updateTask findByIdAndUpdatePatch tasks (Some user) id patch))
  /\ Forall Spec.wellFormedTask (snd (deleteTask tasks (Some user) id)).
Proof.
  intros Hwf. split; [|split].
  - rewrite createTask_cases.
    destruct (notAuthorized user _); [exact Hwf|].
    destruct (validateTask castMessage body (Spec.ownerOf user body))
      as [|m ms] eqn:Hv; [|exact Hwf].
    destruct (ObjectId.cast (Spec.ownerOf user body)) as [oid|]; [|exact Hwf].
    cbv zeta. simpl. apply Forall_app. split; [exact Hwf|].
    constructor; [|constructor].
    unfold validateTask in Hv.
    apply app_eq_nil in Hv. destruct Hv as [Hv1 Hv].
    apply app_eq_nil in Hv. destruct Hv as [Hv2 Hv].
    apply app_eq_nil in Hv. destruct Hv as [Hv3 Hv].
    apply app_eq_nil in Hv. destruct Hv as [Hv4 _].
    destruct body as [bt bd bs bp bdue be]. simpl in *.
    unfold Spec.wellFormedTask. simpl.
    assert (Ht : JS.trim (orEmpty bt) <> ""
                 /\ (String.length (JS.trim (orEmpty bt)) <= 100)%nat).
    { destruct bt as [v|]; simpl in Hv1; [|discriminate].
      unfold required in Hv1. simpl.
      destruct (String.eqb (JS.trim v) ""); [discriminate|].
      now apply validateTitle_ok. }
    destruct Ht as [Ht1 Ht2]. repeat split; try assumption.
    + destruct bd as [v|]; simpl in *; [|discriminate].
      intros d [= <-]. now apply validateDescription_ok.
    + destruct bs as [v|]; simpl in *; [now apply validateEnum_ok in Hv3|].
      now left.
    + destruct bp as [v|]; simpl in *; [now apply validateEnum_ok in Hv4|].
      right. now left.
  - unfold updateTask. destruct (findById _id tasks id) as [[task|]|e];
      try exact Hwf.
    destruct (notAuthorized user _); [exact Hwf|].
    unfold findByIdAndUpdatePatch.
    destruct (ObjectId.cast id) as [oid|]; [|exact Hwf].
    destruct (runValidators (castPatch patch)) as [|m ms] eqn:Hv; [|exact Hwf].
    simpl. apply replaceFirst_Forall; [|exact Hwf].
    intros t. now apply applyPatch_wellFormed.
  - unfold deleteTask. destruct (findById _id tasks id) as [[task|]|e];
      try exact Hwf.
    destruct (notAuthorized user _); [exact Hwf|].
    simpl. now apply removeFirst_Forall.
Qed.

End WritingTasks.

Lemma seed_tasks_well_formed : Forall Spec.wellFormedTask Samples.tasks.
Proof.
  unfold Samples.tasks.
  repeat (apply Forall_cons;
          [unfold Spec.wellFormedTask; simpl; repeat split;
           try discriminate; try (apply Nat.leb_le; reflexivity);
           try (intros d [= <-]; apply Nat.leb_le; reflexivity); tauto|]).
  apply Forall_nil.
Qed.

(** John adds the release notes task and lists his tasks. *)
Lemma create_then_list_witness :
  Server.getEmployeeTasks Samples.users
    (Samples.tasks ++ [Samples.notesTask]) (Some Samples.john)
    (ObjectId.toString (Server.user_id Samples.john))
  = Server.Ok (200, [Samples.apiTask; Samples.bugTask; Samples.notesTask]).
Proof.
  exact (proj1 (create_then_list Samples.castMessage
                  Samples.users Samples.tasks
                  (Samples.tasks ++ [Samples.notesTask]) Samples.john
                  Samples.john Samples.notesId Samples.noonMay10
                  (TaskForm.toCreateBody Samples.notesForm
                     (ObjectId.toString (Server.user_id Samples.john)))
                  Samples.notesTask eq_refl eq_refl)).
Defined.

(** The seed collection after Sarah's refused attempt to delete John's
    task and after John's own update. *)
Lemma writes_keep_tasks_well_formed_witness :
  Forall Spec.wellFormedTask
         (snd (Server.updateTask Server.findByIdAndUpdatePatch Samples.tasks
                 (Some Samples.john) (ObjectId.toString (Server._id Samples.bugTask))
                 Samples.donePatch))
  /\ Forall Spec.wellFormedTask
            (snd (Server.deleteTask Samples.tasks (Some Samples.sarah)
                    (ObjectId.toString (Server._id Samples.bugTask)))).
Proof.
  destruct (writes_keep_tasks_well_formed Samples.castMessage
              Samples.tasks Samples.john
              (ObjectId.toString (Server._id Samples.bugTask))
              Samples.notesId Samples.noonMay10
              (TaskForm.toCreateBody Samples.notesForm "")
              Samples.donePatch seed_tasks_well_formed) as [_ [H _]].
  destruct (writes_keep_tasks_well_formed Samples.castMessage
              Samples.tasks Samples.sarah
              (ObjectId.toString (Server._id Samples.bugTask))
              Samples.notesId Samples.noonMay10
              (TaskForm.toCreateBody Samples.notesForm "")
              Samples.donePatch seed_tasks_well_formed) as [_ [_ H']].
  split; assumption.
Defined.

(** ** The employee dashboard's list against the server's collection *)
Section Mirror.
Import Server.
Variable castMessage : string -> string.

Lemma map_other_ids (id : ObjectId.t) (data : Task) (l : list Task) :
  ~ In id (map _id l) ->
  map (fun task => if ObjectId.eqb (_id task) id then data else task) l = l.
Proof.
  induction l as [|t l IH]; simpl; [reflexivity|]. intros H.
  destruct (ObjectId.eqb (_id t) id) eqn:E.
  - apply ObjectId_eqb_eq in E. exfalso. apply H. now left.
  - rewrite IH; [reflexivity|]. intros Hin. apply H. now right.
Qed.

Lemma filter_other_ids (id : ObjectId.t) (l : list Task) :
  ~ In id (map _id l) ->
  filter (fun task => negb (ObjectId.eqb (_id task) id)) l = l.
Proof.
  induction l as [|t l IH]; simpl; [reflexivity|]. intros H.
  destruct (ObjectId.eqb (_id t) id) eqn:E; simpl.
  - apply ObjectId_eqb_eq in E. exfalso. apply H. now left.
  - rewrite IH; [reflexivity|]. intros Hin. apply H. now right.
Qed.

Lemma tasksOf_ids (uid id : ObjectId.t) (l : list Task) :
  ~ In id (map _id l) -> ~ In id (map _id (Spec.tasksOf uid l)).
Proof.
  intros H Hin. apply H. apply in_map_iff in Hin.
  destruct Hin as [t [Ht Hin]]. apply filter_In in Hin.
  apply in_map_iff. exists t. tauto.
Qed.

(** With distinct ids, replacing the first task of an id is replacing the
    task of that id, also within one employee's tasks. *)
Lemma tasksOf_replaceFirst (uid id : ObjectId.t) (f : Task -> Task)
      (tasks : list Task) (task : Task) :
  (forall t, employeeId (f t) = employeeId t) ->
  NoDup (map _id tasks) ->
  find (fun t => ObjectId.eqb (_id t) id) tasks = Some task ->
  Spec.tasksOf uid (replaceFirst id f tasks)
  = map (fun t => if ObjectId.eqb (_id t) id then f task else t)
        (Spec.tasksOf uid tasks).
Proof.
  intros Hf. induction tasks as [|t l IH]; simpl; [discriminate|].
  intros Hnd Hfind. apply NoDup_cons_iff in Hnd. destruct Hnd as [Ht Hnd].
  destruct (ObjectId.eqb (_id t) id) eqn:E.
  - injection Hfind as <-. apply ObjectId_eqb_eq in E. subst id.
    unfold Spec.tasksOf. simpl. rewrite Hf.
    destruct (ObjectId.eqb (employeeId t) uid); simpl.
    + rewrite ObjectId_eqb_refl. f_equal. symmetry.
      apply map_other_ids. now apply tasksOf_ids.
    + symmetry. apply map_other_ids. now apply tasksOf_ids.
  - unfold Spec.tasksOf in *. simpl.
    destruct (ObjectId.eqb (employeeId t) uid); simpl.
    + rewrite E. f_equal. now apply IH.
    + now apply IH.
Qed.

Lemma tasksOf_removeFirst (uid id : ObjectId.t) (tasks : list Task) :
  NoDup (map _id tasks) ->
  Spec.tasksOf uid (removeFirst id tasks)
  = filter (fun t => negb (ObjectId.eqb (_id t) id)) (Spec.tasksOf uid tasks).
Proof.
  induction tasks as [|t l IH]; simpl; [reflexivity|].
  intros Hnd. apply NoDup_cons_iff in Hnd. destruct Hnd as [Ht Hnd].
  destruct (ObjectId.eqb (_id t) id) eqn:E.
  - apply ObjectId_eqb_eq in E. subst id. unfold Spec.tasksOf. simpl.
    destruct (ObjectId.eqb (employeeId t) uid); simpl.
    + rewrite ObjectId_eqb_refl. simpl. symmetry.
      apply filter_other_ids. now apply tasksOf_ids.
    + symmetry. apply filter_other_ids. now apply tasksOf_ids.
  - unfold Spec.tasksOf in *. simpl.
    destruct (ObjectId.eqb (employeeId t) uid); simpl.
    + rewrite E. simpl. f_equal. now apply IH.
    + now apply IH.
Qed.

(** A text that casts to [id] finds the task with that ObjectId. *)
Lemma findById_cast (tasks : list Task) (text : string) (id : ObjectId.t) :
  ObjectId.cast text = Some id ->
  findById _id tasks text = Ok (find (fun t => ObjectId.eqb (_id t) id) tasks).
Proof. intros H. unfold findById. now rewrite H. Qed.

Lemma updateTask_Ok (tasks tasks' : list Task) (user : User) (id : ObjectId.t)
      (patch : Patch) (data : Task) :
  updateTask findByIdAndUpdatePatch tasks (Some user) (ObjectId.toString id) patch
  = (Ok (200, Some data), tasks') ->
  exists task,
    find (fun t => ObjectId.eqb (_id t) id) tasks = Some task
    /\ data = applyPatch (castPatch patch) task
    /\ tasks' = replaceFirst id (applyPatch (castPatch patch)) tasks.
Proof.
  destruct (findById _id tasks (ObjectId.toString id)) as [[task|]|e] eqn:Hfind.
  - rewrite (updateTask_found _ _ _ _ _ _ _ Hfind).
    rewrite (findByIdAndUpdatePatch_found _ _ _ _ Hfind).
    rewrite (findById_cast tasks _ id (cast_toString id)) in Hfind.
    injection Hfind as Hfind.
    pose proof (find_some _ _ Hfind) as [_ Hid]. apply ObjectId_eqb_eq in Hid.
    rewrite Hid.
    destruct (notAuthorized user _); [discriminate|].
    destruct (runValidators (castPatch patch)); [|discriminate].
    simpl. intros [= <- <-]. exists task. now repeat split.
  - unfold updateTask. rewrite Hfind. discriminate.
  - unfold updateTask. rewrite Hfind. discriminate.
Qed.

Lemma deleteTask_Ok (tasks tasks' : list Task) (user : User) (id : ObjectId.t)
      (code : Z) :
  deleteTask tasks (Some user) (ObjectId.toString id) = (Ok code, tasks') ->
  tasks' = removeFirst id tasks.
Proof.
  destruct (findById _id tasks (ObjectId.toString id)) as [[task|]|e] eqn:Hfind.
  - rewrite (deleteTask_found _ _ _ _ Hfind).
    rewrite (findById_cast tasks _ id (cast_toString id)) in Hfind.
    injection Hfind as Hfind.
    pose proof (find_some _ _ Hfind) as [_ Hid]. apply ObjectId_eqb_eq in Hid.
    rewrite Hid.
    destruct (notAuthorized user _); [discriminate|].
    now intros [= _ <-].
  - unfold deleteTask. rewrite Hfind. discriminate.
  - unfold deleteTask. rewrite Hfind. discriminate.
Qed.

(** X8. The employee dashboard stays a mirror of the server: if its list
    is the actor's tasks in the collection (ids being distinct), then after
    a successful add, update or delete, requested as the dashboard requests
    it (with the actor's id and the task's id as JSON has given them) and
    handled as the dashboard handles the answer, its list is again the
    actor's tasks in the collection as the server has left it. *)
Theorem employee_dashboard_mirrors_server (tasks tasks' : list Task)
        (user : User) (uid id : ObjectId.t) (err : string) :
  NoDup (map _id tasks) ->
  let st := EmployeeDashboard.mkState (Spec.tasksOf uid tasks) err in
  (forall newId now form data,
      uid = user_id user ->
      createTask castMessage tasks (Some user) newId now
                 (TaskForm.toCreateBody form (ObjectId.toString uid))
      = (Ok (201, data), tasks') ->
      EmployeeDashboard.tasks
        (fst (EmployeeDashboard.addTask st (Axios.Resolved data)))
      = Spec.tasksOf uid tasks')
  /\ (forall patch data,
         updateTask findByIdAndUpdatePatch tasks (Some user)
                    (ObjectId.toString id) patch
         = (Ok (200, Some data), tasks') ->
         EmployeeDashboard.tasks
           (fst (EmployeeDashboard.updateTask st id (Axios.Resolved data)))
         = Spec.tasksOf uid tasks')
  /\ (deleteTask tasks (Some user) (ObjectId.toString id) = (Ok 200, tasks') ->
      EmployeeDashboard.tasks
        (fst (EmployeeDashboard.deleteTask st id (Axios.Resolved tt)))
      = Spec.tasksOf uid tasks').
Proof.
  intros Hnd st. subst st. simpl. split; [|split].
  - intros newId now form data Huid Hcreate.
    destruct (createTask_Ok castMessage _ _ _ _ _ _ _ Hcreate)
      as [-> [_ [Howner _]]].
    unfold Spec.tasksOf. rewrite filter_app. simpl.
    assert (Hown : employeeId data = uid).
    { assert (Ho : Spec.ownerOf user
                     (TaskForm.toCreateBody form (ObjectId.toString uid))
                   = ObjectId.toString uid).
      { unfold Spec.ownerOf. simpl.
        destruct (JS.truthy (ObjectId.toString uid)); [reflexivity | now subst uid]. }
      rewrite Ho, cast_toString in Howner. congruence. }
    now rewrite Hown, ObjectId_eqb_refl.
  - intros patch data Hupdate.
    apply updateTask_Ok in Hupdate. destruct Hupdate as [task [Hfind [-> ->]]].
    symmetry. now apply tasksOf_replaceFirst.
  - intros Hdelete. apply deleteTask_Ok in Hdelete. subst tasks'.
    symmetry. now apply tasksOf_removeFirst.
Qed.

Lemma validationError_status (ms : list string) :
  eb_status (errorHandler (ValidationError ms)) = 400.
Proof. reflexivity. Qed.

(** X9. When the task endpoints answer with a server error.  For a
    request whose token belongs to an existing user, so that [req.user] is
    that user, they do not: a failed delete or listing of an employee's
    tasks is answered 401 or 404, a failed create whose body gives its
    fields as texts 400 or 401, and a failed update whose body is made of
    the task form's fields 400, 401 or 404.  For a token whose user has
    been deleted, [req.user] is [null] and reading it throws: every create
    is answered 500, and so are update and delete of an existing task and
    the listing for an existing employee, whoever asks and whatever the
    body; nothing is changed. *)
Theorem task_requests_error_statuses (users : list User) (tasks : list Task)
        (user : User) (id : string) (newId : ObjectId.t) (now : Z)
        (patch : Patch) (body : CreateBody) (e : Err) :
  (fst (updateTask findByIdAndUpdatePatch tasks (Some user) id patch) = Next e ->
   In (eb_status (errorHandler e)) [400; 401; 404])
  /\ (fst (deleteTask tasks (Some user) id) = Next e ->
      In (eb_status (errorHandler e)) [401; 404])
  /\ (getEmployeeTasks users tasks (Some user) id = Next e ->
      In (eb_status (errorHandler e)) [401; 404])
  /\ (fst (createTask castMessage tasks (Some user) newId now body) = Next e ->
      In (eb_status (errorHandler e)) [400; 401])
  /\ (exists prop,
        createTask castMessage tasks None newId now body
        = (Next (nullRead prop), tasks))
  /\ (forall task (Body : Type) findByIdAndUpdate (anyBody : Body),
        findById _id tasks id = Ok (Some task) ->
        updateTask findByIdAndUpdate tasks None id anyBody
        = (Next (nullRead "role"), tasks)
        /\ deleteTask tasks None id = (Next (nullRead "role"), tasks))
  /\ (forall u,
        findById user_id users id = Ok (Some u) ->
        getEmployeeTasks users tasks None id = Next (nullRead "role"))
  /\ (forall prop, eb_status (errorHandler (nullRead prop)) = 500).
Proof.
  split; [|split; [|split; [|split; [|split; [|split; [|split]]]]]].
  - unfold updateTask, findById, findByIdAndUpdatePatch.
    destruct (ObjectId.cast id) as [oid|]; simpl.
    + destruct (find _ tasks) as [task|]; simpl.
      * destruct (notAuthorized user _); simpl.
        -- intros [= <-]. simpl. tauto.
        -- destruct (runValidators (castPatch patch)); simpl; [discriminate|].
           intros [= <-]. simpl. tauto.
      * intros [= <-]. simpl. tauto.
    + intros [= <-]. simpl. tauto.
  - unfold deleteTask, findById. destruct (ObjectId.cast id) as [oid|]; simpl.
    + destruct (find _ tasks) as [task|]; simpl.
      * destruct (notAuthorized user _); simpl; [|discriminate].
        intros [= <-]. simpl. tauto.
      * intros [= <-]. simpl. tauto.
    + intros [= <-]. simpl. tauto.
  - unfold getEmployeeTasks, findById, findByEmployeeId.
    destruct (ObjectId.cast id) as [oid|]; simpl.
    + destruct (find _ users) as [u|]; simpl.
      * destruct (notAuthorized user id); simpl; [|discriminate].
        intros [= <-]. simpl. tauto.
      * intros [= <-]. simpl. tauto.
    + intros [= <-]. simpl. tauto.
  - rewrite createTask_cases.
    destruct (notAuthorized user _); simpl.
    + intros [= <-]. simpl. tauto.
    + destruct (validateTask castMessage body (Spec.ownerOf user body)),
               (ObjectId.cast (Spec.ownerOf user body)); simpl;
        first [discriminate | intros [= <-]; simpl; tauto].
  - unfold createTask. now eexists.
  - intros task Body findByIdAndUpdate anyBody Hfind.
    unfold updateTask, deleteTask. now rewrite Hfind.
  - intros u Hfind. unfold getEmployeeTasks. now rewrite Hfind.
  - reflexivity.
Qed.

End Mirror.

(** John marks his bug task as done and his dashboard follows. *)
Lemma employee_dashboard_mirrors_server_witness :
  EmployeeDashboard.tasks
    (fst (EmployeeDashboard.updateTask
            (EmployeeDashboard.mkState
               (Spec.tasksOf (Server.user_id Samples.john) Samples.tasks) "")
            (Server._id Samples.bugTask)
            (Axios.Resolved
               (Server.applyPatch Samples.donePatch Samples.bugTask))))
  = Spec.tasksOf (Server.user_id Samples.john)
      (Server.replaceFirst (Server._id Samples.bugTask)
         (Server.applyPatch Samples.donePatch) Samples.tasks).
Proof.
  refine (proj1 (proj2 (employee_dashboard_mirrors_server
            Samples.castMessage Samples.tasks _ Samples.john
            (Server.user_id Samples.john) (Server._id Samples.bugTask) "" _))
            Samples.donePatch _ eq_refl).
  repeat constructor; simpl; intuition discriminate.
Defined.

(** ** Registration, login and the bearer token *)
Section Accounts.
Import Server.
Variable compare : string -> string -> bool.
Variable getSignedJwtToken : User -> string.
Variable hash : string -> string.
Variable validEmail : string -> bool.
Variable verify : string -> option string.

Lemma register_cases (users : list User) (newId : ObjectId.t) (body : RegisterBody) :
  register getSignedJwtToken hash validEmail users newId body
  = match validateUser validEmail body with
    | m :: ms => (Next (ValidationError (m :: ms)), users)
    | [] =>
        let user :=
          mkUser newId (JS.trim (orEmpty (rb_name body))) (orEmpty (rb_email body))
                 (hash (orEmpty (rb_password body)))
                 (orElse (rb_role body) "employee")
                 (JS.trim (orEmpty (rb_department body))) in
        if existsb (fun u => String.eqb (user_email u) (orEmpty (rb_email body)))
                   users
        then (Next DuplicateKey, users)
        else (Ok (sendTokenResponse getSignedJwtToken user 201),
              (users ++ [user])%list)
    end.
Proof.
  unfold register, createUser.
  destruct (validateUser validEmail body); [|reflexivity].
  simpl. destruct (existsb _ users); reflexivity.
Qed.

Lemma existsb_email (users : list User) (email : string) :
  existsb (fun u => String.eqb (user_email u) email) users = true
  <-> In email (map user_email users).
Proof.
  rewrite existsb_exists, in_map_iff. split.
  - intros [u [Hu He]]. apply String.eqb_eq in He. now exists u.
  - intros [u [He Hu]]. exists u. split; [exact Hu | now apply String.eqb_eq].
Qed.

(** X10. Registration never creates a second account for an email: while
    the stored emails are distinct they stay distinct after any
    registration request, and a request for an email that is already
    registered fails with status 400 and leaves the users as they were
    (with "Duplicate field value entered" when the body is otherwise
    valid). *)
Theorem register_keeps_emails_distinct (users : list User) (newId : ObjectId.t)
        (body : RegisterBody) :
  NoDup (map user_email users) ->
  NoDup (map user_email
             (snd (register getSignedJwtToken hash validEmail users newId body)))
  /\ (In (orEmpty (rb_email body)) (map user_email users) ->
      exists e,
        register getSignedJwtToken hash validEmail users newId body
        = (Next e, users)
        /\ eb_status (errorHandler e) = 400
        /\ (validateUser validEmail body = [] ->
            errorHandler e = mkErrorBody 400 "Duplicate field value entered")).
Proof.
  intros Hnd. rewrite register_cases.
  destruct (validateUser validEmail body) as [|m ms].
  - cbv zeta.
    destruct (existsb _ users) eqn:E.
    + split; [exact Hnd|]. intros _. exists DuplicateKey. now repeat split.
    + split.
      * simpl. rewrite map_app. simpl. apply NoDup_app; [exact Hnd | | ].
        -- constructor; [intros [] | constructor].
        -- intros a Ha [<- | []]. apply existsb_email in Ha. congruence.
      * intros Hin. apply existsb_email in Hin. congruence.
  - split; [exact Hnd|]. intros _. exists (ValidationError (m :: ms)).
    split; [reflexivity|]. split; [reflexivity | discriminate].
Qed.

Lemma required_ok (message : string) (rest : string -> list string)
      (o : option string) :
  required message rest o = [] -> exists v, o = Some v /\ v <> "" /\ rest v = [].
Proof.
  unfold required. destruct o as [v|]; [|discriminate].
  destruct (String.eqb v "") eqn:E; [discriminate|].
  intros H. exists v. apply String.eqb_neq in E. now repeat split.
Qed.

Lemma find_app_new (users : list User) (user : User) :
  existsb (fun u => String.eqb (user_email u) (user_email user)) users = false ->
  findOne (users ++ [user]) (user_email user) = Some user.
Proof.
  unfold findOne. induction users as [|u l IH]; simpl.
  - intros _. now rewrite String.eqb_refl.
  - destruct (String.eqb (user_email u) (user_email user)); [discriminate|].
    exact IH.
Qed.

(** X11. Register, then log in: when registration succeeds and the hash
    comparison accepts the password against its own hash, a login with the
    same email and password succeeds and answers the same account (id, name,
    email, role and department as registration answered them).  The role
    is the one the body asks for, ["employee"] when it names none: nothing
    on the server keeps a body from asking for ["admin"]. *)
Theorem register_then_login (users users' : list User) (newId : ObjectId.t)
        (body : RegisterBody) (answer : TokenResponse) :
  register getSignedJwtToken hash validEmail users newId body
  = (Ok (201, answer), users') ->
  compare (orEmpty (rb_password body)) (hash (orEmpty (rb_password body))) = true ->
  (exists answer',
      login compare getSignedJwtToken users'
            (mkLoginBody (rb_email body) (rb_password body))
      = Ok (200, answer')
      /\ tr_id answer' = newId /\ tr_id answer = newId
      /\ tr_name answer' = tr_name answer
      /\ tr_email answer' = tr_email answer
      /\ tr_role answer' = tr_role answer
      /\ tr_department answer' = tr_department answer)
  /\ tr_role answer = orElse (rb_role body) "employee"
  /\ In (tr_role answer) roleEnum.
Proof.
  rewrite register_cases.
  destruct (validateUser validEmail body) as [|m ms] eqn:Hv; [|discriminate].
  cbv zeta. destruct (existsb _ users) eqn:E; [discriminate|].
  intros [= <- <-] Hcmp.
  unfold validateUser in Hv.
  apply app_eq_nil in Hv. destruct Hv as [_ Hv].
  apply app_eq_nil in Hv. destruct Hv as [He Hv].
  apply app_eq_nil in Hv. destruct Hv as [Hp Hv].
  apply app_eq_nil in Hv. destruct Hv as [Hr _].
  apply required_ok in He, Hp.
  destruct He as [email [Hemail [Hne _]]], Hp as [password [Hpassword [Hnp _]]].
  rewrite Hemail, Hpassword in *. simpl in *.
  split; [|split; [reflexivity|]].
  - unfold login. simpl.
    apply truthy_true in Hne, Hnp. rewrite Hne, Hnp. simpl.
    pose proof (find_app_new users
                  (mkUser newId (JS.trim (orEmpty (rb_name body))) email
                          (hash password) (orElse (rb_role body) "employee")
                          (JS.trim (orEmpty (rb_department body)))) E) as Hfind.
    simpl in Hfind. rewrite Hfind. simpl. rewrite Hcmp. simpl.
    eexists. repeat split.
  - destruct (rb_role body) as [r|]; simpl in *.
    + now apply validateEnum_ok in Hr.
    + now left.
Qed.

End Accounts.

(** A second registration with John's email. *)
Lemma register_keeps_emails_distinct_witness :
  exists e,
    Server.register Samples.getSignedJwtToken Samples.hash Samples.validEmail
      Samples.users Samples.miaId
      (Server.mkRegisterBody (Some "Johnny") (Some "john@example.com")
         (Some "hunter22") None (Some "Sales"))
    = (Server.Next e, Samples.users)
    /\ Server.eb_status (Server.errorHandler e) = 400.
Proof.
  destruct (proj2 (register_keeps_emails_distinct Samples.getSignedJwtToken
                     Samples.hash Samples.validEmail Samples.users Samples.miaId
                     (Server.mkRegisterBody (Some "Johnny") (Some "john@example.com")
                        (Some "hunter22") None (Some "Sales")) 
                     ltac:(repeat constructor; simpl; intuition discriminate))
                  ltac:(simpl; tauto))
    as [e [H1 [H2 _]]].
  exists e. split; assumption.
Defined.

(** Mia registers through the form and logs in. *)
Lemma register_then_login_witness :
  exists answer,
    Server.login Samples.compare Samples.getSignedJwtToken
      (Samples.users ++ [Samples.mia])
      (Server.mkLoginBody (Some "mia@example.com") (Some "s3cret!"))
    = Server.Ok (200, answer)
    /\ Server.tr_id answer = Samples.miaId.
Proof.
  destruct (proj1 (register_then_login Samples.compare Samples.getSignedJwtToken
                     Samples.hash Samples.validEmail Samples.users
                     (Samples.users ++ [Samples.mia]) Samples.miaId
                     (Register.requestBody Samples.miaForm)
                     (snd (Server.sendTokenResponse Samples.getSignedJwtToken
                             Samples.mia 201))
                     eq_refl eq_refl))
    as [answer [H1 [H2 _]]].
  exists answer. split; assumption.
Defined.

(** ** The bearer token *)
Section Bearer.
Import Server.
Variable verify : string -> option string.

Lemma includes_cons_false (c : ascii) (r : string) (sep : ascii) :
  JS.includes (String c r) (String sep "") = false ->
  Ascii.eqb c sep = false /\ JS.includes r (String sep "") = false.
Proof.
  cbn [JS.includes JS.startsWith]. intros H.
  apply orb_false_iff in H. destruct H as [H1 H2].
  rewrite Ascii.eqb_sym in H1. destruct (Ascii.eqb c sep); [|now split].
  destruct r; discriminate.
Qed.

(** A text without the separator is a single piece. *)
Lemma splitFrom_no_sep (sep : ascii) (acc s : string) :
  JS.includes s (String sep "") = false -> splitFrom sep acc s = [acc ++ s].
Proof.
  revert acc. induction s as [|c r IH]; intros acc H; simpl.
  - f_equal. induction acc as [|a acc IHa]; simpl; [reflexivity | now f_equal].
  - apply includes_cons_false in H. destruct H as [Hc Hr]. rewrite Hc.
    rewrite IH by exact Hr. f_equal.
    induction acc as [|a acc IHa]; simpl; [reflexivity | now f_equal].
Qed.

Lemma protect_cases (users : list User) (authorization : option string) :
  protect verify users authorization
  = match authorization with
    | Some h =>
        if JS.startsWith "Bearer" h then
          match nth_error (split " "%char h) 1 with
          | Some token =>
              if JS.truthy token then
                match verify token with
                | Some id =>
                    match findById user_id users id with
                    | Ok u => Ok u
                    | Next _ => Next notAuthorizedRoute
                    end
                | None => Next notAuthorizedRoute
                end
              else Next notAuthorizedRoute
          | None => Next notAuthorizedRoute
          end
        else Next notAuthorizedRoute
    | None => Next notAuthorizedRoute
    end.
Proof.
  unfold protect. destruct authorization as [h|]; [|reflexivity].
  destruct (JS.startsWith "Bearer" h) eqn:Hb.
  - assert (Ht : JS.truthy h = true).
    { destruct h; [discriminate | reflexivity]. }
    rewrite Ht. cbn [andb].
    destruct (nth_error (split " " h) 1) as [token|]; [|reflexivity].
    cbn [JS.truthyOpt]. destruct (JS.truthy token); reflexivity.
  - rewrite andb_false_r. reflexivity.
Qed.

(** X12. [protect] lets a request through only on a header that starts
    with "Bearer", whose second space-separated piece is a non-empty token
    that verifies; [req.user] is then whatever the lookup of the decoded id
    gives, the [null] of a user deleted in the meantime included.  A header
    "Bearer <token>" with a verifying token free of spaces is let through
    exactly when the decoded id casts to an ObjectId, with the user of
    that ObjectId.  Every refusal is the same error, "Not authorized to
    access this route" with status 401, whatever was wrong. *)
Theorem protect_bearer_token (users : list User) (authorization : option string) :
  let answer := protect verify users authorization in
  (forall e, answer = Next e -> e = notAuthorizedRoute)
  /\ (forall u,
         answer = Ok u ->
         exists h token id,
           authorization = Some h
           /\ JS.startsWith "Bearer" h = true
           /\ nth_error (split " "%char h) 1 = Some token
           /\ token <> ""
           /\ verify token = Some id
           /\ findById user_id users id = Ok u)
  /\ (forall token id,
         authorization = Some ("Bearer " ++ token) ->
         token <> "" -> JS.includes token " " = false ->
         verify token = Some id ->
         (forall oid, ObjectId.cast id = Some oid ->
                      answer = Ok (find (fun u => ObjectId.eqb (user_id u) oid) users))
         /\ (ObjectId.cast id = None -> answer = Next notAuthorizedRoute))
  /\ (authorization = None -> answer = Next notAuthorizedRoute).
Proof.
  intros answer. subst answer. rewrite protect_cases.
  split; [|split; [|split]].
  - intros e. destruct authorization as [h|]; [|now intros [= <-]].
    destruct (JS.startsWith "Bearer" h); [|now intros [= <-]].
    destruct (nth_error _ 1) as [token|]; [|now intros [= <-]].
    destruct (JS.truthy token); [|now intros [= <-]].
    destruct (verify token) as [id|]; [|now intros [= <-]].
    destruct (findById _ _ _); [discriminate | now intros [= <-]].
  - intros u. destruct authorization as [h|]; [|discriminate].
    destruct (JS.startsWith "Bearer" h) eqn:Hb; [|discriminate].
    destruct (nth_error _ 1) as [token|] eqn:Hn; [|discriminate].
    destruct (JS.truthy token) eqn:Ht; [|discriminate].
    destruct (verify token) as [id|] eqn:Hv; [|discriminate].
    destruct (findById _ _ _) as [u'|e] eqn:Hf; [|discriminate].
    intros [= <-]. exists h, token, id. apply truthy_true in Ht.
    now repeat split.
  - intros token id -> Hne Hsp Hv.
    change (JS.startsWith "Bearer" ("Bearer " ++ token)) with true. cbv iota.
    assert (Hsplit : split " " ("Bearer " ++ token) = ["Bearer"; token]).
    { unfold split. cbn. now rewrite splitFrom_no_sep. }
    rewrite Hsplit. cbn [nth_error].
    apply truthy_true in Hne. rewrite Hne, Hv.
    unfold findById. split.
    + intros oid Hid. now rewrite Hid.
    + intros Hid. now rewrite Hid.
  - now intros ->.
Qed.

End Bearer.

(** ** The forms against the schemas *)
Section Forms.
Import Server.

Lemma validatePassword_ok (v : string) :
  validatePassword v = [] <-> (6 <= String.length v)%nat.
Proof.
  unfold validatePassword. destruct (Nat.ltb (String.length v) 6) eqn:L.
  - apply Nat.ltb_lt in L. split; [discriminate | lia].
  - apply Nat.ltb_ge in L. tauto.
Qed.

Lemma validateName_ok (v : string) :
  validateName v = [] <-> (String.length v <= 50)%nat.
Proof.
  unfold validateName. destruct (Nat.ltb 50 (String.length v)) eqn:L.
  - apply Nat.ltb_lt in L. split; [discriminate | lia].
  - apply Nat.ltb_ge in L. tauto.
Qed.

Lemma validateTitle_iff (v : string) :
  validateTitle v = [] <-> v <> "" /\ (String.length v <= 100)%nat.
Proof.
  split; [apply validateTitle_ok|]. intros [Hne Hl]. unfold validateTitle.
  apply String.eqb_neq in Hne. rewrite Hne.
  apply Nat.ltb_ge in Hl. now rewrite Hl.
Qed.

Lemma validateDescription_iff (v : string) :
  validateDescription v = [] <-> (String.length v <= 500)%nat.
Proof.
  split; [apply validateDescription_ok|]. intros Hl. unfold validateDescription.
  apply Nat.ltb_ge in Hl. now rewrite Hl.
Qed.

Lemma validateEnum_iff (path : string) (enum : list string) (v : string) :
  validateEnum path enum v = [] <-> In v enum.
Proof.
  split; [apply validateEnum_ok|]. intros Hin. unfold validateEnum.
  assert (H : existsb (String.eqb v) enum = true).
  { apply existsb_exists. exists v. split; [exact Hin | apply String.eqb_refl]. }
  now rewrite H.
Qed.

Lemma required_iff (message : string) (rest : string -> list string) (v : string) :
  required message rest (Some v) = [] <-> v <> "" /\ rest v = [].
Proof.
  unfold required. destruct (String.eqb v "") eqn:E.
  - apply String.eqb_eq in E. split; [discriminate | now intros [H _]].
  - apply String.eqb_neq in E. tauto.
Qed.

Lemma app_nil_iff {A : Type} (l l' : list A) :
  (l ++ l')%list = [] <-> l = [] /\ l' = [].
Proof.
  split; [apply app_eq_nil | now intros [-> ->]].
Qed.

(** X13. The register form lets a submission through exactly when no field
    is empty, the two passwords are equal and the password has at least
    six characters.  What the server can still refuse in such a
    submission is a name or department made of white space only, a name
    longer than 50 characters after trimming, or an email that does not
    match the pattern; its password rule is already met, and the role it
    asks for is always ["employee"]. *)
Theorem register_form_against_schema (validEmail : string -> bool)
        (f : Register.Form) :
  (Register.validateForm f = None
   <-> Register.name f <> "" /\ Register.email f <> ""
       /\ Register.password f <> "" /\ Register.department f <> ""
       /\ Register.confirmPassword f = Register.password f
       /\ (6 <= String.length (Register.password f))%nat)
  /\ (Register.validateForm f = None ->
      validatePassword (Register.password f) = []
      /\ rb_role (Register.requestBody f) = Some "employee"
      /\ (validateUser validEmail (Register.requestBody f) = []
          <-> JS.trim (Register.name f) <> ""
              /\ (String.length (JS.trim (Register.name f)) <= 50)%nat
              /\ validEmail (Register.email f) = true
              /\ JS.trim (Register.department f) <> "")).
Proof.
  assert (Hiff : Register.validateForm f = None
                 <-> Register.name f <> "" /\ Register.email f <> ""
                     /\ Register.password f <> "" /\ Register.department f <> ""
                     /\ Register.confirmPassword f = Register.password f
                     /\ (6 <= String.length (Register.password f))%nat).
  { unfold Register.validateForm.
    destruct (JS.truthy (Register.name f)) eqn:E1,
             (JS.truthy (Register.email f)) eqn:E2,
             (JS.truthy (Register.password f)) eqn:E3,
             (JS.truthy (Register.confirmPassword f)) eqn:E4,
             (JS.truthy (Register.department f)) eqn:E5; simpl;
      rewrite <- ?truthy_true, ?E1, ?E2, ?E3, ?E5;
      try (split; [discriminate | intros H; decompose [and] H; discriminate]).
    - destruct (String.eqb (Register.password f) (Register.confirmPassword f)) eqn:E6;
        simpl.
      + apply String.eqb_eq in E6.
        destruct (Nat.ltb (String.length (Register.password f)) 6) eqn:L.
        * apply Nat.ltb_lt in L. split; [discriminate|].
          intros H. decompose [and] H. lia.
        * apply Nat.ltb_ge in L. split; [|reflexivity]. intros _. now repeat split.
      + apply String.eqb_neq in E6. split; [discriminate|].
        intros H. decompose [and] H. congruence.
    - split; [discriminate|]. intros H. decompose [and] H.
      apply truthy_true in E3.
      match goal with Hc : Register.confirmPassword f = _ |- _ =>
        rewrite <- Hc in E3 end.
      apply truthy_true in E3. congruence. }
  split; [exact Hiff|]. intros Hok. apply Hiff in Hok.
  destruct Hok as [Hn [He [Hp [Hd [Hc Hl]]]]].
  split; [now apply validatePassword_ok|]. split; [reflexivity|].
  unfold validateUser, Register.requestBody.
  cbn [rb_name rb_email rb_password rb_role rb_department option_map onPath].
  change (validateEnum "role" roleEnum "employee") with (@nil string).
  rewrite !app_nil_iff, !required_iff, validateName_ok, validatePassword_ok.
  unfold validateEmail. destruct (validEmail (Register.email f)).
  - intuition (try discriminate; auto).
  - intuition (try discriminate; auto).
Qed.

(** X14. The task form submits only with a title that is not blank.  For a
    submission whose status and priority come from the form's lists, the
    server's validators then have only the two lengths left to object to:
    the update, and the create for a castable owner, pass exactly when the
    trimmed title has at most 100 characters and the trimmed description at
    most 500. *)
Theorem task_form_against_schema
        (castMessage : string -> string) (f : TaskForm.Form) (owner : string) :
  TaskForm.validate f = None ->
  In (TaskForm.f_status f) statusEnum ->
  In (TaskForm.f_priority f) priorityEnum ->
  let fits :=
    (String.length (JS.trim (TaskForm.f_title f)) <= 100)%nat
    /\ (String.length (JS.trim (TaskForm.f_description f)) <= 500)%nat in
  (runValidators (castPatch (TaskForm.toPatch f)) = [] <-> fits)
  /\ (ObjectId.cast owner <> None ->
      (validateTask castMessage (TaskForm.toCreateBody f owner) owner = []
       <-> fits)).
Proof.
  intros Hv Hs Hp fits. subst fits.
  unfold TaskForm.validate in Hv.
  destruct (JS.truthy (JS.trim (TaskForm.f_title f))) eqn:Ht; [|discriminate].
  apply truthy_true in Ht.
  apply validateEnum_iff with (path := "status") in Hs.
  apply validateEnum_iff with (path := "priority") in Hp.
  split.
  - unfold runValidators, castPatch, TaskForm.toPatch.
    cbn [p_title p_description p_status p_priority option_map onPath].
    rewrite Hs, Hp, !app_nil_r, app_nil_iff, validateTitle_iff,
      validateDescription_iff. tauto.
  - intros Hid. unfold validateTask, TaskForm.toCreateBody.
    cbn [c_title c_description c_status c_priority option_map onPath].
    destruct (ObjectId.cast owner); [|now contradiction Hid].
    rewrite Hs, Hp, !app_nil_r, app_nil_iff, required_iff, validateTitle_iff,
      validateDescription_iff. tauto.
Qed.

End Forms.

(** The release notes form passes the server's validators. *)
Lemma task_form_against_schema_witness :
  Server.runValidators (Server.castPatch (TaskForm.toPatch Samples.notesForm)) = [].
Proof.
  refine (proj2 (proj1 (task_form_against_schema
                          Samples.castMessage Samples.notesForm
                          (ObjectId.toString (Server.user_id Samples.john))
                          eq_refl _ _)) _).
  - simpl. tauto.
  - simpl. tauto.
  - split; apply Nat.leb_le; reflexivity.
Defined.

(** ** Editing a task *)
Section Editing.
Import Server.

(** X15. Saving an edit form that was not touched is harmless for a task as
    the forms produce them: when the stored title and description are
    trimmed, status and priority are set and the due date, if any, is a
    midnight UTC, the body the form sends leaves every field of the task as
    it is; and it passes the validators whenever the task is within the
    schema.  In general the form keeps of a due date only its UTC day. *)
Theorem untouched_edit_changes_nothing (task : Task) (d : string) :
  JS.trim (title task) = title task ->
  description task = Some d -> JS.trim d = d ->
  status task <> "" -> priority task <> "" ->
  (forall due, dueDate task = Some due -> due mod Dates.msPerDay = 0) ->
  applyPatch (castPatch (TaskForm.toPatch (TaskForm.editing task))) task = task
  /\ (Spec.wellFormedTask task ->
      runValidators (castPatch (TaskForm.toPatch (TaskForm.editing task))) = [])
  /\ (forall t due, dueDate t = Some due ->
        TaskForm.f_dueDate (TaskForm.editing t)
        = Some (due - due mod Dates.msPerDay)).
Proof.
  intros Ht Hd Hdt Hs Hp Hdue.
  apply truthy_true in Hs, Hp.
  assert (Hdate : option_map (fun x => x / Dates.msPerDay * Dates.msPerDay)
                             (dueDate task) = dueDate task).
  { destruct (dueDate task) as [due|] eqn:E; [|reflexivity]. simpl. f_equal.
    specialize (Hdue due eq_refl).
    pose proof (Z.div_mod due Dates.msPerDay) as H.
    unfold Dates.msPerDay in *. lia. }
  split; [|split].
  - unfold applyPatch, castPatch, TaskForm.toPatch, TaskForm.editing,
      TaskForm.orDefault.
    cbn [p_title p_description p_status p_priority p_dueDate option_map orElse
         TaskForm.f_title TaskForm.f_description TaskForm.f_status
         TaskForm.f_dueDate TaskForm.f_priority].
    rewrite Hd, Hs, Hp. cbn [orElse]. fold (option_map (fun x => x / Dates.msPerDay * Dates.msPerDay) (dueDate task)).
    rewrite Ht, Hdt, Hdate. destruct task; simpl in *. now rewrite Hd.
  - intros [Hne [Hl [Hdl [Hst Hpr]]]].
    unfold runValidators, castPatch, TaskForm.toPatch, TaskForm.editing,
      TaskForm.orDefault.
    cbn [p_title p_description p_status p_priority p_dueDate option_map onPath
         TaskForm.f_title TaskForm.f_description TaskForm.f_status
         TaskForm.f_dueDate TaskForm.f_priority].
    rewrite Hd, Hs, Hp. cbn [orElse]. rewrite Ht, Hdt.
    rewrite !app_nil_iff, validateTitle_iff, validateDescription_iff,
      !validateEnum_iff.
    repeat split; auto.
  - intros t due E. unfold TaskForm.editing. cbn [TaskForm.f_dueDate].
    rewrite E. simpl. f_equal.
    pose proof (Z.div_mod due Dates.msPerDay) as H.
    unfold Dates.msPerDay in *. lia.
Qed.

End Editing.

(** John opens the edit form of his bug task and saves it as it is. *)
Lemma untouched_edit_changes_nothing_witness :
  Server.applyPatch
    (Server.castPatch (TaskForm.toPatch (TaskForm.editing Samples.bugTask)))
    Samples.bugTask
  = Samples.bugTask.
Proof.
  refine (proj1 (untouched_edit_changes_nothing Samples.bugTask
                   "Address UI issues in the dashboard"
                   eq_refl eq_refl eq_refl _ _ _)).
  - discriminate.
  - discriminate.
  - intros due [= <-]. reflexivity.
Defined.

(** ** The date range picker *)
Section Picker.
Import Server.

Lemma handle_rangeOf (st : DateRangePicker.State) (ev : DateRangePicker.Event) :
  snd (DateRangePicker.handle st ev)
  = Spec.rangeOf (fst (DateRangePicker.handle st ev)).
Proof.
  destruct ev as [v|v|]; simpl; unfold Spec.rangeOf; simpl.
  - destruct (JS.truthy v), (JS.truthy (DateRangePicker.endDate st)); reflexivity.
  - destruct (JS.truthy v), (JS.truthy (DateRangePicker.startDate st)); reflexivity.
  - reflexivity.
Qed.

Lemma run_rangeOf (st : DateRangePicker.State)
      (r : option DateRangePicker.Range) (evs : list DateRangePicker.Event) :
  r = Spec.rangeOf st ->
  snd (DateRangePicker.run st r evs)
  = Spec.rangeOf (fst (DateRangePicker.run st r evs)).
Proof.
  revert st r. induction evs as [|ev evs IH]; intros st r Hr; simpl.
  - exact Hr.
  - pose proof (handle_rangeOf st ev) as H.
    destruct (DateRangePicker.handle st ev) as [st' r']. now apply IH.
Qed.

(** X16. Whatever the user does to the picker after it is mounted, the
    range the dashboard holds is the picker's state: no range when both
    inputs are empty, otherwise the non-empty inputs as bounds.  So the
    dashboard never holds a range without a bound or with an empty bound,
    and its date filter hides the tasks without a due date exactly while
    one of the inputs is set. *)
Theorem picker_range_follows_inputs (evs : list DateRangePicker.Event)
        (newDate : string -> Z) (zone : Dates.Zone) :
  let st := fst (DateRangePicker.run (fst DateRangePicker.mounted)
                   (snd DateRangePicker.mounted) evs) in
  let dateRange := snd (DateRangePicker.run (fst DateRangePicker.mounted)
                          (snd DateRangePicker.mounted) evs) in
  dateRange = Spec.rangeOf st
  /\ (dateRange = None
      <-> DateRangePicker.startDate st = "" /\ DateRangePicker.endDate st = "")
  /\ (forall range,
         dateRange = Some range ->
         (DateRangePicker.r_startDate range <> None
          \/ DateRangePicker.r_endDate range <> None)
         /\ DateRangePicker.r_startDate range <> Some ""
         /\ DateRangePicker.r_endDate range <> Some "")
  /\ (forall l task,
         tt_dueDate task = None ->
         (In task (AdminDashboard.byDateRange zone
                     (AdminDashboard.dateRangeOf newDate dateRange) l)
          <-> In task l
              /\ DateRangePicker.startDate st = ""
              /\ DateRangePicker.endDate st = "")).
Proof.
  intros st dateRange.
  assert (Hr : dateRange = Spec.rangeOf st).
  { apply run_rangeOf. reflexivity. }
  clearbody st dateRange. subst dateRange.
  unfold Spec.rangeOf.
  destruct (JS.truthy (DateRangePicker.startDate st)) eqn:Es,
           (JS.truthy (DateRangePicker.endDate st)) eqn:Ee; simpl;
    (split; [reflexivity|]);
    try apply truthy_true in Es; try apply truthy_true in Ee;
    try (apply negb_false_iff, String.eqb_eq in Es);
    try (apply negb_false_iff, String.eqb_eq in Ee).
  - split; [split; [discriminate | tauto]|]. split.
    + intros range [= <-]. simpl.
      split; [first [left; discriminate | right; discriminate] | split; congruence].
    + intros l task Hnone. rewrite filter_In. unfold AdminDashboard.inDateRange.
      rewrite Hnone. split; [intros [_ H]; discriminate | tauto].
  - split; [split; [discriminate | tauto]|]. split.
    + intros range [= <-]. simpl.
      split; [first [left; discriminate | right; discriminate] | split; congruence].
    + intros l task Hnone. rewrite filter_In. unfold AdminDashboard.inDateRange.
      rewrite Hnone. split; [intros [_ H]; discriminate | tauto].
  - split; [split; [discriminate | tauto]|]. split.
    + intros range [= <-]. simpl.
      split; [first [left; discriminate | right; discriminate] | split; congruence].
    + intros l task Hnone. rewrite filter_In. unfold AdminDashboard.inDateRange.
      rewrite Hnone. split; [intros [_ H]; discriminate | tauto].
  - split; [tauto|]. split; [discriminate|].
    intros l task Hnone. tauto.
Qed.

End Picker.

(** ** Routes *)
Section Routes.

Lemma employee_route_loops (auth : Routing.Auth) (fuel : nat) :
  Routing.isAuthenticated auth = true ->
  Routing.userRole auth <> "admin" -> Routing.userRole auth <> "employee" ->
  Routing.settle fuel auth "/employee-dashboard" = None.
Proof.
  intros Ha Hadm Hemp. apply String.eqb_neq in Hadm, Hemp.
  assert (Happ : Routing.App auth "/employee-dashboard"
                 = Routing.Navigate "/employee-dashboard").
  { change (Routing.App auth "/employee-dashboard")
      with (Routing.ProtectedRoute auth "employee" Routing.EmployeeDashboardPage).
    unfold Routing.ProtectedRoute. now rewrite Ha, Hemp, Hadm. }
  induction fuel as [|fuel IH]; cbn [Routing.settle]; rewrite Happ;
    [reflexivity | exact IH].
Qed.

(** X17. Where the routes lead.  A visitor who is not signed in is sent
    from either dashboard to the login page.  A signed-in administrator or
    employee asking for either dashboard ends, after at most one redirect,
    on the dashboard of their role, and the page the login form navigates
    to is shown without any redirect.  For a signed-in user of any other
    role the employee dashboard redirects to itself without end. *)
Theorem dashboards_lead_home (auth : Routing.Auth) (path : string) :
  path = "/admin-dashboard" \/ path = "/employee-dashboard" ->
  (Routing.isAuthenticated auth = false ->
   Routing.settle 1 auth path = Some (Routing.Render Routing.LoginPage))
  /\ (Routing.isAuthenticated auth = true -> Routing.userRole auth = "admin" ->
      Routing.settle 1 auth path = Some (Routing.Render Routing.AdminDashboardPage)
      /\ Routing.App auth (Routing.afterLogin (Routing.userRole auth))
         = Routing.Render Routing.AdminDashboardPage)
  /\ (Routing.isAuthenticated auth = true -> Routing.userRole auth = "employee" ->
      Routing.settle 1 auth path
      = Some (Routing.Render Routing.EmployeeDashboardPage)
      /\ Routing.App auth (Routing.afterLogin (Routing.userRole auth))
         = Routing.Render Routing.EmployeeDashboardPage)
  /\ (Routing.isAuthenticated auth = true ->
      Routing.userRole auth <> "admin" -> Routing.userRole auth <> "employee" ->
      forall fuel, Routing.settle fuel auth "/employee-dashboard" = None).
Proof.
  intros Hpath. destruct auth as [a r]. simpl.
  split; [|split; [|split]].
  - intros ->. destruct Hpath as [-> | ->]; reflexivity.
  - intros -> ->. destruct Hpath as [-> | ->]; split; reflexivity.
  - intros -> ->. destruct Hpath as [-> | ->]; split; reflexivity.
  - intros -> Hadm Hemp fuel.
    now apply (employee_route_loops (Routing.mkAuth true r)).
Qed.

End Routes.

(** An employee who types the admin dashboard's address. *)
Lemma dashboards_lead_home_witness :
  Routing.settle 1 (Routing.mkAuth true "employee") "/admin-dashboard"
  = Some (Routing.Render Routing.EmployeeDashboardPage).
Proof.
  exact (proj1 (proj1 (proj2 (proj2 (dashboards_lead_home
           (Routing.mkAuth true "employee") "/admin-dashboard"
           (or_introl eq_refl)))) eq_refl eq_refl)).
Defined.

(** ** The quick filters and the search box *)
Section QuickFilters.
Import Server.
Variable zone : Dates.Zone.

Lemma status_filter_In (now : Z) (tasks : list Task) (task : Task) :
  (In task (EmployeeDashboard.filteredTasks zone "todo" now tasks)
   <-> In task tasks /\ status task = "To Do")
  /\ (In task (EmployeeDashboard.filteredTasks zone "inprogress" now tasks)
      <-> In task tasks /\ status task = "In Progress")
  /\ (In task (EmployeeDashboard.filteredTasks zone "review" now tasks)
      <-> In task tasks /\ status task = "Review")
  /\ (In task (EmployeeDashboard.filteredTasks zone "done" now tasks)
      <-> In task tasks /\ status task = "Done").
Proof.
  split; [|split; [|split]];
    (etransitivity; [exact (filter_In _ _ _) | now rewrite String.eqb_eq]).
Qed.

(** X18. The four status filters of the employee dashboard split the list:
    when every task's status is one of the schema's four, each task is shown
    under exactly one of "todo", "inprogress", "review" and "done", and the
    sizes of the four filtered lists add up to the size of the list. *)
Theorem status_filters_split_the_list (now : Z) (tasks : list Task) :
  Forall (fun t => In (status t) statusEnum) tasks ->
  let shown f := EmployeeDashboard.filteredTasks zone f now tasks in
  (forall task,
      In task tasks ->
      exists f,
        In f Spec.statusFilters /\ In task (shown f)
        /\ forall g, In g Spec.statusFilters -> In task (shown g) -> g = f)
  /\ (List.length (shown "todo") + List.length (shown "inprogress")
      + List.length (shown "review") + List.length (shown "done")
      = List.length tasks)%nat.
Proof.
  intros Hall shown. subst shown. cbv beta. split.
  - intros task Hin. rewrite Forall_forall in Hall. specialize (Hall task Hin).
    destruct (status_filter_In now tasks task) as [H1 [H2 [H3 H4]]].
    simpl in Hall.
    destruct Hall as [E | [E | [E | [E | []]]]]; symmetry in E;
      [exists "todo" | exists "inprogress" | exists "review" | exists "done"];
      (split; [simpl; tauto|]);
      (split; [tauto|]);
      intros g [<- | [<- | [<- | [<- | []]]]] Hg; try reflexivity;
      first [apply H1 in Hg | apply H2 in Hg | apply H3 in Hg | apply H4 in Hg];
      destruct Hg as [_ Hg]; rewrite E in Hg; discriminate.
  - change (EmployeeDashboard.filteredTasks zone "todo" now tasks)
      with (filter (fun task => String.eqb (status task) "To Do") tasks).
    change (EmployeeDashboard.filteredTasks zone "inprogress" now tasks)
      with (filter (fun task => String.eqb (status task) "In Progress") tasks).
    change (EmployeeDashboard.filteredTasks zone "review" now tasks)
      with (filter (fun task => String.eqb (status task) "Review") tasks).
    change (EmployeeDashboard.filteredTasks zone "done" now tasks)
      with (filter (fun task => String.eqb (status task) "Done") tasks).
    induction Hall as [|t l Ht _ IH]; [reflexivity|].
    simpl in Ht. cbn [filter List.length].
    destruct Ht as [E | [E | [E | [E | []]]]]; rewrite <- E;
      cbn [String.eqb Ascii.eqb Bool.eqb andb List.length]; lia.
Qed.

Lemma append_empty_r (s : string) : s ++ "" = s.
Proof. induction s as [|c s IH]; simpl; [reflexivity | now rewrite IH]. Qed.

(** X19. What the search box finds, for any term: a blank term (empty or
    white space only, the no-break space included) shows the whole list;
    any other term keeps exactly the tasks whose title, description or
    owner name contains the term as typed, spaces included, up to letter
    case (accented capitals included).  In particular a listed task is
    found by its own title when that is not blank. *)
Theorem search_finds_by_any_field (term : string) (l : list TransformedTask)
        (task : TransformedTask) :
  (Spec.blank term -> AdminDashboard.bySearch term l = l)
  /\ (~ Spec.blank term ->
      (In task (AdminDashboard.bySearch term l)
       <-> In task l
           /\ (Spec.ciContains term (tt_title task)
               \/ (exists d, tt_description task = Some d /\ Spec.ciContains term d)
               \/ Spec.ciContains term (emp_name (employee task)))))
  /\ (In task l -> ~ Spec.blank (tt_title task) ->
      In task (AdminDashboard.bySearch (tt_title task) l)).
Proof.
  assert (Hgen : forall q, ~ Spec.blank q ->
            (In task (AdminDashboard.bySearch q l)
             <-> In task l
                 /\ (Spec.ciContains q (tt_title task)
                     \/ (exists d, tt_description task = Some d
                                   /\ Spec.ciContains q d)
                     \/ Spec.ciContains q (emp_name (employee task))))).
  { intros q Hq. rewrite <- trim_blank in Hq. unfold AdminDashboard.bySearch.
    assert (Hne : q <> "") by (intros ->; now apply Hq).
    apply truthy_true in Hq. rewrite Hq, filter_In.
    now rewrite (matchesSearch_spec q task Hne). }
  split; [|split; [apply Hgen|]].
  - intros Hblank. apply trim_blank in Hblank.
    unfold AdminDashboard.bySearch. now rewrite Hblank.
  - intros Hin Ht. apply Hgen; [exact Ht|]. split; [exact Hin|]. left.
    exists "", (tt_title task), "". split; [|apply sameText_refl].
    simpl. symmetry. apply append_empty_r.
Qed.

End QuickFilters.

(** The seed's three tasks under the four status filters. *)
Lemma status_filters_split_the_list_witness :
  (List.length (EmployeeDashboard.filteredTasks Samples.utc "todo" Samples.noonMay10 Samples.tasks)
   + List.length (EmployeeDashboard.filteredTasks Samples.utc "inprogress" Samples.noonMay10 Samples.tasks)
   + List.length (EmployeeDashboard.filteredTasks Samples.utc "review" Samples.noonMay10 Samples.tasks)
   + List.length (EmployeeDashboard.filteredTasks Samples.utc "done" Samples.noonMay10 Samples.tasks)
   = List.length Samples.tasks)%nat.
Proof.
  refine (proj2 (status_filters_split_the_list Samples.utc Samples.noonMay10
                   Samples.tasks _)).
  repeat constructor; simpl; tauto.
Defined.

(** ** More runs on the seed data *)
Section MoreRuns.
Import Server Samples.

(** A bearer header is read at its second piece: a doubled space or a
    missing token is refused like a missing header. *)
Example protect_seed :
  protect verify users
          (Some "Bearer jwt.650000000000000000000002.employee") = Ok (Some john)
  /\ protect verify users
             (Some "Bearer  jwt.650000000000000000000002.employee")
     = Next notAuthorizedRoute
  /\ protect verify users (Some "Bearer") = Next notAuthorizedRoute
  /\ protect verify users None = Next notAuthorizedRoute
  /\ protect verify users
             (Some "Bearer jwt.65000000000000000000ffff.employee") = Ok None.
Proof. repeat split. Qed.

Example register_seed :
  register getSignedJwtToken hash validEmail users miaId
           (Register.requestBody miaForm)
  = (Ok (sendTokenResponse getSignedJwtToken mia 201), (users ++ [mia])%list)
  /\ Register.validateForm miaForm = None
  /\ Register.validateForm
       (Register.mkForm "Mia Analyst" "mia@example.com" "s3cr" "s3cr" "Finance")
     = Some "Password must be at least 6 characters".
Proof. repeat split. Qed.

(** A token whose user has been deleted passes [protect] with a null
    [req.user]; listing John's tasks with it is answered 500. *)
Example deleted_user_seed :
  bind (protect verify users
                (Some "Bearer jwt.65000000000000000000ffff.employee"))
       (fun reqUser =>
          getEmployeeTasks users tasks reqUser "650000000000000000000002")
  = Next (nullRead "role")
  /\ errorHandler (nullRead "role")
     = mkErrorBody 500 "Cannot read properties of null (reading 'role')".
Proof. split; reflexivity. Qed.

(** An employee may not create a task for somebody else. *)
Example createTask_seed :
  createTask castMessage tasks (Some sarah) notesId noonMay10
             (TaskForm.toCreateBody notesForm (ObjectId.toString (user_id john)))
  = (Next (ErrorResponse "Not authorized to create tasks for other employees" 401),
     tasks)
  /\ createTask castMessage tasks (Some john) notesId noonMay10
                (TaskForm.toCreateBody notesForm (ObjectId.toString (user_id john)))
     = (Ok (201, notesTask), (tasks ++ [notesTask])%list).
Proof. split; reflexivity. Qed.

(** Setting a start date, an end date, then emptying the start date. *)
Example picker_seed :
  DateRangePicker.run (fst DateRangePicker.mounted) (snd DateRangePicker.mounted)
    [DateRangePicker.StartDateChange "2025-05-01";
     DateRangePicker.EndDateChange "2025-05-31";
     DateRangePicker.StartDateChange ""]
  = (DateRangePicker.mkState "" "2025-05-31",
     Some (DateRangePicker.mkRange None (Some "2025-05-31"))).
Proof. reflexivity. Qed.

End MoreRuns.
